(** * The Python stack unwinder (bpf/unwinders/pyperf.bpf.c)

    A shallow embedding of the two BPF programs of the Python unwinder,
    [unwind_python_stack] (the perf-event entry point, "P1") and
    [walk_python_stack] (the self-tail-calling frame walker, "P2"), together
    with the helpers [tls_read], [read_symbol] and [reset_symbol].

    The programs are written in a small state-and-exit monad over the per-CPU
    data they touch.  Kernel helpers ([bpf_probe_read_user], [bpf_tail_call],
    map lookups) and the collaborators declared in the headers
    ([aggregate_stacks], [hash_stack], [get_symbol_id], [read_tls_base], the
    [ERROR_MSG]/[ERROR_SAMPLE] macros) are taken from an environment record
    and leave events in a trace.  [LOG] only prints when
    [verbose] is set and has no effect on the data; it is left out. *)

From Stdlib Require Import ZArith Lia Ascii String.
From stdpp Require Import base gmap list strings.

Local Open Scope Z_scope.

(** ** Machine integers *)

Definition wrap64 (x : Z) : Z := x mod 2 ^ 64.
Definition wrap32 (x : Z) : Z := x mod 2 ^ 32.

(** Conversion to [int] / [s32] / [pid_t]. *)
Definition to_s32 (x : Z) : Z :=
  let u := wrap32 x in if u <? 2 ^ 31 then u else u - 2 ^ 32.

(** Pointer arithmetic on [void *] and [u64]: addition modulo 2^64. *)
Definition padd (p off : Z) : Z := wrap64 (p + off).

(** ** Constants of pyperf.h and shared.h

    The constants are defined in the two headers; here they are parameters
    of the development. *)

Record Constants := {
  PYTHON_STACK_FRAMES_PER_PROG : Z;
  PYTHON_STACK_PROG_CNT : Z;
  MAX_STACK_DEPTH : Z;
  FRAME_OWNED_BY_CSTACK : Z;
  LIBC_IMPLEMENTATION_GLIBC : Z;
  LIBC_IMPLEMENTATION_MUSL : Z;
  (* sizes of the three character arrays of [symbol_t] *)
  CLASS_NAME_LEN : nat;
  METHOD_NAME_LEN : nat;
  PATH_LEN : nat
}.

(** The two targets selected by [__TARGET_ARCH_x86] / [__TARGET_ARCH_arm64]. *)
Inductive Arch := TARGET_ARCH_x86 | TARGET_ARCH_arm64.

(** ** Data model

    Modelled from the spec: the structures are declared in pyperf.h and
    shared.h, outside pyperf.bpf.c.  The records have the fields the code
    accesses, which are the fields section 3 of the specification lists.  Integer fields are [Z]; the widths that matter
    (pointers, [u64] lengths, [int] keys and tags, [u32] line numbers) are
    applied where the code computes with them.  The call counter is
    incremented without wrap-around; it stays between zero and
    [PYTHON_STACK_PROG_CNT] on every run that starts in P1. *)

Record InterpreterInfo := {
  thread_state_addr : Z;
  use_tls : bool;
  tls_key : Z;
  py_version_index : Z;
  libc_implementation : Z;
  libc_offset_index : Z
}.

Record LibcOffsets := {
  pthread_size : Z;
  pthread_block : Z;
  pthread_key_data : Z;
  pthread_key_data_size : Z
}.

Record PyThreadStateOffsets := { frame : Z; cframe : Z; thread_id : Z }.
Record PyCFrameOffsets := { current_frame : Z }.
Record PyFrameObjectOffsets := { f_code : Z; f_back : Z; f_localsplus : Z }.
Record PyInterpreterFrameOffsets := { owner : Z }.
Record PyCodeObjectOffsets :=
  { co_varnames : Z; co_filename : Z; co_name : Z; co_firstlineno : Z }.
Record PyTupleObjectOffsets := { ob_item : Z }.
Record PyObjectOffsets := { ob_type : Z }.
Record PyTypeObjectOffsets := { tp_name : Z }.
Record PyStringOffsets := { data : Z }.

Record PythonVersionOffsets := {
  py_thread_state : PyThreadStateOffsets;
  py_cframe : PyCFrameOffsets;
  py_frame_object : PyFrameObjectOffsets;
  py_interpreter_frame : PyInterpreterFrameOffsets;
  py_code_object : PyCodeObjectOffsets;
  py_tuple_object : PyTupleObjectOffsets;
  py_object : PyObjectOffsets;
  py_type_object : PyTypeObjectOffsets;
  py_string : PyStringOffsets
}.

Inductive stack_status_t := STACK_COMPLETE | STACK_TRUNCATED.

(** [stack_trace_t]: a length and a fixed array of [MAX_STACK_DEPTH]
    64-bit frame encodings. *)
Record stack_trace_t := { len : Z; addresses : list Z }.

Record Sample := {
  tid : Z;
  pid : Z;
  stack_status : stack_status_t;
  stack : stack_trace_t
}.

Record State := {
  interpreter_info : InterpreterInfo;
  thread_state : Z;
  current_pthread : Z;
  frame_ptr : Z;
  stack_walker_prog_call_count : Z;
  sample : Sample
}.

(** [symbol_t]: three fixed-size character buffers. *)
Record symbol_t := {
  class_name : list ascii;
  method_name : list ascii;
  path : list ascii
}.

(** ** Environment: what the kernel and the collaborators provide *)

Record Env := {
  arch : Arch;
  (* bpf_get_current_pid_tgid() *)
  current_pid_tgid : Z;
  (* read_tls_base(bpf_get_current_task()) *)
  tls_base_of_task : Z;
  (* whether the one-slot per-CPU arrays yield a value *)
  heap_slot : bool;
  err_symbol_slot : bool;
  global_state_slot : bool;
  (* the read-only hash maps *)
  pid_to_interpreter_info : gmap Z InterpreterInfo;
  version_specific_offsets : gmap Z PythonVersionOffsets;
  glibc_offsets : gmap Z LibcOffsets;
  musl_offsets : gmap Z LibcOffsets;
  (* whether programs[PYPERF_STACK_WALKING_PROGRAM_IDX] holds the walker,
     i.e. whether bpf_tail_call transfers control *)
  walker_installed : bool;
  (* whether bpf_map_update_elem on stack_traces succeeds *)
  stack_traces_accepts : bool;
  (* the sampled process's memory as the probe helpers see it: an 8-byte
     and a 4-byte read and a NUL-terminated string read at a user address,
     and an 8-byte read through the address-space-agnostic bpf_probe_read;
     [None] is a faulting access *)
  user_u64 : Z -> option Z;
  user_u32 : Z -> option Z;
  user_str : Z -> option (list ascii);
  any_u64 : Z -> option Z;
  (* collaborators *)
  get_symbol_id : symbol_t -> Z;
  hash_stack : stack_trace_t -> Z
}.

(** ** Observable effects *)

Inductive Event :=
| EvProbeReadUser (addr : Z)
| EvProbeReadUserStr (addr : Z)
| EvProbeRead (addr : Z)
| EvReadTlsBase
| EvErrorMsg (msg : string)
| EvErrorSample
| EvAggregateStacks
| EvTailCall
| EvStackTracesUpdate (hash : Z).

(** The mutable per-CPU world: the [global_state] slot, the shared
    [stack_traces] map, the [stack_key.interpreter_stack_id] of the unwind
    state in [heap], and the trace of effects so far (oldest first). *)
Record Cpu := {
  global_state : State;
  stack_traces : gmap Z stack_trace_t;
  interpreter_stack_id : Z;
  trace : list Event
}.

(** ** The monad: state passing over [Cpu], with the two ways a BPF program
    stops early: [return rc], and a tail call that replaces the program. *)

Inductive Res (A : Type) :=
| Val (a : A)
| Return (rc : Z)
| TailCalled.
Arguments Val {A} a.
Arguments Return {A} rc.
Arguments TailCalled {A}.

Definition M (A : Type) : Type := Cpu -> Res A * Cpu.

Definition ret {A} (a : A) : M A := fun c => (Val a, c).

Definition bind {A B} (m : M A) (k : A -> M B) : M B :=
  fun c =>
    match m c with
    | (Val a, c') => k a c'
    | (Return rc, c') => (Return rc, c')
    | (TailCalled, c') => (TailCalled, c')
    end.

Definition return_ {A} (rc : Z) : M A := fun c => (Return rc, c).

Notation "'let!' x ':=' m 'in' k" := (bind m (fun x => k))
  (at level 10, x pattern, m at level 100, k at level 200).
Notation "m '>>' k" := (bind m (fun _ => k))
  (at level 90, right associativity).

Definition emit (e : Event) : M unit :=
  fun c => (Val tt, {| global_state := global_state c;
                       stack_traces := stack_traces c;
                       interpreter_stack_id := interpreter_stack_id c;
                       trace := trace c ++ [e] |}).

Definition get_state : M State := fun c => (Val (global_state c), c).

Definition modify_state (f : State -> State) : M unit :=
  fun c => (Val tt, {| global_state := f (global_state c);
                       stack_traces := stack_traces c;
                       interpreter_stack_id := interpreter_stack_id c;
                       trace := trace c |}).

(** Field updates of [State] and [Sample]. *)

Definition set_thread_state (v : Z) (s : State) : State :=
  {| interpreter_info := interpreter_info s; thread_state := v;
     current_pthread := current_pthread s; frame_ptr := frame_ptr s;
     stack_walker_prog_call_count := stack_walker_prog_call_count s;
     sample := sample s |}.

Definition set_current_pthread (v : Z) (s : State) : State :=
  {| interpreter_info := interpreter_info s; thread_state := thread_state s;
     current_pthread := v; frame_ptr := frame_ptr s;
     stack_walker_prog_call_count := stack_walker_prog_call_count s;
     sample := sample s |}.

Definition set_frame_ptr (v : Z) (s : State) : State :=
  {| interpreter_info := interpreter_info s; thread_state := thread_state s;
     current_pthread := current_pthread s; frame_ptr := v;
     stack_walker_prog_call_count := stack_walker_prog_call_count s;
     sample := sample s |}.

Definition set_call_count (v : Z) (s : State) : State :=
  {| interpreter_info := interpreter_info s; thread_state := thread_state s;
     current_pthread := current_pthread s; frame_ptr := frame_ptr s;
     stack_walker_prog_call_count := v;
     sample := sample s |}.

Definition set_sample (v : Sample) (s : State) : State :=
  {| interpreter_info := interpreter_info s; thread_state := thread_state s;
     current_pthread := current_pthread s; frame_ptr := frame_ptr s;
     stack_walker_prog_call_count := stack_walker_prog_call_count s;
     sample := v |}.

Definition set_stack_status (v : stack_status_t) (s : State) : State :=
  set_sample {| tid := tid (sample s); pid := pid (sample s);
                stack_status := v; stack := stack (sample s) |} s.

Definition set_stack (v : stack_trace_t) (s : State) : State :=
  set_sample {| tid := tid (sample s); pid := pid (sample s);
                stack_status := stack_status (sample s); stack := v |} s.

(** ** The programs *)

Section Programs.

Variable K : Constants.
Variable env : Env.

(** *** Kernel helpers

    The probe helpers return an error code and, as the kernel does, leave
    the destination zeroed when the access faults. *)

Definition EFAULT : Z := -14.

(** Error code and destination of an 8-byte, a 4-byte and an
    address-space-agnostic 8-byte probe read. *)
Definition load_user_u64 (addr : Z) : Z * Z :=
  match user_u64 env addr with
  | Some v => (0, wrap64 v)
  | None => (EFAULT, 0)
  end.

Definition load_user_u32 (addr : Z) : Z * Z :=
  match user_u32 env addr with
  | Some v => (0, wrap32 v)
  | None => (EFAULT, 0)
  end.

Definition load_any_u64 (addr : Z) : Z * Z :=
  match any_u64 env addr with
  | Some v => (0, wrap64 v)
  | None => (EFAULT, 0)
  end.

Definition bpf_probe_read_user (addr : Z) : M (Z * Z) :=
  emit (EvProbeReadUser addr) >> ret (load_user_u64 addr).

Definition bpf_probe_read_user_u32 (addr : Z) : M (Z * Z) :=
  emit (EvProbeReadUser addr) >> ret (load_user_u32 addr).

Definition bpf_probe_read (addr : Z) : M (Z * Z) :=
  emit (EvProbeRead addr) >> ret (load_any_u64 addr).

Definition NUL : ascii := Ascii.zero.

(** The characters of a C string: everything before the first NUL. *)
Fixpoint until_nul (s : list ascii) : list ascii :=
  match s with
  | [] => []
  | c :: s' => if Ascii.eqb c NUL then [] else c :: until_nul s'
  end.

(** What a string read of [size] bytes leaves in a buffer: at most
    [size - 1] characters and the terminator; the bytes behind it keep
    their old contents. *)
Definition str_into_buf (size : nat) (s : list ascii) (buf : list ascii)
  : list ascii :=
  let chars := take (size - 1) (until_nul s) in
  chars ++ [NUL] ++ drop (S (length chars)) buf.

(** Contents of a [size]-byte buffer after a string read: zeroed when the
    access faults. *)
Definition load_user_str (size : nat) (buf : list ascii) (addr : Z)
  : list ascii :=
  match user_str env addr with
  | Some s => str_into_buf size s buf
  | None => replicate size NUL
  end.

Definition bpf_probe_read_user_str (size : nat) (buf : list ascii) (addr : Z)
  : M (list ascii) :=
  emit (EvProbeReadUserStr addr) >> ret (load_user_str size buf addr).

Definition bpf_tail_call : M unit :=
  emit EvTailCall >>
  fun c => if walker_installed env then (TailCalled, c) else (Val tt, c).

(** *** Collaborators of shared.h

    Modelled from the spec: [ERROR_MSG] records a short message in the
    error context, [ERROR_SAMPLE] emits the minimal error sample,
    [aggregate_stacks] hands the sample to the aggregator.  Each is an
    event of the trace. *)

Definition ERROR_MSG (msg : string) : M unit := emit (EvErrorMsg msg).
Definition ERROR_SAMPLE : M unit := emit EvErrorSample.
Definition aggregate_stacks : M unit := emit EvAggregateStacks.

(** [goto label]: run the code at the label and leave the program with its
    return value. *)
Definition goto {A} (label : M Z) : M A :=
  fun c =>
    match label c with
    | (Val rc, c') => (Return rc, c')
    | (Return rc, c') => (Return rc, c')
    | (TailCalled, c') => (TailCalled, c')
    end.

(** A call of a helper function from a program: the helper's [return] ends
    the helper, not the program. *)
Definition call (f : M Z) : M Z :=
  fun c =>
    match f c with
    | (Val rc, c') => (Val rc, c')
    | (Return rc, c') => (Val rc, c')
    | (TailCalled, c') => (TailCalled, c')
    end.

(** *** Macros *)

Definition GET_STATE : M unit :=
  if global_state_slot env then ret tt else return_ 0.

Definition GET_OFFSETS : M PythonVersionOffsets :=
  let! s := get_state in
  match version_specific_offsets env !! py_version_index (interpreter_info s) with
  | Some offsets => ret offsets
  | None => return_ 0
  end.

(** *** tls_read

    The field types of [LibcOffsets] are declared in the absent pyperf.h;
    the sum is taken in pointer arithmetic, modulo 2^64.  The result is the
    return code; [out] is the thread-state slot of the state. *)

Definition tls_read (tls_base : Z) (info : InterpreterInfo) : M Z :=
  let key := to_s32 (tls_key info) in
  let! tls_addr :=
    (if libc_implementation info =? LIBC_IMPLEMENTATION_GLIBC K then
       match glibc_offsets env !! libc_offset_index info with
       | None => return_ (-1)
       | Some libc_offsets =>
           match arch env with
           | TARGET_ARCH_x86 =>
               ret (padd (padd (padd tls_base (pthread_block libc_offsets))
                               (key * pthread_key_data_size libc_offsets))
                         (pthread_key_data libc_offsets))
           | TARGET_ARCH_arm64 =>
               ret (padd (padd (padd (padd tls_base (- pthread_size libc_offsets))
                                     (pthread_block libc_offsets))
                               (key * pthread_key_data_size libc_offsets))
                         (pthread_key_data libc_offsets))
           end
       end
     else if libc_implementation info =? LIBC_IMPLEMENTATION_MUSL K then
       match musl_offsets env !! libc_offset_index info with
       | None => return_ (-1)
       | Some libc_offsets =>
           let slot :=
             match arch env with
             | TARGET_ARCH_x86 => padd tls_base (pthread_block libc_offsets)
             | TARGET_ARCH_arm64 =>
                 padd (padd tls_base (- pthread_size libc_offsets))
                      (pthread_block libc_offsets)
             end in
           let! (err, tls_addr) := bpf_probe_read_user slot in
           if err =? 0
           then ret (padd tls_addr (key * pthread_key_data_size libc_offsets))
           else return_ (-1)
       end
     else return_ (-1)) in
  let! (err, v) := bpf_probe_read tls_addr in
  modify_state (set_thread_state v) >>
  if err =? 0 then ret 0 else return_ (-1).

(** *** unwind_python_stack (P1) *)

Definition zero_stack : stack_trace_t :=
  {| len := 0; addresses := replicate (Z.to_nat (MAX_STACK_DEPTH K)) 0 |}.

(** The state after [bpf_large_memzero] and the four assignments that
    follow it. *)
Definition reset_state (info : InterpreterInfo) (pid tid : Z) : State :=
  {| interpreter_info := info;
     thread_state := 0;
     current_pthread := 0;
     frame_ptr := 0;
     stack_walker_prog_call_count := 0;
     sample := {| tid := tid; pid := pid;
                  stack_status := STACK_COMPLETE;
                  stack := zero_stack |} |}.

(** The two labels at the end of the function. *)
Definition submit_without_unwinding : M Z := aggregate_stacks >> ret 0.
Definition error : M Z := ERROR_SAMPLE >> ret 1.

Definition unwind_python_stack : M Z :=
  (if heap_slot env then ret tt else return_ 1) >>
  (if err_symbol_slot env then ret tt else return_ 1) >>
  let pid_tgid := wrap64 (current_pid_tgid env) in
  let pid := to_s32 (Z.shiftr pid_tgid 32) in
  let tid := to_s32 pid_tgid in
  (if pid =? 0 then return_ 0 else ret tt) >>
  match pid_to_interpreter_info env !! pid with
  | None => ERROR_MSG "interpreter_info was NULL" >> goto error
  | Some info =>
      GET_STATE >>
      modify_state (fun _ => reset_state info pid tid) >>
      (* Fetch thread state. *)
      (if negb (thread_state_addr info =? 0) then
         let! (err, v) := bpf_probe_read_user (thread_state_addr info) in
         modify_state (set_thread_state v) >>
         if negb (err =? 0)
         then ERROR_MSG "failed read of thread_state_addr" >>
              goto submit_without_unwinding
         else ret tt
       else ret tt) >>
      (if use_tls info then
         emit EvReadTlsBase >>
         let tls_base := tls_base_of_task env in
         let! rc := call (tls_read tls_base info) in
         (if negb (rc =? 0)
          then ERROR_MSG "failed read of TLS" >> goto submit_without_unwinding
          else ret tt) >>
         let! s := get_state in
         if thread_state s =? 0
         then ERROR_MSG "thread_state was NULL" >> goto submit_without_unwinding
         else ret tt
       else ret tt) >>
      let! offsets := GET_OFFSETS in
      (* Fetch the thread id. *)
      let! s := get_state in
      let! (err, pthread_id) :=
        bpf_probe_read_user
          (padd (thread_state s) (thread_id (py_thread_state offsets))) in
      (if negb (err =? 0)
       then ERROR_MSG "failed read of thread_state->thread_id" >>
            goto submit_without_unwinding
       else ret tt) >>
      modify_state (set_current_pthread pthread_id) >>
      (* Get pointer to top frame from PyThreadState. *)
      (if -1 <? frame (py_thread_state offsets) then
         let! (err, v) :=
           bpf_probe_read_user
             (padd (thread_state s) (frame (py_thread_state offsets))) in
         modify_state (set_frame_ptr v) >>
         if negb (err =? 0)
         then ERROR_MSG "failed read of thread_state->frame" >>
              goto submit_without_unwinding
         else ret tt
       else
         let! (err, cframe_ptr) :=
           bpf_probe_read_user
             (padd (thread_state s) (cframe (py_thread_state offsets))) in
         (if negb (err =? 0)
          then ERROR_MSG "failed read of thread_state->cframe" >>
               goto submit_without_unwinding
          else ret tt) >>
         (if cframe_ptr =? 0
          then ERROR_MSG "cframe was NULL" >> goto submit_without_unwinding
          else ret tt) >>
         let! (_, v) :=
           bpf_probe_read_user
             (padd cframe_ptr (current_frame (py_cframe offsets))) in
         modify_state (set_frame_ptr v)) >>
      let! s := get_state in
      (if frame_ptr s =? 0
       then ERROR_MSG "frame_ptr was NULL" >> goto submit_without_unwinding
       else ret tt) >>
      bpf_tail_call >>
      submit_without_unwinding
  end.

(** *** read_symbol and reset_symbol *)

Definition byte_at (buf : list ascii) (i : nat) : Z :=
  Z.of_N (N_of_ascii (default NUL (buf !! i))).

(** [*(s32 * )buf]: the first four bytes as a little-endian integer. *)
Definition load_s32 (buf : list ascii) : Z :=
  to_s32 (byte_at buf 0 + 2 ^ 8 * byte_at buf 1
          + 2 ^ 16 * byte_at buf 2 + 2 ^ 24 * byte_at buf 3).

Definition self_str : list ascii := ["s"; "e"; "l"; "f"]%char.
Definition cls_str : list ascii := ["c"; "l"; "s"; NUL]%char.

Definition set_class_name (v : list ascii) (sym : symbol_t) : symbol_t :=
  {| class_name := v; method_name := method_name sym; path := path sym |}.
Definition set_method_name (v : list ascii) (sym : symbol_t) : symbol_t :=
  {| class_name := class_name sym; method_name := v; path := path sym |}.
Definition set_path (v : list ascii) (sym : symbol_t) : symbol_t :=
  {| class_name := class_name sym; method_name := method_name sym; path := v |}.

Definition read_symbol (offsets : PythonVersionOffsets)
    (cur_frame code_ptr : Z) (symbol : symbol_t) : M (symbol_t * Z) :=
  let! (_, args_ptr) :=
    bpf_probe_read_user (padd code_ptr (co_varnames (py_code_object offsets))) in
  let! (_, args_ptr) :=
    bpf_probe_read_user (padd args_ptr (ob_item (py_tuple_object offsets))) in
  let! name :=
    bpf_probe_read_user_str (METHOD_NAME_LEN K) (method_name symbol)
      (padd args_ptr (data (py_string offsets))) in
  let symbol := set_method_name name symbol in
  (* Compare strings as ints to save instructions. *)
  let first_self := load_s32 (method_name symbol) =? load_s32 self_str in
  let first_cls := load_s32 (method_name symbol) =? load_s32 cls_str in
  let! symbol :=
    (if first_self || first_cls then
       let! (_, ptr) :=
         bpf_probe_read_user
           (padd cur_frame (f_localsplus (py_frame_object offsets))) in
       let! ptr :=
         (if first_self then
            (* We are working with an instance, first we need to get type. *)
            let! (_, ty) :=
              bpf_probe_read_user (padd ptr (ob_type (py_object offsets))) in
            ret ty
          else ret ptr) in
       let! (_, ptr) :=
         bpf_probe_read_user (padd ptr (tp_name (py_type_object offsets))) in
       let! cn :=
         bpf_probe_read_user_str (CLASS_NAME_LEN K) (class_name symbol) ptr in
       ret (set_class_name cn symbol)
     else ret symbol) in
  let! (_, pystr_ptr) :=
    bpf_probe_read_user (padd code_ptr (co_filename (py_code_object offsets))) in
  let! p :=
    bpf_probe_read_user_str (PATH_LEN K) (path symbol)
      (padd pystr_ptr (data (py_string offsets))) in
  let symbol := set_path p symbol in
  let! (_, pystr_ptr) :=
    bpf_probe_read_user (padd code_ptr (co_name (py_code_object offsets))) in
  let! name :=
    bpf_probe_read_user_str (METHOD_NAME_LEN K) (method_name symbol)
      (padd pystr_ptr (data (py_string offsets))) in
  let symbol := set_method_name name symbol in
  let! (_, lineno) :=
    bpf_probe_read_user_u32
      (padd code_ptr (co_firstlineno (py_code_object offsets))) in
  ret (symbol, lineno).

Definition reset_symbol : symbol_t :=
  {| class_name := replicate (CLASS_NAME_LEN K) NUL;
     method_name := replicate (METHOD_NAME_LEN K) NUL;
     path := replicate (PATH_LEN K) NUL |}.

(** *** walk_python_stack (P2) *)

(** How one pass through the loop body ends: at the closing brace, by
    [break], or by [goto complete]. *)
Inductive IterExit := IterContinue | IterBreak | IterGotoComplete.

(** How the loop ends: by running out of iterations or [break], or by
    [goto complete]. *)
Inductive LoopExit := LoopLeft | LoopGotoComplete.

(** The block guarded by [py_interpreter_frame.owner != -1].  The result is
    the value of [curr_frame_ptr] behind the block; [None] is its [break]. *)
Definition owner_block (offsets : PythonVersionOffsets) (curr_frame_ptr : Z)
  : M (option Z) :=
  if negb (owner (py_interpreter_frame offsets) =? -1) then
    let! (_, owner_tag) :=
      bpf_probe_read_user_u32
        (padd curr_frame_ptr (owner (py_interpreter_frame offsets))) in
    let! curr_frame_ptr :=
      (if to_s32 owner_tag =? FRAME_OWNED_BY_CSTACK K then
         let! (_, back) :=
           bpf_probe_read_user
             (padd curr_frame_ptr (f_back (py_frame_object offsets))) in
         ret back
       else ret curr_frame_ptr) in
    if curr_frame_ptr =? 0 then ret None else ret (Some curr_frame_ptr)
  else ret (Some curr_frame_ptr).

(** [(lineno << 32) | symbol_id] on [u64]. *)
Definition encode_frame (lineno symbol_id : Z) : Z :=
  Z.lor (wrap64 (Z.shiftl lineno 32)) symbol_id.

(** The guarded append to [sample->stack]. *)
Definition append_frame (lineno symbol_id : Z) (s : State) : State :=
  let cur_len := len (stack (sample s)) in
  if (0 <=? cur_len) && (cur_len <? MAX_STACK_DEPTH K) then
    set_stack
      {| len := wrap64 (cur_len + 1);
         addresses := <[Z.to_nat cur_len := encode_frame lineno symbol_id]>
                        (addresses (stack (sample s))) |} s
  else s.

Definition loop_body (offsets : PythonVersionOffsets) : M IterExit :=
  let! s := get_state in
  let curr_frame_ptr := frame_ptr s in
  if curr_frame_ptr =? 0 then ret IterBreak else
  let! after_owner := owner_block offsets curr_frame_ptr in
  match after_owner with
  | None => ret IterBreak
  | Some curr_frame_ptr =>
      (* Read the code pointer. PyFrameObject.f_code *)
      let! (err, curr_code_ptr) :=
        bpf_probe_read_user
          (padd curr_frame_ptr (f_code (py_frame_object offsets))) in
      if negb (err =? 0) then ret IterBreak else
      if curr_code_ptr =? 0 then ret IterBreak else
      let sym := reset_symbol in
      let! (sym, lineno) :=
        read_symbol offsets curr_frame_ptr curr_code_ptr sym in
      let symbol_id := wrap64 (get_symbol_id env sym) in
      modify_state (append_frame lineno symbol_id) >>
      let! (_, back) :=
        bpf_probe_read_user
          (padd curr_frame_ptr (f_back (py_frame_object offsets))) in
      modify_state (set_frame_ptr back) >>
      if back =? 0 then ret IterGotoComplete else ret IterContinue
  end.

(** The unrolled [for] loop with [n] iterations left. *)
Fixpoint walk_loop (offsets : PythonVersionOffsets) (n : nat) : M LoopExit :=
  match n with
  | O => ret LoopLeft
  | S n' =>
      let! e := loop_body offsets in
      match e with
      | IterBreak => ret LoopLeft
      | IterGotoComplete => ret LoopGotoComplete
      | IterContinue => walk_loop offsets n'
      end
  end.

(** The code from the label [submit] to the end of the function.  The
    update of [stack_traces] is logged when it is attempted; a failed update
    is not fatal. *)
Definition submit : M Z :=
  let! s := get_state in
  let stack_hash := wrap64 (hash_stack env (stack (sample s))) in
  (fun c =>
     (Val tt,
      {| global_state := global_state c;
         stack_traces :=
           if stack_traces_accepts env
           then <[stack_hash := stack (sample s)]> (stack_traces c)
           else stack_traces c;
         interpreter_stack_id :=
           if heap_slot env then stack_hash else interpreter_stack_id c;
         trace := trace c ++ [EvStackTracesUpdate stack_hash] |})) >>
  aggregate_stacks >>
  ret 0.

Definition complete : M Z :=
  modify_state (set_stack_status STACK_COMPLETE) >> submit.

Definition walk_python_stack : M Z :=
  GET_STATE >>
  let! offsets := GET_OFFSETS in
  modify_state
    (fun s => set_call_count (stack_walker_prog_call_count s + 1) s) >>
  let! e := walk_loop offsets (Z.to_nat (PYTHON_STACK_FRAMES_PER_PROG K)) in
  match e with
  | LoopGotoComplete => complete
  | LoopLeft =>
      let! s := get_state in
      if stack_walker_prog_call_count s <? PYTHON_STACK_PROG_CNT K then
        bpf_tail_call >> submit
      else
        modify_state (set_stack_status STACK_TRUNCATED) >> submit
  end.

(** *** Running the programs *)

(** How a program leaves: with a return code, or replaced by the walker. *)
Inductive Exit := Exited (rc : Z) | Jumped.

Definition run_prog (p : M Z) (c : Cpu) : Exit * Cpu :=
  match p c with
  | (Val rc, c') => (Exited rc, c')
  | (Return rc, c') => (Exited rc, c')
  | (TailCalled, c') => (Jumped, c')
  end.

(** A chain of walker invocations linked by tail calls; [fuel] bounds the
    number of invocations. *)
Fixpoint walker_chain (fuel : nat) (c : Cpu) : option (Z * Cpu) :=
  match fuel with
  | O => None
  | S fuel' =>
      match run_prog walk_python_stack c with
      | (Exited rc, c') => Some (rc, c')
      | (Jumped, c') => walker_chain fuel' c'
      end
  end.

(** One perf event: P1, then the chain of P2 if P1 tail-called. *)
Definition perf_event (fuel : nat) (c : Cpu) : option (Z * Cpu) :=
  match run_prog unwind_python_stack c with
  | (Exited rc, c') => Some (rc, c')
  | (Jumped, c') => walker_chain fuel c'
  end.

End Programs.

(** ** Vocabulary of the statements *)

Definition with_state (s : State) (c : Cpu) : Cpu :=
  {| global_state := s; stack_traces := stack_traces c;
     interpreter_stack_id := interpreter_stack_id c; trace := trace c |}.

Definition with_events (evs : list Event) (c : Cpu) : Cpu :=
  {| global_state := global_state c; stack_traces := stack_traces c;
     interpreter_stack_id := interpreter_stack_id c;
     trace := trace c ++ evs |}.

(** The address table of the specification (section 4.2), over the
    integers: the glibc key slot, and the musl slot that holds the
    intermediate pointer. *)
Definition spec_glibc_slot (a : Arch) (tls_base key : Z) (lo : LibcOffsets) : Z :=
  match a with
  | TARGET_ARCH_x86 =>
      tls_base + pthread_block lo + key * pthread_key_data_size lo
      + pthread_key_data lo
  | TARGET_ARCH_arm64 =>
      tls_base - pthread_size lo + pthread_block lo
      + key * pthread_key_data_size lo + pthread_key_data lo
  end.

Definition spec_musl_pointer_slot (a : Arch) (tls_base : Z) (lo : LibcOffsets) : Z :=
  match a with
  | TARGET_ARCH_x86 => tls_base + pthread_block lo
  | TARGET_ARCH_arm64 => tls_base - pthread_size lo + pthread_block lo
  end.

(** The last step of [tls_read]: one [bpf_probe_read] of the slot address
    into the thread-state field. *)
Definition final_tls_read (env : Env) (addr : Z) (c : Cpu) : Res Z * Cpu :=
  match any_u64 env addr with
  | Some v =>
      (Val 0, with_state (set_thread_state (wrap64 v) (global_state c))
                (with_events [EvProbeRead addr] c))
  | None =>
      (Return (-1), with_state (set_thread_state 0 (global_state c))
                      (with_events [EvProbeRead addr] c))
  end.

Definition stack_len (s : State) : Z := len (stack (sample s)).

(** The state of a freshly loaded per-CPU slot, and a [Cpu] around it. *)
Definition zero_info : InterpreterInfo :=
  {| thread_state_addr := 0; use_tls := false; tls_key := 0;
     py_version_index := 0; libc_implementation := 0; libc_offset_index := 0 |}.

Definition boot_state (K : Constants) : State := reset_state K zero_info 0 0.

Definition boot_cpu (K : Constants) : Cpu :=
  {| global_state := boot_state K; stack_traces := ∅;
     interpreter_stack_id := 0; trace := [] |}.

(** What [read_symbol] returns for a frame and its code object, starting
    from a reset symbol, and the probe reads it performs. *)
Definition symbolize (K : Constants) (env : Env) (off : PythonVersionOffsets)
    (frame_addr code_addr : Z) : symbol_t * Z :=
  match read_symbol K env off frame_addr code_addr (reset_symbol K) (boot_cpu K) with
  | (Val r, _) => r
  | _ => (reset_symbol K, 0)
  end.

Definition symbolize_events (K : Constants) (env : Env)
    (off : PythonVersionOffsets) (frame_addr code_addr : Z) : list Event :=
  trace (snd (read_symbol K env off frame_addr code_addr (reset_symbol K)
                (boot_cpu K))).

(** The 64-bit stack entry of a frame. *)
Definition frame_encoding (K : Constants) (env : Env)
    (off : PythonVersionOffsets) (frame_addr code_addr : Z) : Z :=
  let (sym, lineno) := symbolize K env off frame_addr code_addr in
  encode_frame lineno (wrap64 (get_symbol_id env sym)).

(** The guarded append of a frame's entry. *)
Definition append_symbolized (K : Constants) (env : Env)
    (off : PythonVersionOffsets) (frame_addr code_addr : Z) (s : State) : State :=
  let (sym, lineno) := symbolize K env off frame_addr code_addr in
  append_frame K lineno (wrap64 (get_symbol_id env sym)) s.

(** The value of [curr_frame_ptr] behind the owner block ([None]: the loop
    was left), and the reads of the block. *)
Definition after_owner (K : Constants) (env : Env) (off : PythonVersionOffsets)
    (p : Z) : option Z :=
  match owner_block K env off p (boot_cpu K) with
  | (Val r, _) => r
  | _ => None
  end.

Definition owner_events (K : Constants) (env : Env)
    (off : PythonVersionOffsets) (p : Z) : list Event :=
  trace (snd (owner_block K env off p (boot_cpu K))).

(** The effect of one pass through the loop body on the state, as a
    function: how the pass ends, the new state, the events. *)
Definition loop_body_effect (K : Constants) (env : Env)
    (off : PythonVersionOffsets) (s : State) : IterExit * State * list Event :=
  let p := frame_ptr s in
  if p =? 0 then (IterBreak, s, []) else
  match after_owner K env off p with
  | None => (IterBreak, s, owner_events K env off p)
  | Some cur =>
      let code_addr := padd cur (f_code (py_frame_object off)) in
      let back_addr := padd cur (f_back (py_frame_object off)) in
      let (err, code) := load_user_u64 env code_addr in
      if negb (err =? 0) || (code =? 0) then
        (IterBreak, s, owner_events K env off p ++ [EvProbeReadUser code_addr])
      else
        let back := snd (load_user_u64 env back_addr) in
        (if back =? 0 then IterGotoComplete else IterContinue,
         set_frame_ptr back
           (append_symbolized K env off cur code s),
         owner_events K env off p ++ [EvProbeReadUser code_addr]
           ++ symbolize_events K env off cur code
           ++ [EvProbeReadUser back_addr])
  end.

(** Code that only reads and logs: it yields a value and appends events,
    whatever the state. *)
Definition logs_only {A} (m : M A) : Prop :=
  exists a evs, forall c, m c = (Val a, with_events evs c).

(** The effect of the loop with [n] iterations left. *)
Fixpoint walk_loop_effect (K : Constants) (env : Env)
    (off : PythonVersionOffsets) (n : nat) (s : State)
  : LoopExit * State * list Event :=
  match n with
  | O => (LoopLeft, s, [])
  | S n' =>
      let '(e, s', evs) := loop_body_effect K env off s in
      match e with
      | IterBreak => (LoopLeft, s', evs)
      | IterGotoComplete => (LoopGotoComplete, s', evs)
      | IterContinue =>
          let '(e', s'', evs') := walk_loop_effect K env off n' s' in
          (e', s'', evs ++ evs')
      end
  end.

(** The world after the code at [submit] ran in state [s], [evs] being the
    events of the invocation before that point. *)
Definition published (env : Env) (s : State) (evs : list Event) (c : Cpu) : Cpu :=
  let h := wrap64 (hash_stack env (stack (sample s))) in
  {| global_state := s;
     stack_traces := if stack_traces_accepts env
                     then <[h := stack (sample s)]> (stack_traces c)
                     else stack_traces c;
     interpreter_stack_id := if heap_slot env then h else interpreter_stack_id c;
     trace := trace c ++ evs ++ [EvStackTracesUpdate h; EvAggregateStacks] |}.

(** The effect of one invocation of the walker that found its state and
    offsets. *)
Definition walk_python_stack_effect (K : Constants) (env : Env)
    (off : PythonVersionOffsets) (c : Cpu) : Res Z * Cpu :=
  let s1 := set_call_count
              (stack_walker_prog_call_count (global_state c) + 1)
              (global_state c) in
  let '(e, s2, evs) :=
    walk_loop_effect K env off (Z.to_nat (PYTHON_STACK_FRAMES_PER_PROG K)) s1 in
  match e with
  | LoopGotoComplete =>
      (Val 0, published env (set_stack_status STACK_COMPLETE s2) evs c)
  | LoopLeft =>
      if stack_walker_prog_call_count s2 <? PYTHON_STACK_PROG_CNT K then
        if walker_installed env
        then (TailCalled, with_state s2 (with_events (evs ++ [EvTailCall]) c))
        else (Val 0, published env s2 (evs ++ [EvTailCall]) c)
      else (Val 0, published env (set_stack_status STACK_TRUNCATED s2) evs c)
  end.

(** The owner tag the walker sees at a frame ([int owner], zero when the
    read faults), and what it means for a frame to be owned by the C stack
    in a version that has the field. *)
Definition owner_tag (env : Env) (off : PythonVersionOffsets) (p : Z) : Z :=
  to_s32 (snd (load_user_u32 env (padd p (owner (py_interpreter_frame off))))).

Definition cstack_owned (K : Constants) (env : Env)
    (off : PythonVersionOffsets) (p : Z) : Prop :=
  owner (py_interpreter_frame off) <> -1
  /\ owner_tag env off p = FRAME_OWNED_BY_CSTACK K.

(** The link of a frame as the walker reads it (zero when the read faults). *)
Definition back_of (env : Env) (off : PythonVersionOffsets) (p : Z) : Z :=
  snd (load_user_u64 env (padd p (f_back (py_frame_object off)))).

(** A frame that is not skipped and has a readable, non-null code object. *)
Definition plain_frame (K : Constants) (env : Env)
    (off : PythonVersionOffsets) (p : Z) : Prop :=
  p <> 0 /\ ~ cstack_owned K env off p
  /\ exists code,
       user_u64 env (padd p (f_code (py_frame_object off))) = Some code
       /\ wrap64 code <> 0.

(** A readable frame chain of [n] frames starting at [p]: every frame is
    plain, every link is readable, and the link of the last frame is null. *)
Inductive frame_chain (K : Constants) (env : Env) (off : PythonVersionOffsets)
  : Z -> nat -> Prop :=
| chain_end p v :
    plain_frame K env off p ->
    user_u64 env (padd p (f_back (py_frame_object off))) = Some v ->
    wrap64 v = 0 ->
    frame_chain K env off p 1
| chain_link p v n :
    plain_frame K env off p ->
    user_u64 env (padd p (f_back (py_frame_object off))) = Some v ->
    frame_chain K env off (wrap64 v) n ->
    frame_chain K env off p (S n).

(** The bound of the sample's stack. *)
Definition stack_bounded (K : Constants) (s : State) : Prop :=
  0 <= len (stack (sample s)) <= MAX_STACK_DEPTH K
  /\ length (addresses (stack (sample s))) = Z.to_nat (MAX_STACK_DEPTH K).

(** States the two programs can be in.  The per-CPU slot starts zeroed;
    any invocation of P1, of P2, and any pass through the loop body of P2
    leads to a further state, for any process memory and any maps at that
    invocation.  This includes every state of a P1-then-P2-chain run. *)
Inductive reachable (K : Constants) : Cpu -> Prop :=
| reach_boot c :
    global_state c = boot_state K -> reachable K c
| reach_entry env c :
    reachable K c ->
    reachable K (snd (run_prog (unwind_python_stack K env) c))
| reach_walker env c :
    reachable K c ->
    reachable K (snd (run_prog (walk_python_stack K env) c))
| reach_loop_body env off c :
    reachable K c ->
    reachable K (snd (loop_body K env off c)).

(** A property of the state that a piece of code keeps, however it ends. *)
Definition keeps {A} (I : State -> Prop) (m : M A) : Prop :=
  forall c, I (global_state c) -> I (global_state (snd (m c))).

(** The loop body leaves the loop by [break] in front of frame pointer [p]:
    [p] is null, the owner block ran into a null link, or the code pointer
    of the inspected frame is unreadable or null. *)
Definition breaks_at (K : Constants) (env : Env) (off : PythonVersionOffsets)
    (p : Z) : Prop :=
  p = 0
  \/ after_owner K env off p = None
  \/ exists cur,
       after_owner K env off p = Some cur
       /\ (user_u64 env (padd cur (f_code (py_frame_object off))) = None
           \/ exists v,
                user_u64 env (padd cur (f_code (py_frame_object off))) = Some v
                /\ wrap64 v = 0).

(** The name of the first argument as [read_symbol] probes it: the string
    behind [co_varnames -> ob_item[0] -> data] (empty when unreadable). *)
Definition first_arg_name_addr (env : Env) (off : PythonVersionOffsets)
    (code_addr : Z) : Z :=
  let varnames :=
    snd (load_user_u64 env (padd code_addr (co_varnames (py_code_object off)))) in
  let item :=
    snd (load_user_u64 env (padd varnames (ob_item (py_tuple_object off)))) in
  padd item (data (py_string off)).

Definition first_arg_name (env : Env) (off : PythonVersionOffsets)
    (code_addr : Z) : list ascii :=
  match user_str env (first_arg_name_addr env off code_addr) with
  | Some s => until_nul s
  | None => []
  end.

(** The class-name buffer read through [f_localsplus[0] -> ob_type ->
    tp_name] (instance branch) and through [f_localsplus[0] -> tp_name]. *)
Definition class_name_via_type (K : Constants) (env : Env)
    (off : PythonVersionOffsets) (frame_addr : Z) : list ascii :=
  let obj :=
    snd (load_user_u64 env (padd frame_addr (f_localsplus (py_frame_object off)))) in
  let ty := snd (load_user_u64 env (padd obj (ob_type (py_object off)))) in
  let name := snd (load_user_u64 env (padd ty (tp_name (py_type_object off)))) in
  load_user_str env (CLASS_NAME_LEN K) (replicate (CLASS_NAME_LEN K) NUL) name.

Definition class_name_direct (K : Constants) (env : Env)
    (off : PythonVersionOffsets) (frame_addr : Z) : list ascii :=
  let obj :=
    snd (load_user_u64 env (padd frame_addr (f_localsplus (py_frame_object off)))) in
  let name := snd (load_user_u64 env (padd obj (tp_name (py_type_object off)))) in
  load_user_str env (CLASS_NAME_LEN K) (replicate (CLASS_NAME_LEN K) NUL) name.

(** The three characters of the name "cls". *)
Definition cls_name : list ascii := ["c"; "l"; "s"]%char.

(** The process and thread of the current perf event, as P1 computes them
    from [bpf_get_current_pid_tgid]. *)
Definition current_pid (env : Env) : Z :=
  to_s32 (Z.shiftr (wrap64 (current_pid_tgid env)) 32).
Definition current_tid (env : Env) : Z :=
  to_s32 (wrap64 (current_pid_tgid env)).

(** The paragraphs of [unwind_python_stack] behind the state reset, named
    for the proofs: the read through [thread_state_addr], the read through
    TLS, and everything from "Fetch the thread id" to the end. *)
Definition thread_state_direct (env : Env) (info : InterpreterInfo) : M unit :=
  if negb (thread_state_addr info =? 0) then
    let! (err, v) := bpf_probe_read_user env (thread_state_addr info) in
    modify_state (set_thread_state v) >>
    if negb (err =? 0)
    then ERROR_MSG "failed read of thread_state_addr" >>
         goto submit_without_unwinding
    else ret tt
  else ret tt.

Definition thread_state_tls (K : Constants) (env : Env)
    (info : InterpreterInfo) : M unit :=
  if use_tls info then
    emit EvReadTlsBase >>
    let tls_base := tls_base_of_task env in
    let! rc := call (tls_read K env tls_base info) in
    (if negb (rc =? 0)
     then ERROR_MSG "failed read of TLS" >> goto submit_without_unwinding
     else ret tt) >>
    let! s := get_state in
    if thread_state s =? 0
    then ERROR_MSG "thread_state was NULL" >> goto submit_without_unwinding
    else ret tt
  else ret tt.

Definition top_frame_and_jump (env : Env) (offsets : PythonVersionOffsets)
  : M Z :=
  let! s := get_state in
  let! (err, pthread_id) :=
    bpf_probe_read_user env
      (padd (thread_state s) (thread_id (py_thread_state offsets))) in
  (if negb (err =? 0)
   then ERROR_MSG "failed read of thread_state->thread_id" >>
        goto submit_without_unwinding
   else ret tt) >>
  modify_state (set_current_pthread pthread_id) >>
  (if -1 <? frame (py_thread_state offsets) then
     let! (err, v) :=
       bpf_probe_read_user env
         (padd (thread_state s) (frame (py_thread_state offsets))) in
     modify_state (set_frame_ptr v) >>
     if negb (err =? 0)
     then ERROR_MSG "failed read of thread_state->frame" >>
          goto submit_without_unwinding
     else ret tt
   else
     let! (err, cframe_ptr) :=
       bpf_probe_read_user env
         (padd (thread_state s) (cframe (py_thread_state offsets))) in
     (if negb (err =? 0)
      then ERROR_MSG "failed read of thread_state->cframe" >>
           goto submit_without_unwinding
      else ret tt) >>
     (if cframe_ptr =? 0
      then ERROR_MSG "cframe was NULL" >> goto submit_without_unwinding
      else ret tt) >>
     let! (_, v) :=
       bpf_probe_read_user env
         (padd cframe_ptr (current_frame (py_cframe offsets))) in
     modify_state (set_frame_ptr v)) >>
  let! s := get_state in
  (if frame_ptr s =? 0
   then ERROR_MSG "frame_ptr was NULL" >> goto submit_without_unwinding
   else ret tt) >>
  bpf_tail_call env >>
  submit_without_unwinding.

(** Events that only read: probe reads and the TLS base. *)
Definition is_read (e : Event) : Prop :=
  match e with
  | EvProbeReadUser _ | EvProbeReadUserStr _ | EvProbeRead _ | EvReadTlsBase => True
  | _ => False
  end.

(** The error messages of the thread-state paragraphs. *)
Definition thread_state_errors : list string :=
  ["failed read of thread_state_addr"; "failed read of TLS";
   "thread_state was NULL"]%string.

(** Code all of whose events satisfy [E]. *)
Definition emits_only {A} (E : Event -> Prop) (m : M A) : Prop :=
  forall c, exists evs, trace (snd (m c)) = trace c ++ evs /\ Forall E evs.

(** Code that either goes on having only read, or leaves with return code 0
    behind one of the error messages of the thread-state paragraphs and the
    call of [aggregate_stacks]; it changes neither the published stacks nor
    the interpreter information of the state. *)
Definition reads_or_reports {A} (m : M A) : Prop :=
  forall c, exists r c' evs,
    m c = (r, c')
    /\ trace c' = trace c ++ evs
    /\ stack_traces c' = stack_traces c
    /\ interpreter_info (global_state c') = interpreter_info (global_state c)
    /\ ((exists a, r = Val a /\ Forall is_read evs)
        \/ (r = Return 0
            /\ exists reads msg,
                 evs = reads ++ [EvErrorMsg msg; EvAggregateStacks]
                 /\ Forall is_read reads
                 /\ msg ∈ thread_state_errors)).

(** *** Three sentences of the specification, as they are written

    These are the readings that the code does not satisfy; they are
    refuted below on concrete process images. *)

(** "Else if use_tls": with a non-zero [thread_state_addr], TLS resolution
    is not performed. *)
Definition tls_only_without_direct_address (K : Constants) (env : Env)
    (c : Cpu) : Prop :=
  forall info,
    pid_to_interpreter_info env !! current_pid env = Some info ->
    thread_state_addr info <> 0 ->
    use_tls info = true ->
    EvReadTlsBase ∉ trace (snd (unwind_python_stack K env c)).

(** "When a probe-read fails mid-walk the complete branch is taken": a
    chain of walker invocations during which a read of user memory failed
    publishes its sample as complete. *)
Definition read_failure_publishes_complete (K : Constants) (env : Env)
    (fuel : nat) (c : Cpu) : Prop :=
  forall rc c' addr,
    walker_chain K env fuel c = Some (rc, c') ->
    EvProbeReadUser addr ∈ drop (length (trace c)) (trace c') ->
    user_u64 env addr = None ->
    stack_status (sample (global_state c')) = STACK_COMPLETE.

(** "No offsets entry yields an error sample with a descriptive short
    string": P1 records an error message. *)
Definition missing_offsets_reported (K : Constants) (env : Env) (c : Cpu)
  : Prop :=
  forall info,
    pid_to_interpreter_info env !! current_pid env = Some info ->
    version_specific_offsets env !! py_version_index info = None ->
    exists msg, EvErrorMsg msg ∈ trace (snd (unwind_python_stack K env c)).

(** ** Further vocabulary *)

(** The stack of [s'] extends the stack of [s]: it is at least as long, the
    array has the same number of slots, and the entries recorded in [s] are
    still there, in place. *)
Definition stack_extends (s s' : State) : Prop :=
  stack_len s <= stack_len s'
  /\ length (addresses (stack (sample s')))
     = length (addresses (stack (sample s)))
  /\ take (Z.to_nat (stack_len s)) (addresses (stack (sample s')))
     = take (Z.to_nat (stack_len s)) (addresses (stack (sample s))).

(** What the walker never changes: the interpreter information, the thread
    state, the thread id read from it, and the pid and tid of the sample. *)
Definition same_origin (s s' : State) : Prop :=
  interpreter_info s' = interpreter_info s
  /\ thread_state s' = thread_state s
  /\ current_pthread s' = current_pthread s
  /\ pid (sample s') = pid (sample s)
  /\ tid (sample s') = tid (sample s).

(** What a pass through the loop does to the state at most: the stack is
    extended, and nothing else but the frame pointer changes. *)
Definition walk_progress (s s' : State) : Prop :=
  stack_extends s s'
  /\ same_origin s s'
  /\ stack_walker_prog_call_count s' = stack_walker_prog_call_count s
  /\ stack_status (sample s') = stack_status (sample s).

(** The events of a walker chain before it publishes: reads and tail
    calls. *)
Definition is_walk_event (e : Event) : Prop := is_read e \/ e = EvTailCall.

(** A readable frame chain from [p] together with the stack entries of its
    frames, top frame first. *)
Inductive chain_entries (K : Constants) (env : Env) (off : PythonVersionOffsets)
  : Z -> list Z -> Prop :=
| entries_end p code v :
    plain_frame K env off p ->
    user_u64 env (padd p (f_code (py_frame_object off))) = Some code ->
    user_u64 env (padd p (f_back (py_frame_object off))) = Some v ->
    wrap64 v = 0 ->
    chain_entries K env off p [frame_encoding K env off p (wrap64 code)]
| entries_link p code v rest :
    plain_frame K env off p ->
    user_u64 env (padd p (f_code (py_frame_object off))) = Some code ->
    user_u64 env (padd p (f_back (py_frame_object off))) = Some v ->
    chain_entries K env off (wrap64 v) rest ->
    chain_entries K env off p
      (frame_encoding K env off p (wrap64 code) :: rest).

(** ** The ways P1 ends *)

(** What the paragraphs of P1 behind the state reset leave as the reset
    made it: the interpreter information, the whole sample (pid, tid, status
    and the zeroed stack) and the invocation count. *)
Definition fresh_sample (K : Constants) (env : Env) (info : InterpreterInfo)
    (s : State) : Prop :=
  interpreter_info s = info
  /\ sample s = sample (reset_state K info (current_pid env) (current_tid env))
  /\ stack_walker_prog_call_count s = 0.

(** P1 got as far as the state reset: both scratch slots and the state slot
    are there, the task has a process id, and [info] is what
    [pid_to_interpreter_info] holds for it. *)
Definition entry_passed (env : Env) (info : InterpreterInfo) : Prop :=
  heap_slot env = true
  /\ err_symbol_slot env = true
  /\ current_pid env <> 0
  /\ pid_to_interpreter_info env !! current_pid env = Some info
  /\ global_state_slot env = true.

(** The ends of [unwind_python_stack] started in the world [c]: the result
    and the world it leaves.  [reads] are events that only read. *)
Inductive entry_outcome (K : Constants) (env : Env) (c : Cpu)
  : Res Z * Cpu -> Prop :=
| entry_no_scratch :
    heap_slot env = false \/ err_symbol_slot env = false ->
    entry_outcome K env c (Return 1, c)
| entry_idle_task :
    heap_slot env = true -> err_symbol_slot env = true ->
    current_pid env = 0 ->
    entry_outcome K env c (Return 0, c)
| entry_no_interpreter :
    heap_slot env = true -> err_symbol_slot env = true ->
    current_pid env <> 0 ->
    pid_to_interpreter_info env !! current_pid env = None ->
    entry_outcome K env c
      (Return 1,
       with_events [EvErrorMsg "interpreter_info was NULL"; EvErrorSample] c)
| entry_no_state info :
    heap_slot env = true -> err_symbol_slot env = true ->
    current_pid env <> 0 ->
    pid_to_interpreter_info env !! current_pid env = Some info ->
    global_state_slot env = false ->
    entry_outcome K env c (Return 0, c)
| entry_no_offsets info s reads :
    entry_passed env info ->
    fresh_sample K env info s ->
    version_specific_offsets env !! py_version_index info = None ->
    Forall is_read reads ->
    entry_outcome K env c (Return 0, with_state s (with_events reads c))
| entry_reported info s reads msg :
    entry_passed env info ->
    fresh_sample K env info s ->
    Forall is_read reads ->
    entry_outcome K env c
      (Return 0,
       with_state s
         (with_events (reads ++ [EvErrorMsg msg; EvAggregateStacks]) c))
| entry_jumped info off s reads :
    entry_passed env info ->
    version_specific_offsets env !! py_version_index info = Some off ->
    fresh_sample K env info s ->
    frame_ptr s <> 0 ->
    (use_tls info = true -> thread_state s <> 0) ->
    walker_installed env = true ->
    Forall is_read reads ->
    entry_outcome K env c
      (TailCalled, with_state s (with_events (reads ++ [EvTailCall]) c))
| entry_jump_failed info s reads :
    entry_passed env info ->
    fresh_sample K env info s ->
    frame_ptr s <> 0 ->
    walker_installed env = false ->
    Forall is_read reads ->
    entry_outcome K env c
      (Val 0,
       with_state s
         (with_events (reads ++ [EvTailCall; EvAggregateStacks]) c)).

(** The fields of the state that [fresh_sample] speaks of are the same in
    [s] and [s']. *)
Definition sample_kept (s s' : State) : Prop :=
  interpreter_info s' = interpreter_info s
  /\ sample s' = sample s
  /\ stack_walker_prog_call_count s' = stack_walker_prog_call_count s.

(** Code whose result, final state and events are determined by the state
    it starts in: of the rest of the world it reads nothing, and changes
    nothing but the trace it appends to. *)
Definition state_local {A} (m : M A) : Prop :=
  forall s, exists r s' evs,
    forall c, global_state c = s ->
              m c = (r, with_state s' (with_events evs c)).

(** ** Strings of a code object *)

(** The C string at [addr]: the characters before the first NUL, nothing
    when the address is unreadable. *)
Definition c_string_at (env : Env) (addr : Z) : list ascii :=
  match user_str env addr with
  | Some s => until_nul s
  | None => []
  end.

(** Where the characters of the string object lie whose pointer is the
    field [field] of the code object at [code_addr] (the pointer reads as
    null when unreadable). *)
Definition code_string_addr (env : Env) (off : PythonVersionOffsets)
    (code_addr field : Z) : Z :=
  padd (snd (load_user_u64 env (padd code_addr field))) (data (py_string off)).

(** What [read_symbol] reports of the code object at [code_addr]: the
    method name and the path are the C strings of [co_name] and
    [co_filename], cut to fit their buffers with the terminator; the line
    is the 32-bit value at [co_firstlineno] (zero when unreadable); the
    three buffers keep their sizes. *)
Definition names_of_code (K : Constants) (env : Env)
    (off : PythonVersionOffsets) (code_addr : Z) (sym : symbol_t)
    (lineno : Z) : Prop :=
  until_nul (method_name sym)
  = take (METHOD_NAME_LEN K - 1)
      (c_string_at env
         (code_string_addr env off code_addr (co_name (py_code_object off))))
  /\ until_nul (path sym)
     = take (PATH_LEN K - 1)
         (c_string_at env
            (code_string_addr env off code_addr
               (co_filename (py_code_object off))))
  /\ lineno
     = snd (load_user_u32 env
              (padd code_addr (co_firstlineno (py_code_object off))))
  /\ 0 <= lineno < 2 ^ 32
  /\ length (class_name sym) = CLASS_NAME_LEN K
  /\ length (method_name sym) = METHOD_NAME_LEN K
  /\ length (path sym) = PATH_LEN K.

(** ** Scenarios

    Concrete constants, offset tables, maps and process images on which the
    properties are exercised.  The constants are those of the budget
    scenario of the specification (four frames per program, three
    programs); the offsets resemble CPython 3.9 (frame pointer in the thread
    state, no owner field) and CPython 3.12 (cframe indirection, owner
    field). *)

Definition seed_constants : Constants :=
  {| PYTHON_STACK_FRAMES_PER_PROG := 4;
     PYTHON_STACK_PROG_CNT := 3;
     MAX_STACK_DEPTH := 12;
     FRAME_OWNED_BY_CSTACK := 3;
     LIBC_IMPLEMENTATION_GLIBC := 0;
     LIBC_IMPLEMENTATION_MUSL := 1;
     CLASS_NAME_LEN := 32;
     METHOD_NAME_LEN := 64;
     PATH_LEN := 128 |}.

Definition offsets_py39 : PythonVersionOffsets :=
  {| py_thread_state := {| frame := 24; cframe := -1; thread_id := 176 |};
     py_cframe := {| current_frame := -1 |};
     py_frame_object := {| f_code := 32; f_back := 24; f_localsplus := 360 |};
     py_interpreter_frame := {| owner := -1 |};
     py_code_object := {| co_varnames := 72; co_filename := 104;
                          co_name := 112; co_firstlineno := 40 |};
     py_tuple_object := {| ob_item := 24 |};
     py_object := {| ob_type := 8 |};
     py_type_object := {| tp_name := 24 |};
     py_string := {| data := 48 |} |}.

Definition offsets_py312 : PythonVersionOffsets :=
  {| py_thread_state := {| frame := -1; cframe := 56; thread_id := 152 |};
     py_cframe := {| current_frame := 0 |};
     py_frame_object := {| f_code := 0; f_back := 8; f_localsplus := 72 |};
     py_interpreter_frame := {| owner := 70 |};
     py_code_object := {| co_varnames := 96; co_filename := 112;
                          co_name := 120; co_firstlineno := 68 |};
     py_tuple_object := {| ob_item := 24 |};
     py_object := {| ob_type := 8 |};
     py_type_object := {| tp_name := 24 |};
     py_string := {| data := 40 |} |}.

Definition glibc_x86_64 : LibcOffsets :=
  {| pthread_size := 2304; pthread_block := 784;
     pthread_key_data := 8; pthread_key_data_size := 16 |}.

Definition musl_x86_64 : LibcOffsets :=
  {| pthread_size := 200; pthread_block := 128;
     pthread_key_data := 0; pthread_key_data_size := 8 |}.

(** A process image given by the list of its mapped cells. *)
Fixpoint cell {A} (cells : list (Z * A)) (addr : Z) : option A :=
  match cells with
  | [] => None
  | (a, v) :: rest => if a =? addr then Some v else cell rest addr
  end.

(** Toy collaborators: the symbol id is one more than the length of the
    method name, the stack hash is the sum of the length and the entries. *)
Definition toy_symbol_id (sym : symbol_t) : Z :=
  Z.of_nat (length (until_nul (method_name sym))) + 1.

Definition toy_hash (st : stack_trace_t) : Z :=
  foldr Z.add (len st) (addresses st).

(** The environment of process 42, thread 43, on x86-64. *)
Definition scenario (a : Arch) (info : InterpreterInfo)
    (offsets : gmap Z PythonVersionOffsets)
    (mem64 mem32 : list (Z * Z)) (strings : list (Z * string)) : Env :=
  {| arch := a;
     current_pid_tgid := 42 * 2 ^ 32 + 43;
     tls_base_of_task := 8323072;
     heap_slot := true;
     err_symbol_slot := true;
     global_state_slot := true;
     pid_to_interpreter_info := {[ 42 := info ]};
     version_specific_offsets := offsets;
     glibc_offsets := {[ 0 := glibc_x86_64 ]};
     musl_offsets := {[ 0 := musl_x86_64 ]};
     walker_installed := true;
     stack_traces_accepts := true;
     user_u64 := cell mem64;
     user_u32 := cell mem32;
     user_str := fun a => list_ascii_of_string <$> cell strings a;
     any_u64 := cell mem64;
     get_symbol_id := toy_symbol_id;
     hash_stack := toy_hash |}.

(** Interpreter information with a direct thread-state address only, with
    both sources set, and with TLS only (glibc, musl, an unknown libc). *)
Definition info_direct : InterpreterInfo :=
  {| thread_state_addr := 4096; use_tls := false; tls_key := 0;
     py_version_index := 0; libc_implementation := 0; libc_offset_index := 0 |}.

Definition info_both : InterpreterInfo :=
  {| thread_state_addr := 4096; use_tls := true; tls_key := 2;
     py_version_index := 0; libc_implementation := 0; libc_offset_index := 0 |}.

Definition info_tls (libc : Z) : InterpreterInfo :=
  {| thread_state_addr := 0; use_tls := true; tls_key := 2;
     py_version_index := 0; libc_implementation := libc;
     libc_offset_index := 0 |}.

(** [thread_state_addr] is readable and holds a null pointer; nothing is
    mapped near address zero. *)
Definition env_null_direct : Env :=
  scenario TARGET_ARCH_x86 info_direct {[ 0 := offsets_py39 ]}
    [(4096, 0)] [] [].

(** The glibc key slot [8323072 + 784 + 2 * 16 + 8] is readable and holds a
    null pointer. *)
Definition env_null_tls : Env :=
  scenario TARGET_ARCH_x86 (info_tls 0) {[ 0 := offsets_py39 ]}
    [(8323896, 0)] [] [].

(** Both sources set: the direct address holds 20480, the glibc key slot
    [8323072 + 784 + 2 * 16 + 8] holds 24576.  For musl, the slot
    [8323072 + 128] holds the pointer 36864 and the key slot
    [36864 + 2 * 8] holds 28672. *)
Definition env_both_sources : Env :=
  scenario TARGET_ARCH_x86 info_both {[ 0 := offsets_py39 ]}
    [(4096, 20480); (8323896, 24576); (8323200, 36864); (36880, 28672)]
    [] [].

(** The thread state resolves but the version has no offsets entry. *)
Definition env_no_offsets : Env :=
  scenario TARGET_ARCH_x86 info_direct ∅ [(4096, 20480)] [] [].

(** Thread state at 20480, top frame at 65536 with code object 131072,
    linked to a frame at 65792 whose [f_code] is not mapped.  A further
    frame at 66048 has a code object but its [f_back] is not mapped. *)
Definition env_unreadable_code : Env :=
  scenario TARGET_ARCH_x86 info_direct {[ 0 := offsets_py39 ]}
    [(4096, 20480); (20480 + 176, 77); (20480 + 24, 65536);
     (65536 + 32, 131072); (65536 + 24, 65792);
     (66048 + 32, 131328)] [] [].

(** The world in which the walker starts when P1 of [env] has handed over. *)
Definition handoff (K : Constants) (env : Env) : Cpu :=
  snd (run_prog (unwind_python_stack K env) (boot_cpu K)).

(** A chain of [n] frames of 256 bytes from address 65536 on, each with a
    code object, the last one with a null link; thread state at 20480. *)
Fixpoint chain_cells (n : nat) (addr code : Z) : list (Z * Z) :=
  match n with
  | O => []
  | S n' =>
      (addr + 32, code)
      :: (addr + 24, match n' with O => 0 | S _ => addr + 256 end)
      :: chain_cells n' (addr + 256) (code + 256)
  end.

Definition env_chain (n : nat) : Env :=
  scenario TARGET_ARCH_x86 info_direct {[ 0 := offsets_py39 ]}
    ((4096, 20480) :: (20480 + 176, 77) :: (20480 + 24, 65536)
     :: chain_cells n 65536 131072) [] [].

(** CPython 3.12 layout: frames at 65536 and 65792 are owned by the C
    stack, the frame at 66048 is not; they are linked in this order.  The
    frame at 69632 is owned by the C stack and has a null link. *)
Definition env_cstack : Env :=
  scenario TARGET_ARCH_x86 info_direct {[ 0 := offsets_py312 ]}
    [(65536 + 8, 65792); (65792 + 8, 66048); (66048 + 8, 0);
     (65792, 131072); (66048, 131328); (69632 + 8, 0)]
    [(65536 + 70, 3); (65792 + 70, 3); (66048 + 70, 0); (69632 + 70, 3)]
    [].

(** The world of a walker invocation in front of frame [p]. *)
Definition cpu_at (K : Constants) (p : Z) : Cpu :=
  with_state (set_frame_ptr p (reset_state K info_direct 42 43)) (boot_cpu K).

(** Three code objects whose first argument is named "selfish", "cls" and
    "clsx", and a frame whose first local is an object of a type named
    "Foo"; the object itself carries the name "Meta" at the type-name
    offset. *)
Definition env_first_arg : Env :=
  scenario TARGET_ARCH_x86 info_direct {[ 0 := offsets_py39 ]}
    [(131072 + 72, 196608); (196608 + 24, 200704);
     (135168 + 72, 204800); (204800 + 24, 208896);
     (139264 + 72, 212992); (212992 + 24, 217088);
     (65536 + 360, 262144); (262144 + 8, 266240); (266240 + 24, 270336);
     (262144 + 24, 274432)]
    []
    [(200704 + 48, "selfish"); (208896 + 48, "cls"); (217088 + 48, "clsx");
     (270336, "Foo"); (274432, "Meta")]%string.

(** ** Further scenarios *)

(** A frame chain that never ends: the frame at 65536 links to itself. *)
Definition env_cycle : Env :=
  scenario TARGET_ARCH_x86 info_direct {[ 0 := offsets_py39 ]}
    [(4096, 20480); (20480 + 176, 77); (20480 + 24, 65536);
     (65536 + 32, 131072); (65536 + 24, 65536)] [] [].

(** Where P1 leaves the world of [env_null_direct]. *)
Definition null_direct_end : Cpu :=
  snd (unwind_python_stack seed_constants env_null_direct
         (boot_cpu seed_constants)).

(** The same world with an empty slot in the [programs] array: the tail
    call to the walker fails. *)
Definition without_walker (env : Env) : Env :=
  {| arch := arch env;
     current_pid_tgid := current_pid_tgid env;
     tls_base_of_task := tls_base_of_task env;
     heap_slot := heap_slot env;
     err_symbol_slot := err_symbol_slot env;
     global_state_slot := global_state_slot env;
     pid_to_interpreter_info := pid_to_interpreter_info env;
     version_specific_offsets := version_specific_offsets env;
     glibc_offsets := glibc_offsets env;
     musl_offsets := musl_offsets env;
     walker_installed := false;
     stack_traces_accepts := stack_traces_accepts env;
     user_u64 := user_u64 env;
     user_u32 := user_u32 env;
     user_str := user_str env;
     any_u64 := any_u64 env;
     get_symbol_id := get_symbol_id env;
     hash_stack := hash_stack env |}.

(** A code object at 131072 of a function "run" in "app.py", first line 17,
    whose first argument is named "request". *)
Definition env_named : Env :=
  scenario TARGET_ARCH_x86 info_direct {[ 0 := offsets_py39 ]}
    [(131072 + 72, 196608); (196608 + 24, 200704);
     (131072 + 104, 300000); (131072 + 112, 310000)]
    [(131072 + 40, 17)]
    [(200704 + 48, "request"); (300000 + 48, "app.py");
     (310000 + 48, "run")]%string.

(** * Properties *)

(** ** Arithmetic of the machine integers *)

Lemma wrap64_idem x : wrap64 (wrap64 x) = wrap64 x.
Proof. unfold wrap64. apply Z.mod_mod. lia. Qed.

Lemma padd_padd a b c : padd (padd a b) c = wrap64 (a + b + c).
Proof.
  unfold padd, wrap64. rewrite Z.add_mod_idemp_l by lia. reflexivity.
Qed.

Lemma padd_wrap64_l a b : padd (wrap64 a) b = wrap64 (a + b).
Proof. unfold padd, wrap64. rewrite Z.add_mod_idemp_l by lia. reflexivity. Qed.

Lemma padd_wrap64_l' a b : wrap64 (wrap64 a + b) = wrap64 (a + b).
Proof. apply padd_wrap64_l. Qed.

Lemma padd3 a b c d : padd (padd (padd a b) c) d = wrap64 (a + b + c + d).
Proof.
  rewrite padd_padd. unfold padd. rewrite <- Z.add_assoc, padd_wrap64_l'.
  f_equal. lia.
Qed.

Lemma padd4 a b c d e :
  padd (padd (padd (padd a b) c) d) e = wrap64 (a + b + c + d + e).
Proof.
  rewrite padd3. rewrite <- !Z.add_assoc. unfold padd.
  rewrite padd_wrap64_l'. f_equal. lia.
Qed.

Lemma wrap64_range x : 0 <= wrap64 x < 2 ^ 64.
Proof. unfold wrap64. apply Z.mod_pos_bound. lia. Qed.

Lemma wrap64_small x : 0 <= x < 2 ^ 64 -> wrap64 x = x.
Proof. intros. unfold wrap64. apply Z.mod_small. lia. Qed.

Lemma with_state_same_events evs c :
  with_state (global_state c) (with_events evs c) = with_events evs c.
Proof. destruct c. reflexivity. Qed.

(** ** tls_read *)

Section TlsRead.

Variable K : Constants.
Variable env : Env.

(** C5. [tls_read] computes the key slot as the libc/arch table says: for
    glibc the slot address is the table's sum (modulo 2^64) and the only
    memory access is the final read of that address into the thread state;
    for musl the pointer stored at the table's slot is read from user memory
    first, [key * pthread_key_data_size] is added to it and that address is
    read (a failed intermediate read returns an error before the final read);
    for any other libc implementation [tls_read] returns -1 with no memory
    access and no state change. *)
Theorem tls_read_address_table (tls_base : Z) (info : InterpreterInfo) (c : Cpu) :
  let key := to_s32 (tls_key info) in
  (forall lo,
      libc_implementation info = LIBC_IMPLEMENTATION_GLIBC K ->
      glibc_offsets env !! libc_offset_index info = Some lo ->
      tls_read K env tls_base info c
      = final_tls_read env (wrap64 (spec_glibc_slot (arch env) tls_base key lo)) c)
  /\ (forall lo,
      libc_implementation info <> LIBC_IMPLEMENTATION_GLIBC K ->
      libc_implementation info = LIBC_IMPLEMENTATION_MUSL K ->
      musl_offsets env !! libc_offset_index info = Some lo ->
      let slot := wrap64 (spec_musl_pointer_slot (arch env) tls_base lo) in
      tls_read K env tls_base info c
      = match user_u64 env slot with
        | Some p =>
            final_tls_read env (wrap64 (wrap64 p + key * pthread_key_data_size lo))
              (with_events [EvProbeReadUser slot] c)
        | None => (Return (-1), with_events [EvProbeReadUser slot] c)
        end)
  /\ (libc_implementation info <> LIBC_IMPLEMENTATION_GLIBC K ->
      libc_implementation info <> LIBC_IMPLEMENTATION_MUSL K ->
      tls_read K env tls_base info c = (Return (-1), c)).
Proof.
  intros key. repeat split.
  - intros lo Hg Hlo. unfold tls_read. fold key.
    rewrite Hg, Z.eqb_refl, Hlo.
    assert (Ha : forall a, (let! tls_addr := ret a in
                 let! (err, v) := bpf_probe_read env tls_addr in
                 modify_state (set_thread_state v) >>
                 (if err =? 0 then ret 0 else return_ (-1))) c
                = final_tls_read env a c).
    { intros a. unfold final_tls_read, bind, ret, bpf_probe_read, emit,
        load_any_u64, modify_state, return_, with_state, with_events. simpl.
      destruct (any_u64 env a); reflexivity. }
    unfold spec_glibc_slot. destruct (arch env).
    + rewrite <- Ha, padd3. reflexivity.
    + rewrite <- Ha, padd4. reflexivity.
  - intros lo Hng Hm Hlo slot. unfold tls_read. fold key.
    apply Z.eqb_neq in Hng. rewrite Hng, Hm, Z.eqb_refl, Hlo.
    assert (Hs : match arch env with
                 | TARGET_ARCH_x86 => padd tls_base (pthread_block lo)
                 | TARGET_ARCH_arm64 =>
                     padd (padd tls_base (- pthread_size lo)) (pthread_block lo)
                 end = slot).
    { unfold slot, spec_musl_pointer_slot. destruct (arch env).
      - reflexivity.
      - rewrite padd_padd. reflexivity. }
    rewrite Hs.
    unfold final_tls_read, bind, ret, bpf_probe_read_user, bpf_probe_read,
      load_user_u64, load_any_u64,
      emit, modify_state, return_, with_state, with_events. simpl.
    destruct (user_u64 env slot) as [p|]; simpl; [|reflexivity].
    fold (padd (wrap64 p) (key * pthread_key_data_size lo)).
    destruct (any_u64 env _); simpl; rewrite <- app_assoc; reflexivity.
  - intros Hng Hnm. unfold tls_read.
    apply Z.eqb_neq in Hng, Hnm. rewrite Hng, Hnm.
    reflexivity.
Qed.

End TlsRead.

(** ** Running monadic code *)

Lemma with_events_nil c : with_events [] c = c.
Proof. destruct c. unfold with_events. simpl. rewrite app_nil_r. reflexivity. Qed.

Lemma with_events_app evs evs' c :
  with_events evs' (with_events evs c) = with_events (evs ++ evs') c.
Proof. unfold with_events. simpl. rewrite app_assoc. reflexivity. Qed.

Lemma with_state_events s evs c :
  with_events evs (with_state s c) = with_state s (with_events evs c).
Proof. reflexivity. Qed.

Lemma with_state_state s s' c : with_state s' (with_state s c) = with_state s' c.
Proof. reflexivity. Qed.

Lemma with_state_same c : with_state (global_state c) c = c.
Proof. destruct c. reflexivity. Qed.


Lemma bind_assoc {A B C} (m : M A) (k : A -> M B) (k' : B -> M C) c :
  bind (bind m k) k' c = bind m (fun a => bind (k a) k') c.
Proof. unfold bind. destruct (m c) as [[a | rc |] c']; reflexivity. Qed.

Lemma logs_only_ret {A} (a : A) : logs_only (ret a).
Proof. exists a, []. intros c. rewrite with_events_nil. reflexivity. Qed.

Lemma logs_only_emit e : logs_only (emit e).
Proof. exists tt, [e]. intros c. reflexivity. Qed.

Lemma logs_only_bind {A B} (m : M A) (k : A -> M B) :
  logs_only m -> (forall a, logs_only (k a)) -> logs_only (bind m k).
Proof.
  intros (a & evs & Hm) Hk. destruct (Hk a) as (b & evs' & Hka).
  exists b, (evs ++ evs'). intros c. unfold bind.
  rewrite Hm, Hka, with_events_app. reflexivity.
Qed.

Section Walker.

Variable K : Constants.
Variable env : Env.
Variable off : PythonVersionOffsets.

Lemma logs_only_probe_user a : logs_only (bpf_probe_read_user env a).
Proof. apply logs_only_bind; [apply logs_only_emit | intros; apply logs_only_ret]. Qed.

Lemma logs_only_probe_user_u32 a : logs_only (bpf_probe_read_user_u32 env a).
Proof. apply logs_only_bind; [apply logs_only_emit | intros; apply logs_only_ret]. Qed.

Lemma logs_only_probe_user_str n b a : logs_only (bpf_probe_read_user_str env n b a).
Proof. apply logs_only_bind; [apply logs_only_emit | intros; apply logs_only_ret]. Qed.

Ltac logs_only_tac :=
  repeat first
    [ apply logs_only_ret
    | apply logs_only_probe_user
    | apply logs_only_probe_user_u32
    | apply logs_only_probe_user_str
    | apply logs_only_emit
    | apply logs_only_bind
    | intros [? ?]
    | intros ?
    | match goal with
      | |- logs_only (if ?b then _ else _) => destruct b
      end ].

Lemma read_symbol_logs_only frame_addr code_addr sym :
  logs_only (read_symbol K env off frame_addr code_addr sym).
Proof. unfold read_symbol. logs_only_tac. Qed.

Lemma owner_block_logs_only p : logs_only (owner_block K env off p).
Proof. unfold owner_block. logs_only_tac. Qed.

Lemma read_symbol_run frame_addr code_addr c :
  read_symbol K env off frame_addr code_addr (reset_symbol K) c
  = (Val (symbolize K env off frame_addr code_addr),
     with_events (symbolize_events K env off frame_addr code_addr) c).
Proof.
  destruct (read_symbol_logs_only frame_addr code_addr (reset_symbol K))
    as (a & evs & H).
  unfold symbolize, symbolize_events. rewrite (H (boot_cpu K)), H. reflexivity.
Qed.

Lemma owner_block_run p c :
  owner_block K env off p c
  = (Val (after_owner K env off p), with_events (owner_events K env off p) c).
Proof.
  destruct (owner_block_logs_only p) as (a & evs & H).
  unfold after_owner, owner_events. rewrite (H (boot_cpu K)), H. reflexivity.
Qed.

Lemma loop_body_run c :
  loop_body K env off c
  = let '(e, s', evs) := loop_body_effect K env off (global_state c) in
    (Val e, with_state s' (with_events evs c)).
Proof.
  unfold loop_body, loop_body_effect, bind at 1, get_state.
  destruct (frame_ptr (global_state c) =? 0).
  { unfold ret. rewrite with_events_nil, with_state_same. reflexivity. }
  unfold bind at 1. rewrite owner_block_run.
  destruct (after_owner K env off (frame_ptr (global_state c))) as [cur|].
  2:{ unfold ret. rewrite with_state_same_events. reflexivity. }
  unfold bpf_probe_read_user at 1, bind at 1, bind at 1, emit, ret.
  destruct (load_user_u64 env (padd cur (f_code (py_frame_object off))))
    as [err code].
  destruct (err =? 0); simpl.
  2:{ rewrite with_state_same_events.
      unfold with_events. simpl. rewrite <- app_assoc. reflexivity. }
  destruct (code =? 0); simpl.
  { rewrite with_state_same_events.
    unfold with_events. simpl. rewrite <- app_assoc. reflexivity. }
  unfold bind at 1. rewrite read_symbol_run.
  unfold append_symbolized.
  destruct (symbolize K env off cur code) as [sym lineno].
  unfold bind, modify_state, bpf_probe_read_user, emit, ret. simpl.
  destruct (load_user_u64 env (padd cur (f_back (py_frame_object off))))
    as [err' back]. simpl.
  unfold with_state, with_events. simpl.
  destruct (back =? 0); simpl; do 2 f_equal; rewrite <- !app_assoc; reflexivity.
Qed.

Lemma walk_loop_run n : forall c,
  walk_loop K env off n c
  = let '(e, s', evs) := walk_loop_effect K env off n (global_state c) in
    (Val e, with_state s' (with_events evs c)).
Proof.
  induction n as [|n IH]; intros c; simpl.
  - unfold ret. rewrite with_events_nil, with_state_same. reflexivity.
  - unfold bind. rewrite loop_body_run.
    destruct (loop_body_effect K env off (global_state c)) as [[e s'] evs].
    destruct e; try reflexivity.
    rewrite IH. simpl.
    destruct (walk_loop_effect K env off n s') as [[e' s''] evs'].
    rewrite with_state_events, with_events_app. reflexivity.
Qed.

Lemma submit_run c evs c0 s :
  c = with_state s (with_events evs c0) ->
  submit env c = (Val 0, published env s evs c0).
Proof.
  intros ->. unfold submit, published, bind, get_state, aggregate_stacks,
    emit, ret. simpl. do 2 f_equal. rewrite <- !app_assoc. reflexivity.
Qed.

Lemma walk_python_stack_run c :
  global_state_slot env = true ->
  version_specific_offsets env
    !! py_version_index (interpreter_info (global_state c)) = Some off ->
  walk_python_stack K env c = walk_python_stack_effect K env off c.
Proof.
  intros Hslot Hoff.
  unfold walk_python_stack, walk_python_stack_effect, GET_STATE, GET_OFFSETS.
  rewrite Hslot. unfold bind at 1, ret at 1.
  unfold bind at 1, bind at 1, get_state. rewrite Hoff.
  unfold ret at 1. unfold bind at 1, modify_state at 1.
  unfold bind at 1. rewrite walk_loop_run. simpl global_state.
  destruct (walk_loop_effect K env off _ _) as [[e s2] evs].
  destruct e.
  - unfold bind at 1, get_state. cbn [global_state with_state with_events].
    destruct (stack_walker_prog_call_count s2 <? PYTHON_STACK_PROG_CNT K).
    + unfold bpf_tail_call, bind, emit. simpl.
      destruct (walker_installed env).
      * do 2 f_equal. unfold with_state, with_events. simpl.
        rewrite <- ?app_assoc. reflexivity.
      * erewrite submit_run; [reflexivity|].
        unfold with_state, with_events. simpl. rewrite <- ?app_assoc.
        reflexivity.
    + unfold bind, modify_state. erewrite submit_run; [reflexivity|].
      reflexivity.
  - unfold complete, bind, modify_state. erewrite submit_run; [reflexivity|].
    reflexivity.
Qed.

(** *** Frames and chains *)

Lemma after_owner_not_cstack p :
  p <> 0 -> ~ cstack_owned K env off p -> after_owner K env off p = Some p.
Proof.
  intros Hp Hn. unfold after_owner, owner_block.
  destruct (owner (py_interpreter_frame off) =? -1) eqn:Ho; [reflexivity|].
  simpl negb. cbv iota.
  unfold bpf_probe_read_user_u32, bind, emit, ret. simpl.
  assert (Ht : (to_s32 (snd (load_user_u32 env
                  (padd p (owner (py_interpreter_frame off)))))
                =? FRAME_OWNED_BY_CSTACK K) = false).
  { apply Z.eqb_neq. intros Heq. apply Hn. split; [|exact Heq].
    apply Z.eqb_neq. exact Ho. }
  destruct (load_user_u32 env _) as [e tag]. simpl in Ht. rewrite Ht.
  apply Z.eqb_neq in Hp. rewrite Hp. reflexivity.
Qed.

Lemma after_owner_cstack p :
  p <> 0 -> cstack_owned K env off p ->
  after_owner K env off p
  = (if back_of env off p =? 0 then None else Some (back_of env off p))
  /\ owner_events K env off p
     = [EvProbeReadUser (padd p (owner (py_interpreter_frame off)));
        EvProbeReadUser (padd p (f_back (py_frame_object off)))].
Proof.
  intros Hp [Ho Ht]. unfold after_owner, owner_events, owner_block, back_of.
  apply Z.eqb_neq in Ho. rewrite Ho. simpl negb. cbv iota.
  unfold bpf_probe_read_user_u32, bpf_probe_read_user, bind, emit, ret. simpl.
  unfold owner_tag in Ht.
  destruct (load_user_u32 env _) as [e tag]. simpl in Ht. rewrite Ht.
  rewrite Z.eqb_refl. simpl.
  destruct (load_user_u64 env _) as [e' back]. simpl.
  destruct (back =? 0); split; reflexivity.
Qed.

Lemma load_user_u64_some a v :
  user_u64 env a = Some v -> load_user_u64 env a = (0, wrap64 v).
Proof. intros H. unfold load_user_u64. rewrite H. reflexivity. Qed.

Lemma loop_body_effect_plain s :
  plain_frame K env off (frame_ptr s) ->
  exists code evs,
    user_u64 env (padd (frame_ptr s) (f_code (py_frame_object off))) = Some code
    /\ loop_body_effect K env off s
       = (if back_of env off (frame_ptr s) =? 0
          then IterGotoComplete else IterContinue,
          set_frame_ptr (back_of env off (frame_ptr s))
            (append_symbolized K env off (frame_ptr s) (wrap64 code) s),
          evs).
Proof.
  intros (Hp & Hn & code & Hcode & Hnz).
  exists code. eexists. split; [exact Hcode|].
  unfold loop_body_effect.
  apply Z.eqb_neq in Hp. rewrite Hp.
  rewrite after_owner_not_cstack by (try apply Z.eqb_neq; assumption).
  rewrite (load_user_u64_some _ _ Hcode).
  apply Z.eqb_neq in Hnz. rewrite Hnz. simpl. reflexivity.
Qed.

Lemma append_symbolized_fields frame_addr code s :
  let s' := append_symbolized K env off frame_addr code s in
  interpreter_info s' = interpreter_info s
  /\ stack_walker_prog_call_count s' = stack_walker_prog_call_count s
  /\ frame_ptr s' = frame_ptr s
  /\ stack_status (sample s') = stack_status (sample s).
Proof.
  unfold append_symbolized, append_frame.
  destruct (symbolize K env off frame_addr code) as [sym lineno].
  destruct ((0 <=? _) && (_ <? _)); simpl; auto.
Qed.

Lemma append_symbolized_len frame_addr code s :
  0 <= stack_len s < MAX_STACK_DEPTH K ->
  MAX_STACK_DEPTH K < 2 ^ 64 ->
  stack_len (append_symbolized K env off frame_addr code s) = stack_len s + 1.
Proof.
  unfold stack_len. intros Hl Hmax. unfold append_symbolized, append_frame.
  destruct (symbolize K env off frame_addr code) as [sym lineno].
  replace (0 <=? len (stack (sample s))) with true
    by (symmetry; apply Z.leb_le; lia).
  replace (len (stack (sample s)) <? MAX_STACK_DEPTH K) with true
    by (symmetry; apply Z.ltb_lt; lia).
  simpl. apply wrap64_small. lia.
Qed.

Lemma frame_chain_plain p m :
  frame_chain K env off p m -> plain_frame K env off p /\ (1 <= m)%nat.
Proof. intros H. destruct H; split; auto; lia. Qed.

(** The loop on a readable chain of [m] frames: it appends [min n m]
    entries; it leaves by [goto complete] when the chain ends within the
    [n] iterations, and otherwise stops in front of the rest of the chain. *)
Lemma walk_loop_effect_chain n : forall m s,
  frame_chain K env off (frame_ptr s) m ->
  0 <= stack_len s ->
  stack_len s + Z.of_nat (min n m) <= MAX_STACK_DEPTH K ->
  MAX_STACK_DEPTH K < 2 ^ 64 ->
  exists e s' evs,
    walk_loop_effect K env off n s = (e, s', evs)
    /\ stack_len s' = stack_len s + Z.of_nat (min n m)
    /\ interpreter_info s' = interpreter_info s
    /\ stack_walker_prog_call_count s' = stack_walker_prog_call_count s
    /\ stack_status (sample s') = stack_status (sample s)
    /\ ((m <= n)%nat -> e = LoopGotoComplete)
    /\ ((n < m)%nat ->
        e = LoopLeft /\ frame_chain K env off (frame_ptr s') (m - n)).
Proof.
  induction n as [|n IH]; intros m s Hch Hl0 Hl Hmax.
  - destruct (frame_chain_plain _ _ Hch) as [_ Hm].
    exists LoopLeft, s, []. simpl. repeat split; try lia.
    replace (m - 0)%nat with m by lia. exact Hch.
  - simpl walk_loop_effect.
    destruct (frame_chain_plain _ _ Hch) as [Hplain Hm].
    destruct (loop_body_effect_plain s Hplain) as (code & evs & Hcode & Hbody).
    rewrite Hbody.
    pose proof (append_symbolized_fields (frame_ptr s) (wrap64 code) s)
      as (Hi & Hc & Hf & Hst).
    assert (Hlen : stack_len (append_symbolized K env off (frame_ptr s)
                                (wrap64 code) s) = stack_len s + 1).
    { apply append_symbolized_len; lia. }
    inversion Hch as [p v Hp Hv Hz | p v m' Hp Hv Hrest]; subst.
    + (* last frame of the chain *)
      unfold back_of. rewrite (load_user_u64_some _ _ Hv). simpl snd.
      rewrite Hz. simpl.
      eexists _, _, _. split; [reflexivity|].
      unfold stack_len in *. simpl.
      repeat split; try assumption; try lia.
    + (* a further frame follows *)
      destruct (frame_chain_plain _ _ Hrest) as [[Hnz _] Hm'].
      unfold back_of. rewrite (load_user_u64_some _ _ Hv). simpl snd.
      apply Z.eqb_neq in Hnz. rewrite Hnz.
      set (s1 := set_frame_ptr (wrap64 v)
                   (append_symbolized K env off (frame_ptr s) (wrap64 code) s)).
      assert (Hl1 : stack_len s1 = stack_len s + 1) by exact Hlen.
      destruct (IH m' s1) as (e & s' & evs' & Hrun & Hlen' & Hi' & Hc' & Hst' & Hle & Hlt).
      { exact Hrest. }
      { lia. }
      { rewrite Hl1. simpl min in Hl. lia. }
      { exact Hmax. }
      rewrite Hrun. eexists _, _, _. split; [reflexivity|].
      repeat split.
      * rewrite Hlen', Hl1. simpl min. lia.
      * rewrite Hi'. exact Hi.
      * rewrite Hc'. exact Hc.
      * rewrite Hst'. exact Hst.
      * intros Hmn. apply Hle. lia.
      * apply Hlt. lia.
      * simpl. apply Hlt. lia.
Qed.

(** The chain of walker invocations on a readable chain of [m] frames,
    with [S j] invocations left in the budget. *)
Lemma walker_chain_on_frames j : forall c m,
  global_state_slot env = true ->
  version_specific_offsets env
    !! py_version_index (interpreter_info (global_state c)) = Some off ->
  walker_installed env = true ->
  0 < PYTHON_STACK_FRAMES_PER_PROG K ->
  MAX_STACK_DEPTH K = PYTHON_STACK_FRAMES_PER_PROG K * PYTHON_STACK_PROG_CNT K ->
  MAX_STACK_DEPTH K < 2 ^ 64 ->
  stack_walker_prog_call_count (global_state c)
  = PYTHON_STACK_PROG_CNT K - Z.of_nat (S j) ->
  0 <= stack_walker_prog_call_count (global_state c) ->
  stack_len (global_state c)
  = stack_walker_prog_call_count (global_state c)
    * PYTHON_STACK_FRAMES_PER_PROG K ->
  frame_chain K env off (frame_ptr (global_state c)) m ->
  exists c' evs,
    walker_chain K env (S j) c = Some (0, c')
    /\ trace c' = trace c ++ evs ++
                  [EvStackTracesUpdate
                     (wrap64 (hash_stack env (stack (sample (global_state c')))));
                   EvAggregateStacks]
    /\ (Z.of_nat m <= Z.of_nat (S j) * PYTHON_STACK_FRAMES_PER_PROG K ->
        stack_status (sample (global_state c')) = STACK_COMPLETE
        /\ stack_len (global_state c')
           = stack_len (global_state c) + Z.of_nat m)
    /\ (Z.of_nat (S j) * PYTHON_STACK_FRAMES_PER_PROG K < Z.of_nat m ->
        stack_status (sample (global_state c')) = STACK_TRUNCATED
        /\ stack_len (global_state c') = MAX_STACK_DEPTH K).
Proof.
  induction j as [|j IH]; intros c m Hslot Hoff Hinst Hfpp Hmax Hlt Hcnt Hcnt0
    Hlen Hch.
  all: simpl walker_chain; unfold run_prog;
    rewrite (walk_python_stack_run c Hslot Hoff);
    unfold walk_python_stack_effect;
    set (s1 := set_call_count
                 (stack_walker_prog_call_count (global_state c) + 1)
                 (global_state c));
    set (n := Z.to_nat (PYTHON_STACK_FRAMES_PER_PROG K));
    assert (Hn : Z.of_nat n = PYTHON_STACK_FRAMES_PER_PROG K)
      by (unfold n; lia);
    destruct (walk_loop_effect_chain n m s1)
      as (e & s2 & evs & Hrun & Hlen2 & Hi2 & Hc2 & Hst2 & Hle & Hgt);
    [ exact Hch
    | change (stack_len s1) with (stack_len (global_state c)); nia
    | change (stack_len s1) with (stack_len (global_state c)); nia
    | exact Hlt
    | rewrite Hrun;
      change (stack_len s1) with (stack_len (global_state c)) in Hlen2;
      change (stack_walker_prog_call_count s1)
        with (stack_walker_prog_call_count (global_state c) + 1) in Hc2 ].
  - (* the last invocation of the budget *)
    destruct (le_lt_dec m n) as [Hmn | Hmn].
    + rewrite (Hle Hmn). eexists _, evs. split; [reflexivity|].
      split; [reflexivity|]. simpl.
      split; [intros _; split; [reflexivity|] | intros; lia].
      change (stack_len s2 = stack_len (global_state c) + Z.of_nat m).
      rewrite Hlen2. lia.
    + destruct (Hgt Hmn) as [-> _].
      replace (stack_walker_prog_call_count s2 <? PYTHON_STACK_PROG_CNT K)
        with false by (symmetry; apply Z.ltb_ge; lia).
      eexists _, evs. split; [reflexivity|]. split; [reflexivity|]. simpl.
      split; [intros; lia | intros _; split; [reflexivity|]].
      change (stack_len s2 = MAX_STACK_DEPTH K).
      rewrite Hlen2. nia.
  - (* further invocations remain *)
    destruct (le_lt_dec m n) as [Hmn | Hmn].
    + rewrite (Hle Hmn). eexists _, evs. split; [reflexivity|].
      split; [reflexivity|]. simpl.
      split; [intros _; split; [reflexivity|] | intros; nia].
      change (stack_len s2 = stack_len (global_state c) + Z.of_nat m).
      rewrite Hlen2. lia.
    + destruct (Hgt Hmn) as [-> Hrest].
      replace (stack_walker_prog_call_count s2 <? PYTHON_STACK_PROG_CNT K)
        with true by (symmetry; apply Z.ltb_lt; lia).
      rewrite Hinst.
      set (c1 := with_state s2 (with_events (evs ++ [EvTailCall]) c)).
      destruct (IH c1 (m - n)%nat) as (c' & evs' & Hchain & Htr & Hcomp & Htrunc);
        try assumption.
      { simpl. rewrite Hi2. exact Hoff. }
      { simpl. lia. }
      { simpl. lia. }
      { change (stack_len s2 = stack_walker_prog_call_count s2
                               * PYTHON_STACK_FRAMES_PER_PROG K).
        rewrite Hlen2, Hc2. nia. }
      change (stack_len (global_state c1)) with (stack_len s2) in *.
      exists c', ((evs ++ [EvTailCall]) ++ evs'). split; [exact Hchain|].
      split; [rewrite Htr; simpl; rewrite <- !app_assoc; reflexivity|].
      split.
      * intros Hm. destruct Hcomp as [Hs Hl]; [nia|].
        split; [exact Hs|]. rewrite Hl, Hlen2. lia.
      * intros Hm. apply Htrunc. nia.
Qed.

(** *** A walk that cannot advance *)

Lemma loop_body_effect_breaks s :
  breaks_at K env off (frame_ptr s) ->
  exists evs, loop_body_effect K env off s = (IterBreak, s, evs).
Proof.
  unfold loop_body_effect. intros [Hz | [Hnone | (cur & Hcur & Hcode)]].
  - rewrite Hz. simpl. eauto.
  - destruct (frame_ptr s =? 0); [eauto|]. rewrite Hnone. eauto.
  - destruct (frame_ptr s =? 0); [eauto|]. rewrite Hcur.
    destruct Hcode as [Hf | (v & Hv & Hz)].
    + unfold load_user_u64. rewrite Hf. simpl. eauto.
    + rewrite (load_user_u64_some _ _ Hv), Hz. simpl. eauto.
Qed.

Lemma walk_loop_effect_breaks n s :
  breaks_at K env off (frame_ptr s) ->
  exists evs, walk_loop_effect K env off n s = (LoopLeft, s, evs).
Proof.
  intros Hb. destruct n as [|n]; simpl; [eauto|].
  destruct (loop_body_effect_breaks s Hb) as [evs ->]. eauto.
Qed.

(** When the loop body cannot get past the frame pointer of the state, every
    invocation leaves the state alone except for the call count, tail-calls
    while the budget lasts and finally publishes the sample as truncated. *)
Lemma walker_chain_breaks j : forall c,
  global_state_slot env = true ->
  version_specific_offsets env
    !! py_version_index (interpreter_info (global_state c)) = Some off ->
  walker_installed env = true ->
  stack_walker_prog_call_count (global_state c)
  = PYTHON_STACK_PROG_CNT K - Z.of_nat (S j) ->
  breaks_at K env off (frame_ptr (global_state c)) ->
  exists c' evs,
    walker_chain K env (S j) c = Some (0, c')
    /\ global_state c'
       = set_stack_status STACK_TRUNCATED
           (set_call_count (PYTHON_STACK_PROG_CNT K) (global_state c))
    /\ trace c' = trace c ++ evs ++
                  [EvStackTracesUpdate
                     (wrap64 (hash_stack env (stack (sample (global_state c)))));
                   EvAggregateStacks].
Proof.
  induction j as [|j IH]; intros c Hslot Hoff Hinst Hcnt Hb.
  all: simpl walker_chain; unfold run_prog;
    rewrite (walk_python_stack_run c Hslot Hoff);
    unfold walk_python_stack_effect;
    set (s1 := set_call_count
                 (stack_walker_prog_call_count (global_state c) + 1)
                 (global_state c));
    destruct (walk_loop_effect_breaks
                (Z.to_nat (PYTHON_STACK_FRAMES_PER_PROG K)) s1 Hb)
      as [evs ->];
    change (stack_walker_prog_call_count s1)
      with (stack_walker_prog_call_count (global_state c) + 1).
  - replace (_ <? _) with false by (symmetry; apply Z.ltb_ge; lia).
    eexists _, evs. split; [reflexivity|]. split; [|reflexivity].
    simpl. unfold s1, set_stack_status, set_sample, set_call_count. simpl.
    do 2 f_equal. lia.
  - replace (_ <? _) with true by (symmetry; apply Z.ltb_lt; lia).
    rewrite Hinst.
    destruct (IH (with_state s1 (with_events (evs ++ [EvTailCall]) c)))
      as (c' & evs' & Hrun & Hst & Htr); try assumption.
    { simpl. lia. }
    exists c', ((evs ++ [EvTailCall]) ++ evs'). split; [exact Hrun|].
    split; [exact Hst|].
    rewrite Htr. simpl. rewrite <- !app_assoc. reflexivity.
Qed.

(** A failed read of the link behind the append zeroes the frame pointer:
    the invocation leaves by [goto complete]. *)
Lemma walk_python_stack_link_unreadable c :
  global_state_slot env = true ->
  version_specific_offsets env
    !! py_version_index (interpreter_info (global_state c)) = Some off ->
  0 < PYTHON_STACK_FRAMES_PER_PROG K ->
  plain_frame K env off (frame_ptr (global_state c)) ->
  user_u64 env (padd (frame_ptr (global_state c))
                  (f_back (py_frame_object off))) = None ->
  exists code evs,
    user_u64 env (padd (frame_ptr (global_state c))
                    (f_code (py_frame_object off))) = Some code
    /\ walk_python_stack K env c
       = (Val 0,
          published env
            (set_stack_status STACK_COMPLETE
               (set_frame_ptr 0
                  (append_symbolized K env off (frame_ptr (global_state c))
                     (wrap64 code)
                     (set_call_count
                        (stack_walker_prog_call_count (global_state c) + 1)
                        (global_state c)))))
            evs c).
Proof.
  intros Hslot Hoff Hfpp Hplain Hback.
  rewrite (walk_python_stack_run c Hslot Hoff).
  unfold walk_python_stack_effect.
  set (s1 := set_call_count _ (global_state c)).
  destruct (Z.to_nat (PYTHON_STACK_FRAMES_PER_PROG K)) as [|n] eqn:En; [lia|].
  simpl walk_loop_effect.
  destruct (loop_body_effect_plain s1 Hplain) as (code & evs & Hcode & Hbody).
  rewrite Hbody. unfold back_of, load_user_u64.
  change (frame_ptr s1) with (frame_ptr (global_state c)).
  rewrite Hback. simpl.
  exists code, evs. split; [exact Hcode | reflexivity].
Qed.

(** *** Frames owned by the C stack *)

Lemma loop_body_skips_cstack c code :
  let s := global_state c in
  let p := frame_ptr s in
  let next := back_of env off p in
  p <> 0 ->
  cstack_owned K env off p ->
  next <> 0 ->
  user_u64 env (padd next (f_code (py_frame_object off))) = Some code ->
  wrap64 code <> 0 ->
  loop_body K env off c
  = (Val (if back_of env off next =? 0 then IterGotoComplete else IterContinue),
     with_state
       (set_frame_ptr (back_of env off next)
          (append_symbolized K env off next (wrap64 code) s))
       (with_events
          ([EvProbeReadUser (padd p (owner (py_interpreter_frame off)));
            EvProbeReadUser (padd p (f_back (py_frame_object off)));
            EvProbeReadUser (padd next (f_code (py_frame_object off)))]
           ++ symbolize_events K env off next (wrap64 code)
           ++ [EvProbeReadUser (padd next (f_back (py_frame_object off)))])
          c)).
Proof.
  intros s p next Hp Hc Hnext Hcode Hnz.
  rewrite loop_body_run. unfold loop_body_effect. fold s. fold p.
  destruct (after_owner_cstack p Hp Hc) as [Hafter Hevs].
  fold next in Hafter.
  apply Z.eqb_neq in Hp, Hnext, Hnz. rewrite Hp, Hafter, Hnext, Hevs.
  rewrite (load_user_u64_some _ _ Hcode), Hnz. simpl. reflexivity.
Qed.

Lemma loop_body_cstack_null_link c :
  let p := frame_ptr (global_state c) in
  p <> 0 ->
  cstack_owned K env off p ->
  back_of env off p = 0 ->
  loop_body K env off c
  = (Val IterBreak,
     with_events
       [EvProbeReadUser (padd p (owner (py_interpreter_frame off)));
        EvProbeReadUser (padd p (f_back (py_frame_object off)))] c).
Proof.
  intros p Hp Hc Hnull.
  rewrite loop_body_run. unfold loop_body_effect. fold p.
  destruct (after_owner_cstack p Hp Hc) as [Hafter Hevs].
  apply Z.eqb_neq in Hp. rewrite Hp, Hafter, Hnull, Hevs. simpl.
  rewrite with_state_same_events. reflexivity.
Qed.

Lemma append_symbolized_stack frame_addr code s :
  0 <= stack_len s < MAX_STACK_DEPTH K ->
  stack (sample (append_symbolized K env off frame_addr code s))
  = {| len := wrap64 (stack_len s + 1);
       addresses := <[Z.to_nat (stack_len s)
                      := frame_encoding K env off frame_addr code]>
                      (addresses (stack (sample s))) |}.
Proof.
  unfold stack_len. intros Hl. unfold append_symbolized, frame_encoding, append_frame.
  destruct (symbolize K env off frame_addr code) as [sym lineno].
  replace (0 <=? len (stack (sample s))) with true
    by (symmetry; apply Z.leb_le; lia).
  replace (len (stack (sample s)) <? MAX_STACK_DEPTH K) with true
    by (symmetry; apply Z.ltb_lt; lia).
  reflexivity.
Qed.

End Walker.

(** ** The bound of the stack *)

Section Keeps.

Variable K : Constants.
Variable I : State -> Prop.

Lemma keeps_ret {A} (a : A) : keeps I (ret a).
Proof. intros c H. exact H. Qed.

Lemma keeps_return {A} rc : keeps I (@return_ A rc).
Proof. intros c H. exact H. Qed.

Lemma keeps_emit e : keeps I (emit e).
Proof. intros c H. exact H. Qed.

Lemma keeps_get_state : keeps I get_state.
Proof. intros c H. exact H. Qed.

Lemma keeps_bind {A B} (m : M A) (k : A -> M B) :
  keeps I m -> (forall a, keeps I (k a)) -> keeps I (bind m k).
Proof.
  intros Hm Hk c H. unfold bind. specialize (Hm c H).
  destruct (m c) as [[a | rc |] c']; simpl in *; auto.
  apply Hk. exact Hm.
Qed.

Lemma keeps_goto {A} (label : M Z) : keeps I label -> keeps I (@goto A label).
Proof.
  intros Hl c H. unfold goto. specialize (Hl c H).
  destruct (label c) as [[a | rc |] c']; exact Hl.
Qed.

Lemma keeps_call (f : M Z) : keeps I f -> keeps I (call f).
Proof.
  intros Hf c H. unfold call. specialize (Hf c H).
  destruct (f c) as [[a | rc |] c']; exact Hf.
Qed.

Lemma keeps_modify (f : State -> State) :
  (forall s, I s -> I (f s)) -> keeps I (modify_state f).
Proof. intros Hf c H. simpl. apply Hf. exact H. Qed.

Lemma keeps_tail_call env : keeps I (bpf_tail_call env).
Proof.
  intros c H. unfold bpf_tail_call, bind, emit. simpl.
  destruct (walker_installed env); exact H.
Qed.

End Keeps.

Section StackBound.

Variable K : Constants.
Hypothesis max_nonneg : 0 <= MAX_STACK_DEPTH K.

Lemma stack_bounded_reset info pid tid : stack_bounded K (reset_state K info pid tid).
Proof.
  unfold stack_bounded. simpl. rewrite length_replicate. lia.
Qed.

Lemma stack_bounded_append lineno symbol_id s :
  stack_bounded K s -> stack_bounded K (append_frame K lineno symbol_id s).
Proof.
  unfold stack_bounded, append_frame. intros [Hl Ha].
  destruct (0 <=? len (stack (sample s))) eqn:E1; simpl; [|auto].
  destruct (len (stack (sample s)) <? MAX_STACK_DEPTH K) eqn:E2; simpl; [|auto].
  apply Z.ltb_lt in E2. rewrite length_insert. split; [|exact Ha].
  pose proof (wrap64_range (len (stack (sample s)) + 1)).
  assert (wrap64 (len (stack (sample s)) + 1) <= len (stack (sample s)) + 1).
  { unfold wrap64. apply Z.mod_le; lia. }
  lia.
Qed.

Ltac keeps_tac :=
  repeat first
    [ apply keeps_ret | apply keeps_return | apply keeps_emit
    | apply keeps_get_state | apply keeps_tail_call
    | apply keeps_goto | apply keeps_bind
    | apply keeps_modify; intros ? ?;
      first [ assumption | apply stack_bounded_reset
            | apply stack_bounded_append; assumption ]
    | match goal with
      | |- forall _ : _ * _, _ => intros [? ?]
      | |- forall _, _ => intro
      | |- keeps _ (if ?b then _ else _) => destruct b
      | |- keeps _ (match ?x with _ => _ end) => destruct x
      end ].

Lemma keeps_tls_read env tls_base info :
  keeps (stack_bounded K) (tls_read K env tls_base info).
Proof.
  unfold tls_read, bpf_probe_read_user, bpf_probe_read. keeps_tac.
Qed.

Lemma keeps_unwind_python_stack env :
  keeps (stack_bounded K) (unwind_python_stack K env).
Proof.
  unfold unwind_python_stack, GET_STATE, GET_OFFSETS, ERROR_MSG,
    submit_without_unwinding, error, ERROR_SAMPLE, aggregate_stacks,
    bpf_probe_read_user.
  pose proof (keeps_tls_read env) as Htls.
  repeat first [ apply keeps_call; apply Htls | progress keeps_tac ].
Qed.

Lemma keeps_read_symbol env off frame_addr code_addr sym :
  keeps (stack_bounded K) (read_symbol K env off frame_addr code_addr sym).
Proof.
  unfold read_symbol, bpf_probe_read_user, bpf_probe_read_user_u32,
    bpf_probe_read_user_str. keeps_tac.
Qed.

Lemma keeps_loop_body env off : keeps (stack_bounded K) (loop_body K env off).
Proof.
  unfold loop_body, owner_block, bpf_probe_read_user, bpf_probe_read_user_u32.
  pose proof (keeps_read_symbol env off) as Hsym.
  repeat first [ apply Hsym | progress keeps_tac ].
Qed.

Lemma keeps_walk_loop env off n : keeps (stack_bounded K) (walk_loop K env off n).
Proof.
  induction n as [|n IH]; simpl.
  - apply keeps_ret.
  - apply keeps_bind; [apply keeps_loop_body|].
    intros []; [exact IH | apply keeps_ret | apply keeps_ret].
Qed.

Lemma keeps_submit env : keeps (stack_bounded K) (submit env).
Proof. intros c H. exact H. Qed.

Lemma keeps_walk_python_stack env :
  keeps (stack_bounded K) (walk_python_stack K env).
Proof.
  unfold walk_python_stack, GET_STATE, GET_OFFSETS, complete.
  pose proof (keeps_walk_loop env) as Hloop.
  pose proof (keeps_submit env) as Hsub.
  repeat first [ apply Hloop | apply Hsub | progress keeps_tac
               | apply keeps_modify; intros s Hs; exact Hs ].
Qed.

Lemma run_prog_state p c : snd (run_prog p c) = snd (p c).
Proof. unfold run_prog. destruct (p c) as [[a | rc |] c']; reflexivity. Qed.

End StackBound.

(** ** The first-argument probe of read_symbol *)

Lemma to_s32_inj x y :
  0 <= x < 2 ^ 32 -> 0 <= y < 2 ^ 32 -> to_s32 x = to_s32 y -> x = y.
Proof.
  intros Hx Hy. unfold to_s32, wrap32.
  rewrite !Z.mod_small by lia.
  destruct (x <? 2 ^ 31) eqn:Ex, (y <? 2 ^ 31) eqn:Ey;
    rewrite ?Z.ltb_lt, ?Z.ltb_ge in *; lia.
Qed.

Lemma byte_range (a : ascii) : 0 <= Z.of_N (N_of_ascii a) < 256.
Proof. pose proof (N_ascii_bounded a). lia. Qed.

Lemma byte_inj (a b : ascii) : Z.of_N (N_of_ascii a) = Z.of_N (N_of_ascii b) -> a = b.
Proof.
  intros H. apply N2Z.inj in H.
  rewrite <- (ascii_N_embedding a), <- (ascii_N_embedding b), H. reflexivity.
Qed.

Lemma load_s32_inj4 a b c d r a' b' c' d' r' :
  load_s32 (a :: b :: c :: d :: r) = load_s32 (a' :: b' :: c' :: d' :: r')
  <-> a = a' /\ b = b' /\ c = c' /\ d = d'.
Proof.
  split.
  - unfold load_s32, byte_at. simpl. intros H.
    pose proof (byte_range a). pose proof (byte_range b).
    pose proof (byte_range c). pose proof (byte_range d).
    pose proof (byte_range a'). pose proof (byte_range b').
    pose proof (byte_range c'). pose proof (byte_range d').
    apply to_s32_inj in H; [|lia|lia].
    repeat split; apply byte_inj; lia.
  - intros (-> & -> & -> & ->). reflexivity.
Qed.

Lemma until_nul_no_nul s : Forall (fun ch => ch <> NUL) (until_nul s).
Proof.
  induction s as [|ch s IH]; simpl; [constructor|].
  destruct (Ascii.eqb ch NUL) eqn:E; [constructor|].
  constructor; [|exact IH]. apply Ascii.eqb_neq. exact E.
Qed.

Lemma until_nul_idem s : until_nul (until_nul s) = until_nul s.
Proof.
  induction s as [|ch s IH]; simpl; [reflexivity|].
  destruct (Ascii.eqb ch NUL) eqn:E; simpl; [reflexivity|].
  rewrite E, IH. reflexivity.
Qed.

(** The integer compare against "self" sees the first four characters of
    the name; the compare against "cls" also sees the terminator. *)
Lemma probe_self (L : nat) (nm : list ascii) :
  (4 < L)%nat ->
  (load_s32 (str_into_buf L nm (replicate L NUL)) =? load_s32 self_str) = true
  <-> take 4 (until_nul nm) = self_str.
Proof.
  intros HL. rewrite Z.eqb_eq.
  pose proof (until_nul_no_nul nm) as Hn. unfold str_into_buf.
  destruct L as [|[|[|[|[|k]]]]]; try lia. clear HL.
  destruct (until_nul nm) as [|a [|b [|c0 [|d u]]]]; simpl;
    unfold self_str; rewrite load_s32_inj4;
    (split; [intros (? & ? & ? & ?); subst; try discriminate; reflexivity
            | intros H; inversion H; subst; auto]).
Qed.

Lemma probe_cls (L : nat) (nm : list ascii) :
  (4 < L)%nat ->
  (load_s32 (str_into_buf L nm (replicate L NUL)) =? load_s32 cls_str) = true
  <-> until_nul nm = cls_name.
Proof.
  intros HL. rewrite Z.eqb_eq.
  pose proof (until_nul_no_nul nm) as Hn. unfold str_into_buf.
  destruct L as [|[|[|[|[|k]]]]]; try lia. clear HL.
  destruct (until_nul nm) as [|a [|b [|c0 [|d u]]]]; simpl;
    unfold cls_str, cls_name; rewrite load_s32_inj4;
    (split; [intros (? & ? & ? & ?); subst; try discriminate; try reflexivity
            | intros H; inversion H; subst; auto]).
  exfalso. inversion Hn as [|? ? _ Hn1]; subst.
  inversion Hn1 as [|? ? _ Hn2]; subst. inversion Hn2 as [|? ? _ Hn3]; subst.
  inversion Hn3 as [|? ? Hd _]; subst. apply Hd. reflexivity.
Qed.

Lemma probe_zero (L : nat) :
  (4 < L)%nat ->
  (load_s32 (replicate L NUL) =? load_s32 self_str) = false
  /\ (load_s32 (replicate L NUL) =? load_s32 cls_str) = false.
Proof.
  intros HL. destruct L as [|[|[|[|[|k]]]]]; try lia.
  split; apply Z.eqb_neq; simpl replicate; unfold self_str, cls_str;
    rewrite load_s32_inj4; intros (? & ? & ? & ?); discriminate.
Qed.

Lemma bind_probe_user {B} env a (k : Z * Z -> M B) c :
  bind (bpf_probe_read_user env a) k c
  = k (load_user_u64 env a) (with_events [EvProbeReadUser a] c).
Proof. reflexivity. Qed.

Lemma bind_probe_user_u32 {B} env a (k : Z * Z -> M B) c :
  bind (bpf_probe_read_user_u32 env a) k c
  = k (load_user_u32 env a) (with_events [EvProbeReadUser a] c).
Proof. reflexivity. Qed.

Lemma bind_probe_user_str {B} env n buf a (k : list ascii -> M B) c :
  bind (bpf_probe_read_user_str env n buf a) k c
  = k (load_user_str env n buf a) (with_events [EvProbeReadUserStr a] c).
Proof. reflexivity. Qed.

Lemma first_arg_probe_flags (K : Constants) (env : Env)
    (off : PythonVersionOffsets) (code_addr : Z) :
  (4 < METHOD_NAME_LEN K)%nat ->
  let buf := load_user_str env (METHOD_NAME_LEN K)
               (replicate (METHOD_NAME_LEN K) NUL)
               (first_arg_name_addr env off code_addr) in
  let nm := first_arg_name env off code_addr in
  ((load_s32 buf =? load_s32 self_str) = true <-> take 4 nm = self_str)
  /\ ((load_s32 buf =? load_s32 cls_str) = true <-> nm = cls_name).
Proof.
  intros HL buf nm. unfold buf, nm, load_user_str, first_arg_name.
  destruct (user_str env (first_arg_name_addr env off code_addr)) as [s|].
  - split; [apply probe_self | apply probe_cls]; exact HL.
  - destruct (probe_zero _ HL) as [-> ->].
    split; split; intros H; discriminate H.
Qed.

(** C9. The first-argument compare of [read_symbol] looks at four bytes.
    Every first-argument name whose first four characters are "self" takes
    the instance branch: the class name is read through
    [f_localsplus[0] -> ob_type -> tp_name], exactly as for "self" itself.
    The compare against "cls" includes the terminator, so only the name
    "cls" itself takes the class branch (class name read through
    [f_localsplus[0] -> tp_name]); any other name leaves the class name
    empty. *)
Theorem read_symbol_first_arg_compare (K : Constants) (env : Env)
    (off : PythonVersionOffsets) (frame_addr code_addr : Z) (c : Cpu) :
  (4 < METHOD_NAME_LEN K)%nat ->
  exists sym lineno evs,
    read_symbol K env off frame_addr code_addr (reset_symbol K) c
    = (Val (sym, lineno), with_events evs c)
    /\ let nm := first_arg_name env off code_addr in
       (take 4 nm = self_str ->
        class_name sym = class_name_via_type K env off frame_addr)
       /\ (nm = cls_name ->
           class_name sym = class_name_direct K env off frame_addr)
       /\ (take 4 nm <> self_str -> nm <> cls_name ->
           class_name sym = replicate (CLASS_NAME_LEN K) NUL).
Proof.
  intros HL.
  destruct (first_arg_probe_flags K env off code_addr HL) as [Hself Hcls].
  unfold read_symbol, class_name_via_type, class_name_direct.
  unfold first_arg_name_addr in *.
  rewrite bind_probe_user.
  destruct (load_user_u64 env (padd code_addr (co_varnames (py_code_object off))))
    as [e1 varnames]. simpl snd in *.
  rewrite bind_probe_user.
  destruct (load_user_u64 env (padd varnames (ob_item (py_tuple_object off))))
    as [e2 item]. simpl snd in *.
  rewrite bind_probe_user_str.
  cbn [method_name set_method_name reset_symbol class_name path] in *.
  set (buf := load_user_str env (METHOD_NAME_LEN K)
                (replicate (METHOD_NAME_LEN K) NUL)
                (padd item (data (py_string off)))) in *.
  destruct (load_s32 buf =? load_s32 self_str) eqn:Es;
    [|destruct (load_s32 buf =? load_s32 cls_str) eqn:Ec];
    cbn [orb]; unfold bind at 1.
  - (* the first four bytes are "self" *)
    rewrite bind_probe_user.
    destruct (load_user_u64 env (padd frame_addr _)) as [e3 obj]. simpl snd.
    unfold bind at 1. rewrite bind_probe_user.
    destruct (load_user_u64 env (padd obj (ob_type _))) as [e4 ty]. simpl snd.
    unfold ret at 1. rewrite bind_probe_user.
    destruct (load_user_u64 env (padd ty _)) as [e5 name_ptr]. simpl snd.
    rewrite bind_probe_user_str. unfold ret at 1.
    rewrite bind_probe_user. destruct (load_user_u64 env _) as [e6 file_ptr].
    rewrite bind_probe_user_str.
    rewrite bind_probe_user. destruct (load_user_u64 env _) as [e7 name_ptr'].
    rewrite bind_probe_user_str.
    rewrite bind_probe_user_u32. destruct (load_user_u32 env _) as [e8 lineno].
    unfold ret. rewrite !with_events_app.
    eexists _, _, _. split; [reflexivity|].
    cbn [class_name set_class_name set_method_name set_path].
    apply proj1 in Hself. specialize (Hself eq_refl).
    split; [reflexivity|]. split.
    + intros Hc. rewrite Hc in Hself. discriminate Hself.
    + intros Hn. contradiction.
  - (* the name is "cls" *)
    rewrite bind_probe_user.
    destruct (load_user_u64 env (padd frame_addr _)) as [e3 obj]. simpl snd.
    unfold bind at 1. unfold ret at 1. rewrite bind_probe_user.
    destruct (load_user_u64 env (padd obj _)) as [e5 name_ptr]. simpl snd.
    rewrite bind_probe_user_str. unfold ret at 1.
    rewrite bind_probe_user. destruct (load_user_u64 env _) as [e6 file_ptr].
    rewrite bind_probe_user_str.
    rewrite bind_probe_user. destruct (load_user_u64 env _) as [e7 name_ptr'].
    rewrite bind_probe_user_str.
    rewrite bind_probe_user_u32. destruct (load_user_u32 env _) as [e8 lineno].
    unfold ret. rewrite !with_events_app.
    eexists _, _, _. split; [reflexivity|].
    cbn [class_name set_class_name set_method_name set_path].
    apply proj1 in Hcls. specialize (Hcls eq_refl).
    split; [|split].
    + intros Hs. apply Hself in Hs. discriminate Hs.
    + reflexivity.
    + intros _ Hn. contradiction.
  - (* any other name *)
    unfold ret at 1.
    rewrite bind_probe_user. destruct (load_user_u64 env _) as [e6 file_ptr].
    rewrite bind_probe_user_str.
    rewrite bind_probe_user. destruct (load_user_u64 env _) as [e7 name_ptr'].
    rewrite bind_probe_user_str.
    rewrite bind_probe_user_u32. destruct (load_user_u32 env _) as [e8 lineno].
    unfold ret. rewrite !with_events_app.
    eexists _, _, _. split; [reflexivity|].
    cbn [class_name set_class_name set_method_name set_path].
    split; [|split].
    + intros Hs. apply Hself in Hs. discriminate Hs.
    + intros Hc. apply Hcls in Hc. discriminate Hc.
    + reflexivity.
Qed.

(** ** The walker: read failures and frames owned by the C stack *)

(** C3 (amended). What a failed probe read does to the walk depends on the
    read.  A failed read of [f_code] leaves the loop by [break] with the
    state untouched, and the complete branch is not taken: the walker
    tail-calls itself until [stack_walker_prog_call_count] reaches
    [PYTHON_STACK_PROG_CNT], and the sample is then published with exactly
    the stack accumulated before the failure and status truncated.  A
    failed read of [f_back] behind the append leaves the frame pointer zero;
    that invocation takes the complete branch and publishes the sample,
    with the entry of the frame just symbolized, as complete. *)
Theorem walker_read_failures (K : Constants) (env : Env)
    (off : PythonVersionOffsets) (c : Cpu) :
  let s := global_state c in
  global_state_slot env = true ->
  version_specific_offsets env !! py_version_index (interpreter_info s)
  = Some off ->
  (forall cur,
      walker_installed env = true ->
      0 <= stack_walker_prog_call_count s < PYTHON_STACK_PROG_CNT K ->
      frame_ptr s <> 0 ->
      after_owner K env off (frame_ptr s) = Some cur ->
      user_u64 env (padd cur (f_code (py_frame_object off))) = None ->
      (exists evs, loop_body K env off c = (Val IterBreak, with_events evs c))
      /\ exists c' evs,
           walker_chain K env
             (Z.to_nat (PYTHON_STACK_PROG_CNT K
                        - stack_walker_prog_call_count s)) c
           = Some (0, c')
           /\ stack (sample (global_state c')) = stack (sample s)
           /\ frame_ptr (global_state c') = frame_ptr s
           /\ stack_status (sample (global_state c')) = STACK_TRUNCATED
           /\ trace c'
              = trace c ++ evs ++
                [EvStackTracesUpdate (wrap64 (hash_stack env (stack (sample s))));
                 EvAggregateStacks])
  /\ (forall fuel,
        0 < PYTHON_STACK_FRAMES_PER_PROG K ->
        plain_frame K env off (frame_ptr s) ->
        user_u64 env (padd (frame_ptr s) (f_back (py_frame_object off))) = None ->
        exists c' code,
          user_u64 env (padd (frame_ptr s) (f_code (py_frame_object off)))
          = Some code
          /\ walker_chain K env (S fuel) c = Some (0, c')
          /\ stack (sample (global_state c'))
             = stack (sample (append_symbolized K env off (frame_ptr s)
                                (wrap64 code) s))
          /\ frame_ptr (global_state c') = 0
          /\ stack_status (sample (global_state c')) = STACK_COMPLETE).
Proof.
  intros s Hslot Hoff. subst s. split.
  - intros cur Hinst Hcnt Hp Hcur Hfail.
    assert (Hb : breaks_at K env off (frame_ptr (global_state c))).
    { right. right. exists cur. split; [exact Hcur | left; exact Hfail]. }
    split.
    + rewrite loop_body_run.
      destruct (loop_body_effect_breaks K env off _ Hb) as [evs ->].
      exists evs. rewrite with_state_same_events. reflexivity.
    + set (j := Nat.pred (Z.to_nat (PYTHON_STACK_PROG_CNT K
                   - stack_walker_prog_call_count (global_state c)))).
      replace (Z.to_nat (PYTHON_STACK_PROG_CNT K
                   - stack_walker_prog_call_count (global_state c)))
        with (S j) by lia.
      destruct (walker_chain_breaks K env off j c Hslot Hoff Hinst)
        as (c' & evs & Hrun & Hst & Htr); [lia | exact Hb |].
      exists c', evs. rewrite Hst. repeat split; assumption.
  - intros fuel Hfpp Hplain Hback.
    destruct (walk_python_stack_link_unreadable K env off c Hslot Hoff Hfpp
                Hplain Hback) as (code & evs & Hcode & Hrun).
    eexists _, code. split; [exact Hcode|].
    simpl walker_chain. unfold run_prog. rewrite Hrun.
    split; [reflexivity|]. simpl.
    unfold append_symbolized, append_frame.
    destruct (symbolize K env off _ _) as [sym lineno]. simpl.
    destruct ((0 <=? _) && (_ <? _)); repeat split; reflexivity.
Qed.

(** C8. In a walker iteration of a version that has the owner field, a
    current frame whose owner tag is [FRAME_OWNED_BY_CSTACK] is skipped by
    reading its [f_back] once, before the code pointer is read: the frame
    that is symbolized and appended is the linked one, and the next frame
    pointer is that frame's link.  When the link is null the iteration
    leaves the loop after those two reads with the state untouched, and the
    walk ends: the chain of invocations publishes the stack as it was. *)
Theorem cstack_frame_skipped_once (K : Constants) (env : Env)
    (off : PythonVersionOffsets) (c : Cpu) :
  let s := global_state c in
  let p := frame_ptr s in
  let next := back_of env off p in
  let owner_reads :=
    [EvProbeReadUser (padd p (owner (py_interpreter_frame off)));
     EvProbeReadUser (padd p (f_back (py_frame_object off)))] in
  p <> 0 ->
  owner (py_interpreter_frame off) <> -1 ->
  owner_tag env off p = FRAME_OWNED_BY_CSTACK K ->
  (forall code,
      next <> 0 ->
      user_u64 env (padd next (f_code (py_frame_object off))) = Some code ->
      wrap64 code <> 0 ->
      loop_body K env off c
      = (Val (if back_of env off next =? 0
              then IterGotoComplete else IterContinue),
         with_state
           (set_frame_ptr (back_of env off next)
              (append_symbolized K env off next (wrap64 code) s))
           (with_events
              (owner_reads
               ++ [EvProbeReadUser (padd next (f_code (py_frame_object off)))]
               ++ symbolize_events K env off next (wrap64 code)
               ++ [EvProbeReadUser (padd next (f_back (py_frame_object off)))])
              c)))
  /\ (next = 0 ->
      loop_body K env off c = (Val IterBreak, with_events owner_reads c)
      /\ (global_state_slot env = true ->
          version_specific_offsets env
            !! py_version_index (interpreter_info s) = Some off ->
          walker_installed env = true ->
          0 <= stack_walker_prog_call_count s < PYTHON_STACK_PROG_CNT K ->
          exists c',
            walker_chain K env
              (Z.to_nat (PYTHON_STACK_PROG_CNT K
                         - stack_walker_prog_call_count s)) c
            = Some (0, c')
            /\ stack (sample (global_state c')) = stack (sample s))).
Proof.
  intros s p next owner_reads Hp Ho Ht.
  assert (Hc : cstack_owned K env off p) by (split; assumption).
  split.
  - intros code Hnext Hcode Hnz.
    exact (loop_body_skips_cstack K env off c code Hp Hc Hnext Hcode Hnz).
  - intros Hnull. split.
    + exact (loop_body_cstack_null_link K env off c Hp Hc Hnull).
    + intros Hslot Hoff Hinst Hcnt.
      assert (Hb : breaks_at K env off p).
      { right. left. destruct (after_owner_cstack K env off p Hp Hc) as [-> _].
        fold next. rewrite Hnull. reflexivity. }
      set (j := Nat.pred (Z.to_nat (PYTHON_STACK_PROG_CNT K
                   - stack_walker_prog_call_count s))).
      replace (Z.to_nat (PYTHON_STACK_PROG_CNT K
                   - stack_walker_prog_call_count s))
        with (S j) by lia.
      destruct (walker_chain_breaks K env off j c Hslot Hoff Hinst)
        as (c' & evs & Hrun & Hst & Htr); [fold s; lia | exact Hb |].
      exists c'. rewrite Hst. split; [exact Hrun | reflexivity].
Qed.

(** C10. The owner check runs once per iteration.  When the current frame
    and the frame it links to are both owned by the C stack, the iteration
    reads one owner tag (that of the current frame), follows one link, and
    symbolizes and appends the second frame without looking at its owner
    tag; the next frame pointer is the second frame's link. *)
Theorem second_cstack_frame_appended (K : Constants) (env : Env)
    (off : PythonVersionOffsets) (c : Cpu) (code : Z) :
  let s := global_state c in
  let p := frame_ptr s in
  let next := back_of env off p in
  p <> 0 ->
  cstack_owned K env off p ->
  next <> 0 ->
  cstack_owned K env off next ->
  user_u64 env (padd next (f_code (py_frame_object off))) = Some code ->
  wrap64 code <> 0 ->
  0 <= stack_len s < MAX_STACK_DEPTH K ->
  exists e c',
    loop_body K env off c = (Val e, c')
    /\ e <> IterBreak
    /\ stack (sample (global_state c'))
       = {| len := wrap64 (stack_len s + 1);
            addresses := <[Z.to_nat (stack_len s)
                           := frame_encoding K env off next (wrap64 code)]>
                           (addresses (stack (sample s))) |}
    /\ frame_ptr (global_state c') = back_of env off next
    /\ trace c'
       = trace c
         ++ [EvProbeReadUser (padd p (owner (py_interpreter_frame off)));
             EvProbeReadUser (padd p (f_back (py_frame_object off)));
             EvProbeReadUser (padd next (f_code (py_frame_object off)))]
         ++ symbolize_events K env off next (wrap64 code)
         ++ [EvProbeReadUser (padd next (f_back (py_frame_object off)))].
Proof.
  intros s p next Hp Hc Hnext _ Hcode Hnz Hlen.
  rewrite (loop_body_skips_cstack K env off c code Hp Hc Hnext Hcode Hnz).
  eexists _, _. split; [reflexivity|].
  split; [destruct (back_of env off _ =? 0); discriminate|].
  split; [|split; reflexivity].
  simpl. exact (append_symbolized_stack K env off _ _ _ Hlen).
Qed.

(** C6. In every reachable state of a P1-then-P2-chain run the length of the
    sample's stack is between 0 and [MAX_STACK_DEPTH] (and the array keeps
    its [MAX_STACK_DEPTH] slots); the append of the walker is guarded: it
    leaves the stack alone unless the length is strictly below
    [MAX_STACK_DEPTH], and then it adds exactly one entry. *)
Theorem stack_len_bounded (K : Constants) :
  0 <= MAX_STACK_DEPTH K ->
  (forall c, reachable K c -> stack_bounded K (global_state c))
  /\ (forall lineno symbol_id s,
        let s' := append_frame K lineno symbol_id s in
        if (0 <=? stack_len s) && (stack_len s <? MAX_STACK_DEPTH K)
        then stack_len s' = wrap64 (stack_len s + 1)
             /\ addresses (stack (sample s'))
                = <[Z.to_nat (stack_len s) := encode_frame lineno symbol_id]>
                    (addresses (stack (sample s)))
        else s' = s).
Proof.
  intros Hmax. split.
  - intros c Hr. induction Hr as [c Hc | env c Hr IH | env c Hr IH | env off c Hr IH].
    + rewrite Hc. apply stack_bounded_reset. exact Hmax.
    + rewrite run_prog_state. apply keeps_unwind_python_stack; assumption.
    + rewrite run_prog_state. apply keeps_walk_python_stack; assumption.
    + apply keeps_loop_body; assumption.
  - intros lineno symbol_id s. unfold append_frame, stack_len. simpl.
    destruct ((0 <=? len (stack (sample s)))
              && (len (stack (sample s)) <? MAX_STACK_DEPTH K)); simpl; auto.
Qed.

(** C7. Boundary of the frame budget.  With [MAX_STACK_DEPTH] equal to
    [PYTHON_STACK_FRAMES_PER_PROG * PYTHON_STACK_PROG_CNT], the walker chain
    started as P1 hands over (no entries, call count zero) on a readable
    chain of exactly [MAX_STACK_DEPTH] frames publishes a sample of length
    [MAX_STACK_DEPTH] with status complete; on a readable chain of
    [MAX_STACK_DEPTH + 1] frames it publishes a sample of length
    [MAX_STACK_DEPTH] with status truncated. *)
Theorem walker_depth_boundary (K : Constants) (env : Env)
    (off : PythonVersionOffsets) (c : Cpu) :
  global_state_slot env = true ->
  version_specific_offsets env
    !! py_version_index (interpreter_info (global_state c)) = Some off ->
  walker_installed env = true ->
  0 < PYTHON_STACK_FRAMES_PER_PROG K ->
  0 < PYTHON_STACK_PROG_CNT K ->
  MAX_STACK_DEPTH K = PYTHON_STACK_FRAMES_PER_PROG K * PYTHON_STACK_PROG_CNT K ->
  MAX_STACK_DEPTH K < 2 ^ 64 ->
  stack_walker_prog_call_count (global_state c) = 0 ->
  stack_len (global_state c) = 0 ->
  let published_as (status : stack_status_t) :=
    exists c' evs,
      walker_chain K env (Z.to_nat (PYTHON_STACK_PROG_CNT K)) c = Some (0, c')
      /\ trace c'
         = trace c ++ evs ++
           [EvStackTracesUpdate
              (wrap64 (hash_stack env (stack (sample (global_state c')))));
            EvAggregateStacks]
      /\ stack_status (sample (global_state c')) = status
      /\ stack_len (global_state c') = MAX_STACK_DEPTH K in
  (frame_chain K env off (frame_ptr (global_state c))
     (Z.to_nat (MAX_STACK_DEPTH K)) ->
   published_as STACK_COMPLETE)
  /\ (frame_chain K env off (frame_ptr (global_state c))
        (S (Z.to_nat (MAX_STACK_DEPTH K))) ->
      published_as STACK_TRUNCATED).
Proof.
  intros Hslot Hoff Hinst Hfpp Hcnt Hmax Hlt Hc0 Hl0 published_as.
  assert (Hj : Z.to_nat (PYTHON_STACK_PROG_CNT K)
               = S (Nat.pred (Z.to_nat (PYTHON_STACK_PROG_CNT K)))) by lia.
  set (j := Nat.pred (Z.to_nat (PYTHON_STACK_PROG_CNT K))) in *.
  assert (HJ : Z.of_nat (S j) = PYTHON_STACK_PROG_CNT K) by lia.
  assert (H1 : stack_walker_prog_call_count (global_state c)
               = PYTHON_STACK_PROG_CNT K - Z.of_nat (S j)) by lia.
  assert (H2 : 0 <= stack_walker_prog_call_count (global_state c)) by lia.
  assert (H3 : stack_len (global_state c)
               = stack_walker_prog_call_count (global_state c)
                 * PYTHON_STACK_FRAMES_PER_PROG K) by lia.
  split; intros Hch; unfold published_as; rewrite Hj.
  - destruct (walker_chain_on_frames K env off j c _ Hslot Hoff Hinst Hfpp
                Hmax Hlt H1 H2 H3 Hch)
      as (c' & evs & Hrun & Htr & Hcomp & _).
    exists c', evs. destruct Hcomp as [Hs Hl]; [nia|].
    repeat split; try assumption. rewrite Hl, Hl0. nia.
  - destruct (walker_chain_on_frames K env off j c _ Hslot Hoff Hinst Hfpp
                Hmax Hlt H1 H2 H3 Hch)
      as (c' & evs & Hrun & Htr & _ & Htrunc).
    exists c', evs. destruct Htrunc as [Hs Hl]; [nia|].
    repeat split; assumption.
Qed.

(** ** Events of monadic code *)

Section Emits.

Variable E : Event -> Prop.

Lemma emits_ret {A} (a : A) : emits_only E (ret a).
Proof. intros c. exists []. rewrite app_nil_r. split; [reflexivity|constructor]. Qed.

Lemma emits_return {A} rc : emits_only E (@return_ A rc).
Proof. intros c. exists []. rewrite app_nil_r. split; [reflexivity|constructor]. Qed.

Lemma emits_get_state : emits_only E get_state.
Proof. intros c. exists []. rewrite app_nil_r. split; [reflexivity|constructor]. Qed.

Lemma emits_modify f : emits_only E (modify_state f).
Proof. intros c. exists []. simpl. rewrite app_nil_r. split; [reflexivity|constructor]. Qed.

Lemma emits_emit e : E e -> emits_only E (emit e).
Proof. intros He c. exists [e]. split; [reflexivity|]. repeat constructor. exact He. Qed.

Lemma emits_bind {A B} (m : M A) (k : A -> M B) :
  emits_only E m -> (forall a, emits_only E (k a)) -> emits_only E (bind m k).
Proof.
  intros Hm Hk c. destruct (Hm c) as (evs & Ht & Hf). unfold bind.
  destruct (m c) as [[a | rc |] c']; simpl in *;
    try solve [exists evs; auto].
  destruct (Hk a c') as (evs' & Ht' & Hf').
  exists (evs ++ evs'). rewrite Ht', Ht, app_assoc. split; [reflexivity|].
  apply Forall_app. auto.
Qed.

Lemma emits_goto {A} (label : M Z) : emits_only E label -> emits_only E (@goto A label).
Proof.
  intros Hl c. destruct (Hl c) as (evs & Ht & Hf). unfold goto.
  destruct (label c) as [[a | rc |] c']; exists evs; auto.
Qed.

Lemma emits_call (f : M Z) : emits_only E f -> emits_only E (call f).
Proof.
  intros Hl c. destruct (Hl c) as (evs & Ht & Hf). unfold call.
  destruct (f c) as [[a | rc |] c']; exists evs; auto.
Qed.

Lemma emits_tail_call env : E EvTailCall -> emits_only E (bpf_tail_call env).
Proof.
  intros He c. exists [EvTailCall]. unfold bpf_tail_call, bind, emit. simpl.
  destruct (walker_installed env); (split; [reflexivity|]); repeat constructor;
    exact He.
Qed.

End Emits.

Ltac emits_tac side :=
  repeat
    match goal with
    | |- forall _ : prod _ _, _ => intros [? ?]
    | |- forall _, _ => intro
    | |- emits_only _ (if ?b then _ else _) => destruct b
    | |- emits_only _ (match ?x with _ => _ end) => destruct x
    | |- emits_only _ (bind _ _) => apply emits_bind
    | |- emits_only _ (goto _) => apply emits_goto
    | |- emits_only _ (call _) => apply emits_call
    | |- emits_only _ (bpf_tail_call _) => apply emits_tail_call; side
    | |- emits_only _ (ret _) => apply emits_ret
    | |- emits_only _ (return_ _) => apply emits_return
    | |- emits_only _ get_state => apply emits_get_state
    | |- emits_only _ (modify_state _) => apply emits_modify
    | |- emits_only _ (emit _) => apply emits_emit; side
    end.

(** ** The entry program *)

Section Entry.

Variable K : Constants.
Variable env : Env.

Lemma unwind_python_stack_paragraphs info c :
  heap_slot env = true ->
  err_symbol_slot env = true ->
  global_state_slot env = true ->
  current_pid env <> 0 ->
  pid_to_interpreter_info env !! current_pid env = Some info ->
  unwind_python_stack K env c
  = (thread_state_direct env info >>
     thread_state_tls K env info >>
     let! offsets := GET_OFFSETS env in
     top_frame_and_jump env offsets)
      (with_state (reset_state K info (current_pid env) (current_tid env)) c).
Proof.
  intros Hh He Hg Hp Hi. unfold unwind_python_stack, GET_STATE.
  rewrite Hh, He, Hg. fold (current_pid env). fold (current_tid env).
  apply Z.eqb_neq in Hp. rewrite Hp.
  cbv zeta. fold (current_pid env). rewrite Hi. reflexivity.
Qed.

Lemma emits_tls_read E tls_base info :
  (forall a, E (EvProbeReadUser a)) -> (forall a, E (EvProbeRead a)) ->
  emits_only E (tls_read K env tls_base info).
Proof.
  intros H1 H2. unfold tls_read, bpf_probe_read_user, bpf_probe_read.
  emits_tac ltac:(first [apply H1 | apply H2]).
Qed.

Lemma emits_top_frame_and_jump E offsets :
  (forall a, E (EvProbeReadUser a)) -> (forall m, E (EvErrorMsg m)) ->
  E EvAggregateStacks -> E EvTailCall ->
  emits_only E (top_frame_and_jump env offsets).
Proof.
  intros H1 H2 H3 H4.
  unfold top_frame_and_jump, bpf_probe_read_user, ERROR_MSG,
    submit_without_unwinding, aggregate_stacks.
  emits_tac ltac:(first [apply H1 | apply H2 | exact H3 | exact H4]).
Qed.

Lemma emits_thread_state_tls info :
  emits_only (fun _ => True) (thread_state_tls K env info).
Proof.
  unfold thread_state_tls, ERROR_MSG, submit_without_unwinding,
    aggregate_stacks.
  pose proof (emits_tls_read (fun _ => True) (tls_base_of_task env) info
                (fun _ => I) (fun _ => I)) as Htls.
  cbv zeta. emits_tac ltac:(exact I). apply Htls.
Qed.

Lemma tls_read_outcome tls_base info c :
  exists r c' evs,
    tls_read K env tls_base info c = (r, c')
    /\ trace c' = trace c ++ evs
    /\ stack_traces c' = stack_traces c
    /\ interpreter_info (global_state c') = interpreter_info (global_state c)
    /\ Forall is_read evs
    /\ (r = Val 0 \/ r = Return (-1)).
Proof.
  unfold tls_read, bind, bpf_probe_read_user, bpf_probe_read, emit, ret,
    return_, modify_state.
  repeat (simpl;
          match goal with
          | |- context [?a =? ?b] => destruct (a =? b)
          | |- context [glibc_offsets env !! ?k] => destruct (glibc_offsets env !! k)
          | |- context [musl_offsets env !! ?k] => destruct (musl_offsets env !! k)
          | |- context [arch env] => destruct (arch env)
          | |- context [load_user_u64 env ?a] => destruct (load_user_u64 env a)
          | |- context [load_any_u64 env ?a] => destruct (load_any_u64 env a)
          end).
  all: simpl; eexists _, _, _; split; [reflexivity|]; simpl.
  all: split;
    [ first [ rewrite <- ?app_assoc; reflexivity | symmetry; apply app_nil_r ]
    | repeat split; auto; repeat constructor ].
Qed.

(** The rules of [reads_or_reports]. *)

Lemma ror_ret {A} (a : A) : reads_or_reports (ret a).
Proof.
  intros c. exists (Val a), c, []. rewrite app_nil_r.
  repeat split. left. exists a. split; [reflexivity | constructor].
Qed.

Lemma ror_get_state : reads_or_reports get_state.
Proof.
  intros c. exists (Val (global_state c)), c, []. rewrite app_nil_r.
  repeat split. left. eexists. split; [reflexivity | constructor].
Qed.

Lemma ror_emit e : is_read e -> reads_or_reports (emit e).
Proof.
  intros He c. eexists _, _, [e]. split; [reflexivity|].
  repeat split. left. exists tt. split; [reflexivity|].
  repeat constructor. exact He.
Qed.

Lemma ror_modify f :
  (forall s, interpreter_info (f s) = interpreter_info s) ->
  reads_or_reports (modify_state f).
Proof.
  intros Hf c. eexists _, _, []. split; [reflexivity|]. simpl.
  rewrite app_nil_r. repeat split; [apply Hf|].
  left. exists tt. split; [reflexivity | constructor].
Qed.

Lemma ror_bind {A B} (m : M A) (k : A -> M B) :
  reads_or_reports m -> (forall a, reads_or_reports (k a)) ->
  reads_or_reports (bind m k).
Proof.
  intros Hm Hk c.
  destruct (Hm c) as (r & c1 & evs & Hrun & Htr & Hst & Hi & Hcase).
  unfold bind. rewrite Hrun.
  destruct Hcase as [(a & -> & Hreads) | (-> & reads & msg & -> & Hreads & Hmsg)].
  - destruct (Hk a c1) as (r' & c2 & evs' & Hrun' & Htr' & Hst' & Hi' & Hcase').
    exists r', c2, (evs ++ evs'). split; [exact Hrun'|].
    split; [rewrite Htr', Htr, app_assoc; reflexivity|].
    split; [congruence|]. split; [congruence|].
    destruct Hcase' as [(b & -> & Hreads') | (-> & reads & msg & -> & Hreads' & Hmsg)].
    + left. exists b. split; [reflexivity|]. apply Forall_app. auto.
    + right. split; [reflexivity|]. exists (evs ++ reads), msg.
      rewrite app_assoc. split; [reflexivity|]. split; [|exact Hmsg].
      apply Forall_app. auto.
  - exists (Return 0), c1, (reads ++ [EvErrorMsg msg; EvAggregateStacks]).
    repeat split; try assumption. right. split; [reflexivity|].
    exists reads, msg. auto.
Qed.

Lemma ror_report {A} msg :
  msg ∈ thread_state_errors ->
  reads_or_reports
    (ERROR_MSG msg >> @goto A submit_without_unwinding).
Proof.
  intros Hmsg c. eexists _, _, [EvErrorMsg msg; EvAggregateStacks].
  split; [reflexivity|]. simpl. rewrite <- app_assoc.
  repeat split. right. split; [reflexivity|]. exists [], msg.
  repeat split; [constructor | exact Hmsg].
Qed.

Lemma ror_probe_user a : reads_or_reports (bpf_probe_read_user env a).
Proof.
  apply ror_bind; [apply ror_emit; exact I | intros; apply ror_ret].
Qed.

Lemma ror_call_tls_read tls_base info :
  reads_or_reports (call (tls_read K env tls_base info)).
Proof.
  intros c.
  destruct (tls_read_outcome tls_base info c)
    as (r & c' & evs & Hrun & Htr & Hst & Hi & Hreads & Hr).
  unfold call. rewrite Hrun.
  destruct Hr as [-> | ->]; eexists _, c', evs; (split; [reflexivity|]);
    repeat split; try assumption; left; eexists; split;
    try reflexivity; assumption.
Qed.

Lemma ror_thread_state_direct info :
  reads_or_reports (thread_state_direct env info).
Proof.
  unfold thread_state_direct.
  destruct (negb (thread_state_addr info =? 0)); [|apply ror_ret].
  apply ror_bind; [apply ror_probe_user|]. intros [err v].
  apply ror_bind; [apply ror_modify; reflexivity|]. intros _.
  destruct (negb (err =? 0)); [|apply ror_ret].
  apply ror_report. apply list_elem_of_In. simpl. auto.
Qed.

Lemma ror_thread_state_tls info :
  reads_or_reports (thread_state_tls K env info).
Proof.
  unfold thread_state_tls.
  destruct (use_tls info); [|apply ror_ret].
  apply ror_bind; [apply ror_emit; exact I|]. intros _. cbv zeta.
  apply ror_bind; [apply ror_call_tls_read|]. intros rc.
  apply ror_bind.
  { destruct (negb (rc =? 0)); [|apply ror_ret].
    apply ror_report. apply list_elem_of_In. simpl. auto. }
  intros _. apply ror_bind; [apply ror_get_state|]. intros s.
  destruct (thread_state s =? 0); [|apply ror_ret].
  apply ror_report. apply list_elem_of_In. simpl. auto.
Qed.

Lemma ror_thread_state_paragraphs info :
  reads_or_reports (thread_state_direct env info >> thread_state_tls K env info).
Proof.
  apply ror_bind; [apply ror_thread_state_direct|].
  intros _. apply ror_thread_state_tls.
Qed.

Lemma thread_state_direct_run info c :
  thread_state_direct env info c
  = if thread_state_addr info =? 0 then (Val tt, c) else
    match user_u64 env (thread_state_addr info) with
    | Some v =>
        (Val tt,
         with_state (set_thread_state (wrap64 v) (global_state c))
           (with_events [EvProbeReadUser (thread_state_addr info)] c))
    | None =>
        (Return 0,
         with_state (set_thread_state 0 (global_state c))
           (with_events
              [EvProbeReadUser (thread_state_addr info);
               EvErrorMsg "failed read of thread_state_addr";
               EvAggregateStacks] c))
    end.
Proof.
  unfold thread_state_direct.
  destruct (thread_state_addr info =? 0); [reflexivity|]. simpl negb. cbv iota.
  unfold bpf_probe_read_user, load_user_u64, bind, emit, ret, modify_state,
    ERROR_MSG, goto, submit_without_unwinding, aggregate_stacks. simpl.
  destruct (user_u64 env (thread_state_addr info)); simpl; [reflexivity|].
  unfold with_state, with_events. simpl. rewrite <- !app_assoc. reflexivity.
Qed.

Lemma emits_after_thread_state E :
  (forall a, E (EvProbeReadUser a)) -> (forall m, E (EvErrorMsg m)) ->
  E EvAggregateStacks -> E EvTailCall ->
  emits_only E (let! offsets := GET_OFFSETS env in top_frame_and_jump env offsets).
Proof.
  intros H1 H2 H3 H4. unfold GET_OFFSETS.
  pose proof (emits_top_frame_and_jump E) as Htop.
  emits_tac idtac; auto.
Qed.

End Entry.

Section EntrySources.

Variable K : Constants.
Variable env : Env.

Lemma emits_head {A} (E : Event -> Prop) e (k : unit -> M A) c :
  emits_only E (k tt) ->
  exists evs, trace (snd (bind (emit e) k c)) = trace c ++ e :: evs
              /\ Forall E evs.
Proof.
  intros Hk. destruct (Hk (with_events [e] c)) as (evs & Ht & Hf).
  exists evs. split; [|exact Hf].
  change (bind (emit e) k c) with (k tt (with_events [e] c)).
  rewrite Ht. simpl. rewrite <- app_assoc. reflexivity.
Qed.

(** The events of P1 behind the direct read. *)
Lemma events_after_direct info c :
  exists evs,
    trace (snd ((thread_state_tls K env info >>
                 let! offsets := GET_OFFSETS env in
                 top_frame_and_jump env offsets) c))
    = trace c ++ evs
    /\ (use_tls info = true -> exists evs', evs = EvReadTlsBase :: evs')
    /\ (use_tls info = false -> EvReadTlsBase ∉ evs).
Proof.
  destruct (use_tls info) eqn:Huse.
  - unfold thread_state_tls. rewrite Huse. rewrite bind_assoc.
    destruct (emits_head (fun _ => True) EvReadTlsBase
                (fun _ =>
                   (let tls_base := tls_base_of_task env in
                    let! rc := call (tls_read K env tls_base info) in
                    (if negb (rc =? 0)
                     then ERROR_MSG "failed read of TLS" >>
                          goto submit_without_unwinding
                     else ret tt) >>
                    let! s := get_state in
                    if thread_state s =? 0
                    then ERROR_MSG "thread_state was NULL" >>
                         goto submit_without_unwinding
                    else ret tt) >>
                   let! offsets := GET_OFFSETS env in
                   top_frame_and_jump env offsets) c)
      as (evs & Ht & _).
    { apply emits_bind.
      - pose proof (emits_tls_read K env (fun _ => True) (tls_base_of_task env)
                      info (fun _ => I) (fun _ => I)) as Htls.
        unfold ERROR_MSG, submit_without_unwinding, aggregate_stacks.
        cbv zeta. emits_tac ltac:(exact I). apply Htls.
      - intros _. apply emits_after_thread_state; intros; exact I. }
    exists (EvReadTlsBase :: evs). split; [exact Ht|].
    split; [eauto | discriminate].
  - unfold thread_state_tls. rewrite Huse.
    destruct (emits_after_thread_state env (fun e => e <> EvReadTlsBase)) with (c := c)
      as (evs & Ht & Hf); try (intros; discriminate).
    exists evs. split; [exact Ht|]. split; [discriminate|].
    intros _ Hin. rewrite Forall_forall in Hf. exact (Hf _ Hin eq_refl).
Qed.

End EntrySources.

(** C2 (amended). P1 reads the thread state from up to two sources, one
    after the other.  When [thread_state_addr] is non-zero it is
    dereferenced first.  The TLS path is not an alternative to that read but
    a second step guarded by [use_tls] alone: whenever [use_tls] is set and
    the direct read did not fail, TLS resolution starts next (the TLS base
    is read), also when [thread_state_addr] is non-zero.  TLS resolution is
    skipped exactly when [use_tls] is not set or the direct read failed. *)
Theorem thread_state_sources (K : Constants) (env : Env)
    (info : InterpreterInfo) (c : Cpu) :
  heap_slot env = true ->
  err_symbol_slot env = true ->
  global_state_slot env = true ->
  current_pid env <> 0 ->
  pid_to_interpreter_info env !! current_pid env = Some info ->
  let addr := thread_state_addr info in
  let direct := if addr =? 0 then [] else [EvProbeReadUser addr] in
  exists rest,
    trace (snd (unwind_python_stack K env c)) = trace c ++ direct ++ rest
    /\ (use_tls info = true ->
        addr = 0 \/ is_Some (user_u64 env addr) ->
        exists rest', rest = EvReadTlsBase :: rest')
    /\ (use_tls info = false -> EvReadTlsBase ∉ rest)
    /\ (addr <> 0 -> user_u64 env addr = None -> EvReadTlsBase ∉ rest).
Proof.
  intros Hh He Hg Hp Hinfo addr direct.
  rewrite (unwind_python_stack_paragraphs K env info c Hh He Hg Hp Hinfo).
  set (c1 := with_state _ c).
  unfold bind at 1. rewrite thread_state_direct_run. fold addr.
  unfold direct. destruct (Z.eqb_spec addr 0) as [Hz | Hnz].
  - destruct (events_after_direct K env info c1) as (evs & Ht & Htls & Hno).
    exists evs. split; [exact Ht|]. split; [auto|]. split; [exact Hno|].
    intros Hc. contradiction.
  - destruct (user_u64 env addr) as [v|] eqn:Hread.
    + set (c2 := with_state _ (with_events _ c1)).
      destruct (events_after_direct K env info c2) as (evs & Ht & Htls & Hno).
      exists evs. split; [rewrite Ht; simpl; rewrite <- app_assoc; reflexivity|].
      split; [auto|]. split; [exact Hno|]. intros _ Hc. discriminate Hc.
    + exists [EvErrorMsg "failed read of thread_state_addr"; EvAggregateStacks].
      split; [simpl; reflexivity|]. split.
      * intros _ [Hc | [v Hv]]; [contradiction | discriminate Hv].
      * split; intros; intros Hin; apply list_elem_of_In in Hin; simpl in Hin;
          destruct Hin as [Hin | [Hin | []]]; discriminate Hin.
Qed.

(** C4 (amended). When P1 has its two scratch slots (otherwise it has
    returned 1 before any lookup), the process has interpreter information
    and [version_specific_offsets] has no entry for its [py_version_index],
    P1 returns 0: it never tail-calls into the walker and publishes no
    stack.  The lookup itself is silent; the only things P1 can have done
    are probe reads, or, when the thread state could not be resolved before
    the lookup, one of the thread-state error messages followed by
    [aggregate_stacks].  No message mentions the offsets and no error sample
    is emitted. *)
Theorem missing_offsets_silent_return (K : Constants) (env : Env)
    (info : InterpreterInfo) (c : Cpu) :
  heap_slot env = true ->
  err_symbol_slot env = true ->
  pid_to_interpreter_info env !! current_pid env = Some info ->
  version_specific_offsets env !! py_version_index info = None ->
  exists c' evs,
    unwind_python_stack K env c = (Return 0, c')
    /\ trace c' = trace c ++ evs
    /\ stack_traces c' = stack_traces c
    /\ (Forall is_read evs
        \/ exists reads msg,
             evs = reads ++ [EvErrorMsg msg; EvAggregateStacks]
             /\ Forall is_read reads
             /\ msg ∈ thread_state_errors).
Proof.
  intros Hh He Hinfo Hoff.
  assert (Hquiet : unwind_python_stack K env c = (Return 0, c) ->
             exists c' evs,
               unwind_python_stack K env c = (Return 0, c')
               /\ trace c' = trace c ++ evs
               /\ stack_traces c' = stack_traces c
               /\ (Forall is_read evs
                   \/ exists reads msg,
                        evs = reads ++ [EvErrorMsg msg; EvAggregateStacks]
                        /\ Forall is_read reads
                        /\ msg ∈ thread_state_errors)).
  { intros Hrun. exists c, []. rewrite app_nil_r.
    repeat split; [exact Hrun | left; constructor]. }
  destruct (Z.eqb_spec (current_pid env) 0) as [Hp | Hp].
  { apply Hquiet. unfold unwind_python_stack. rewrite Hh, He.
    fold (current_pid env). rewrite Hp. reflexivity. }
  destruct (global_state_slot env) eqn:Hg.
  2:{ apply Hquiet. unfold unwind_python_stack, GET_STATE.
      rewrite Hh, He, Hg. fold (current_pid env).
      apply Z.eqb_neq in Hp. rewrite Hp. cbv zeta.
      fold (current_pid env). rewrite Hinfo. reflexivity. }
  rewrite (unwind_python_stack_paragraphs K env info c Hh He Hg Hp Hinfo).
  set (c1 := with_state _ c).
  destruct (ror_thread_state_paragraphs K env info c1)
    as (r & c2 & evs & Hrun & Htr & Hst & Hi & Hcase).
  rewrite <- bind_assoc.
  unfold bind at 1. rewrite Hrun.
  destruct Hcase as [(a & -> & Hreads) | (-> & reads & msg & -> & Hreads & Hmsg)].
  - change (interpreter_info (global_state c1)) with info in Hi.
    unfold GET_OFFSETS, bind, get_state. rewrite Hi, Hoff. unfold return_.
    exists c2, evs. repeat split; auto.
  - exists c2, (reads ++ [EvErrorMsg msg; EvAggregateStacks]).
    repeat split; auto. right. exists reads, msg. auto.
Qed.

(** ** The properties on the scenarios *)

Lemma plain_frame_py39 env p code :
  p <> 0 ->
  user_u64 env (padd p 32) = Some code ->
  wrap64 code <> 0 ->
  plain_frame seed_constants env offsets_py39 p.
Proof.
  intros Hp Hcode Hnz. split; [exact Hp|]. split.
  - intros [Ho _]. apply Ho. reflexivity.
  - exists code. split; assumption.
Qed.

(** C1 (evaluation at the failing input). On the direct path a null thread
    state is not checked: with [thread_state_addr] readable and holding a
    null pointer, P1 goes on to read the thread id at [0 + thread_id] and
    reports the failure of that read; the message "thread_state was NULL"
    is not recorded.  On the TLS path the same null pointer is reported as
    "thread_state was NULL". *)
Theorem null_thread_state_direct_path_unchecked :
  unwind_python_stack seed_constants env_null_direct (boot_cpu seed_constants)
  = (Return 0,
     with_state
       (reset_state seed_constants info_direct 42 43)
       (with_events
          [EvProbeReadUser 4096; EvProbeReadUser 176;
           EvErrorMsg "failed read of thread_state->thread_id";
           EvAggregateStacks] (boot_cpu seed_constants)))
  /\ unwind_python_stack seed_constants env_null_tls (boot_cpu seed_constants)
     = (Return 0,
        with_state
          (reset_state seed_constants (info_tls 0) 42 43)
          (with_events
             [EvReadTlsBase; EvProbeRead 8323896;
              EvErrorMsg "thread_state was NULL";
              EvAggregateStacks] (boot_cpu seed_constants))).
Proof. split; vm_compute; reflexivity. Qed.

(** C2 (counterexample). With [thread_state_addr] non-zero and [use_tls]
    set, P1 reads the TLS base and the key slot after the direct read. *)
Lemma tls_runs_after_direct_read :
  ~ tls_only_without_direct_address seed_constants env_both_sources
      (boot_cpu seed_constants).
Proof.
  intros H. apply (H info_both); [reflexivity | discriminate | reflexivity |].
  vm_compute. apply list_elem_of_In. simpl. auto.
Qed.

(** In that scenario the pointer from TLS (24576) replaces the one read
    through [thread_state_addr] (20480). *)
Example both_sources_tls_pointer_wins :
  thread_state
    (global_state
       (snd (unwind_python_stack seed_constants env_both_sources
               (boot_cpu seed_constants)))) = 24576.
Proof. vm_compute. reflexivity. Qed.

Lemma thread_state_sources_witness :
  exists rest,
    trace (snd (unwind_python_stack seed_constants env_both_sources
                  (boot_cpu seed_constants)))
    = [] ++ [EvProbeReadUser 4096] ++ rest
    /\ exists rest', rest = EvReadTlsBase :: rest'.
Proof.
  destruct (thread_state_sources seed_constants env_both_sources info_both
              (boot_cpu seed_constants))
    as (rest & Htr & Htls & _ & _);
    [reflexivity | reflexivity | reflexivity | discriminate | reflexivity |].
  exists rest. split; [exact Htr|].
  apply Htls; [reflexivity|]. right. eexists. reflexivity.
Defined.

(** C3 (counterexample). The walker is handed a frame whose successor has
    an unreadable [f_code] (the read of address 65824 fails); the sample is
    published as truncated. *)
Lemma fcode_failure_is_not_complete :
  ~ read_failure_publishes_complete seed_constants env_unreadable_code 3
      (handoff seed_constants env_unreadable_code).
Proof.
  intros H.
  destruct (walker_chain seed_constants env_unreadable_code 3
              (handoff seed_constants env_unreadable_code))
    as [[rc c']|] eqn:E; [|vm_compute in E; discriminate E].
  specialize (H rc c' 65824 E).
  vm_compute in E. injection E as <- <-.
  assert (Hs : STACK_TRUNCATED = STACK_COMPLETE); [|discriminate Hs].
  apply H; [|reflexivity].
  vm_compute. apply list_elem_of_In. simpl. auto 20.
Qed.

Lemma walker_read_failures_witness :
  (exists c',
      walker_chain seed_constants env_unreadable_code 3
        (cpu_at seed_constants 65792) = Some (0, c')
      /\ stack (sample (global_state c'))
         = stack (sample (global_state (cpu_at seed_constants 65792)))
      /\ stack_status (sample (global_state c')) = STACK_TRUNCATED)
  /\ (exists c',
        walker_chain seed_constants env_unreadable_code 1
          (cpu_at seed_constants 66048) = Some (0, c')
        /\ stack_len (global_state c') = 1
        /\ stack_status (sample (global_state c')) = STACK_COMPLETE).
Proof.
  split.
  - destruct (proj1 (walker_read_failures seed_constants env_unreadable_code
                       offsets_py39 (cpu_at seed_constants 65792)
                       eq_refl eq_refl) 65792)
      as (_ & c' & evs & Hrun & Hst & _ & Hstatus & _);
      [ reflexivity | simpl; lia | discriminate | reflexivity | reflexivity | ].
    exists c'. split; [exact Hrun|]. split; assumption.
  - destruct (proj2 (walker_read_failures seed_constants env_unreadable_code
                       offsets_py39 (cpu_at seed_constants 66048)
                       eq_refl eq_refl) 0%nat)
      as (c' & code & Hcode & Hrun & Hst & _ & Hstatus);
      [ reflexivity
      | apply (plain_frame_py39 _ _ 131328);
          [discriminate | reflexivity | discriminate]
      | reflexivity | ].
    exists c'. split; [exact Hrun|]. split; [|exact Hstatus].
    unfold stack_len. rewrite Hst.
    injection Hcode as <-. reflexivity.
Defined.

(** C4 (counterexample). The thread state resolves, the version has no
    offsets entry: P1 returns 0 having recorded no message at all. *)
Lemma missing_offsets_not_reported :
  ~ missing_offsets_reported seed_constants env_no_offsets
      (boot_cpu seed_constants).
Proof.
  intros H. destruct (H info_direct) as [msg Hin]; [reflexivity | reflexivity |].
  vm_compute in Hin. apply list_elem_of_In in Hin. simpl in Hin.
  destruct Hin as [Hin | []]. discriminate Hin.
Qed.

Lemma missing_offsets_silent_return_witness :
  exists c' evs,
    unwind_python_stack seed_constants env_no_offsets (boot_cpu seed_constants)
    = (Return 0, c')
    /\ trace c' = trace (boot_cpu seed_constants) ++ evs
    /\ stack_traces c' = stack_traces (boot_cpu seed_constants)
    /\ Forall is_read evs.
Proof.
  destruct (missing_offsets_silent_return seed_constants env_no_offsets
              info_direct (boot_cpu seed_constants))
    as (c' & evs & Hrun & Htr & Hst & Hcase);
    [reflexivity | reflexivity | reflexivity | reflexivity |].
  exists c', evs. split; [exact Hrun|]. split; [exact Htr|].
  split; [exact Hst|].
  vm_compute in Hrun. injection Hrun as <-.
  vm_compute in Htr. subst evs. repeat constructor.
Defined.

Lemma tls_read_address_table_witness :
  tls_read seed_constants env_both_sources 8323072 (info_tls 0)
    (boot_cpu seed_constants)
  = final_tls_read env_both_sources 8323896 (boot_cpu seed_constants)
  /\ tls_read seed_constants env_both_sources 8323072 (info_tls 1)
       (boot_cpu seed_constants)
     = final_tls_read env_both_sources 36880
         (with_events [EvProbeReadUser 8323200] (boot_cpu seed_constants))
  /\ tls_read seed_constants env_both_sources 8323072 (info_tls 7)
       (boot_cpu seed_constants)
     = (Return (-1), boot_cpu seed_constants).
Proof.
  split; [|split].
  - exact (proj1 (tls_read_address_table seed_constants env_both_sources
                    8323072 (info_tls 0) (boot_cpu seed_constants))
             glibc_x86_64 eq_refl eq_refl).
  - refine (proj1 (proj2 (tls_read_address_table seed_constants
                            env_both_sources 8323072 (info_tls 1)
                            (boot_cpu seed_constants)))
              musl_x86_64 _ eq_refl eq_refl).
    discriminate.
  - apply (proj2 (proj2 (tls_read_address_table seed_constants
                           env_both_sources 8323072 (info_tls 7)
                           (boot_cpu seed_constants)))); discriminate.
Defined.

Lemma stack_len_bounded_witness :
  stack_bounded seed_constants
    (global_state
       (snd (run_prog (walk_python_stack seed_constants (env_chain 13))
               (handoff seed_constants (env_chain 13))))).
Proof.
  apply (proj1 (stack_len_bounded seed_constants ltac:(simpl; lia))).
  apply reach_walker. apply reach_entry. apply reach_boot. reflexivity.
Defined.

Ltac chain_py39 :=
  repeat
    match goal with
    | |- frame_chain _ _ _ _ 1 =>
        eapply chain_end;
        [ eapply plain_frame_py39;
          [ vm_compute; discriminate | vm_compute; reflexivity
          | vm_compute; discriminate ]
        | vm_compute; reflexivity
        | reflexivity ]
    | |- frame_chain _ _ _ _ (S (S _)) =>
        eapply chain_link;
        [ eapply plain_frame_py39;
          [ vm_compute; discriminate | vm_compute; reflexivity
          | vm_compute; discriminate ]
        | vm_compute; reflexivity
        | ]
    end.

Lemma walker_depth_boundary_witness :
  (exists c' evs,
      walker_chain seed_constants (env_chain 12) 3
        (handoff seed_constants (env_chain 12)) = Some (0, c')
      /\ trace c'
         = trace (handoff seed_constants (env_chain 12)) ++ evs ++
           [EvStackTracesUpdate
              (wrap64 (hash_stack (env_chain 12)
                         (stack (sample (global_state c')))));
            EvAggregateStacks]
      /\ stack_status (sample (global_state c')) = STACK_COMPLETE
      /\ stack_len (global_state c') = 12)
  /\ (exists c' evs,
        walker_chain seed_constants (env_chain 13) 3
          (handoff seed_constants (env_chain 13)) = Some (0, c')
        /\ trace c'
           = trace (handoff seed_constants (env_chain 13)) ++ evs ++
             [EvStackTracesUpdate
                (wrap64 (hash_stack (env_chain 13)
                           (stack (sample (global_state c')))));
              EvAggregateStacks]
        /\ stack_status (sample (global_state c')) = STACK_TRUNCATED
        /\ stack_len (global_state c') = 12).
Proof.
  split.
  - apply (proj1 (walker_depth_boundary seed_constants (env_chain 12)
                    offsets_py39 (handoff seed_constants (env_chain 12))
                    eq_refl eq_refl eq_refl eq_refl eq_refl eq_refl eq_refl
                    eq_refl eq_refl)).
    change (frame_chain seed_constants (env_chain 12) offsets_py39 65536 12).
    chain_py39.
  - apply (proj2 (walker_depth_boundary seed_constants (env_chain 13)
                    offsets_py39 (handoff seed_constants (env_chain 13))
                    eq_refl eq_refl eq_refl eq_refl eq_refl eq_refl eq_refl
                    eq_refl eq_refl)).
    change (frame_chain seed_constants (env_chain 13) offsets_py39 65536 13).
    chain_py39.
Defined.

Lemma cstack_frame_skipped_once_witness :
  frame_ptr (global_state
               (snd (loop_body seed_constants env_cstack offsets_py312
                       (cpu_at seed_constants 65536)))) = 66048
  /\ loop_body seed_constants env_cstack offsets_py312
       (cpu_at seed_constants 69632)
     = (Val IterBreak,
        with_events [EvProbeReadUser 69702; EvProbeReadUser 69640]
          (cpu_at seed_constants 69632)).
Proof.
  split.
  - rewrite (proj1 (cstack_frame_skipped_once seed_constants env_cstack
                      offsets_py312 (cpu_at seed_constants 65536)
                      ltac:(discriminate) ltac:(discriminate) eq_refl)
               131072 ltac:(discriminate) eq_refl ltac:(discriminate)).
    reflexivity.
  - exact (proj1 (proj2 (cstack_frame_skipped_once seed_constants env_cstack
                           offsets_py312 (cpu_at seed_constants 69632)
                           ltac:(discriminate) ltac:(discriminate) eq_refl)
                    eq_refl)).
Defined.

Lemma second_cstack_frame_appended_witness :
  exists e c',
    loop_body seed_constants env_cstack offsets_py312
      (cpu_at seed_constants 65536) = (Val e, c')
    /\ e <> IterBreak
    /\ stack (sample (global_state c'))
       = {| len := 1;
            addresses :=
              <[0%nat := frame_encoding seed_constants env_cstack
                           offsets_py312 65792 131072]>
                (replicate 12 0) |}
    /\ frame_ptr (global_state c') = 66048.
Proof.
  destruct (second_cstack_frame_appended seed_constants env_cstack
              offsets_py312 (cpu_at seed_constants 65536) 131072)
    as (e & c' & Hrun & He & Hst & Hfp & _);
    [ discriminate | split; [discriminate | reflexivity] | discriminate
    | split; [discriminate | reflexivity] | reflexivity | discriminate
    | simpl; unfold stack_len; simpl; lia | ].
  exists e, c'. repeat split; assumption.
Defined.

Lemma read_symbol_first_arg_compare_witness :
  exists sym lineno evs,
    read_symbol seed_constants env_first_arg offsets_py39 65536 131072
      (reset_symbol seed_constants) (boot_cpu seed_constants)
    = (Val (sym, lineno), with_events evs (boot_cpu seed_constants))
    /\ class_name sym
       = class_name_via_type seed_constants env_first_arg offsets_py39 65536.
Proof.
  destruct (read_symbol_first_arg_compare seed_constants env_first_arg
              offsets_py39 65536 131072 (boot_cpu seed_constants))
    as (sym & lineno & evs & Hrun & Hself & _ & _); [simpl; lia|].
  exists sym, lineno, evs. split; [exact Hrun|]. apply Hself. reflexivity.
Defined.

(** The three names of the scenario: "selfish" reads the class name through
    the type ("Foo"), "cls" reads it from the object itself ("Meta"),
    "clsx" reads none. *)
Example first_arg_names_scenario :
  let class_of code :=
    until_nul (class_name (fst (symbolize seed_constants env_first_arg
                                  offsets_py39 65536 code))) in
  class_of 131072 = ["F"; "o"; "o"]%char
  /\ class_of 135168 = ["M"; "e"; "t"; "a"]%char
  /\ class_of 139264 = [].
Proof. vm_compute. repeat split. Qed.

(** * Further properties of the unwinder *)

(** ** The frame encoding *)

Lemma shifted_lineno_range lineno :
  0 <= lineno < 2 ^ 32 -> wrap64 (Z.shiftl lineno 32) = lineno * 2 ^ 32.
Proof.
  intros H. rewrite Z.shiftl_mul_pow2 by lia. apply wrap64_small. lia.
Qed.

Lemma encode_frame_parts (lineno symbol_id : Z) :
  0 <= lineno < 2 ^ 32 ->
  0 <= symbol_id < 2 ^ 32 ->
  encode_frame lineno symbol_id = lineno * 2 ^ 32 + symbol_id
  /\ Z.shiftr (encode_frame lineno symbol_id) 32 = lineno
  /\ Z.land (encode_frame lineno symbol_id) (Z.ones 32) = symbol_id.
Proof.
  intros Hl Hs. unfold encode_frame. rewrite shifted_lineno_range by exact Hl.
  assert (Hlow : Z.land (lineno * 2 ^ 32) (Z.ones 32) = 0).
  { rewrite Z.land_ones by lia. apply Z.mod_mul. lia. }
  assert (Hsym : Z.land symbol_id (Z.ones 32) = symbol_id).
  { rewrite Z.land_ones by lia. apply Z.mod_small. lia. }
  assert (Hdisj : Z.land (lineno * 2 ^ 32) symbol_id = 0).
  { rewrite <- Hsym, (Z.land_comm symbol_id), Z.land_assoc, Hlow.
    apply Z.land_0_l. }
  split; [|split].
  - rewrite <- Z.lxor_lor by exact Hdisj.
    symmetry. apply Z.add_nocarry_lxor. exact Hdisj.
  - rewrite Z.shiftr_lor, !Z.shiftr_div_pow2 by lia.
    rewrite Z.div_mul by lia. rewrite (Z.div_small symbol_id) by lia.
    apply Z.lor_0_r.
  - rewrite Z.land_lor_distr_l, Hlow, Hsym. apply Z.lor_0_l.
Qed.


(** X1. The stack entry [(lineno << 32) | symbol_id] keeps both parts apart
    when the symbol id fits in 32 bits (the line number always does, being
    read as a [u32]): the entry is [lineno * 2^32 + symbol_id], its upper
    half is the line number and its lower half the symbol id. *)
Theorem encode_frame_round_trip (lineno symbol_id : Z) :
  0 <= lineno < 2 ^ 32 ->
  0 <= symbol_id < 2 ^ 32 ->
  encode_frame lineno symbol_id = lineno * 2 ^ 32 + symbol_id
  /\ Z.shiftr (encode_frame lineno symbol_id) 32 = lineno
  /\ Z.land (encode_frame lineno symbol_id) (Z.ones 32) = symbol_id.
Proof. apply encode_frame_parts. Qed.

Lemma encode_frame_round_trip_witness :
  encode_frame 7 9 = 7 * 2 ^ 32 + 9
  /\ Z.shiftr (encode_frame 7 9) 32 = 7
  /\ Z.land (encode_frame 7 9) (Z.ones 32) = 9.
Proof. apply encode_frame_round_trip; lia. Defined.

(** ** The walker on arbitrary process memory *)

Lemma stack_extends_refl s : stack_extends s s.
Proof. unfold stack_extends. auto with zarith. Qed.

Lemma stack_extends_trans s1 s2 s3 :
  stack_extends s1 s2 -> stack_extends s2 s3 -> stack_extends s1 s3.
Proof.
  unfold stack_extends. intros (Hl1 & Ha1 & Ht1) (Hl2 & Ha2 & Ht2).
  split; [lia|]. split; [congruence|].
  rewrite <- Ht1.
  assert (Hmin : Z.to_nat (stack_len s1)
                 = Nat.min (Z.to_nat (stack_len s1)) (Z.to_nat (stack_len s2)))
    by lia.
  rewrite Hmin, <- !take_take, Ht2. reflexivity.
Qed.

Lemma walk_progress_refl s : walk_progress s s.
Proof.
  unfold walk_progress, same_origin.
  split; [apply stack_extends_refl|]. repeat split; reflexivity.
Qed.

Lemma walk_progress_trans s1 s2 s3 :
  walk_progress s1 s2 -> walk_progress s2 s3 -> walk_progress s1 s3.
Proof.
  unfold walk_progress, same_origin.
  intros (He1 & (? & ? & ? & ? & ?) & ? & ?) (He2 & (? & ? & ? & ? & ?) & ? & ?).
  split; [eapply stack_extends_trans; eassumption|].
  repeat split; congruence.
Qed.

Section WalkerFacts.

Variable K : Constants.
Variable env : Env.
Variable off : PythonVersionOffsets.

Lemma emits_owner_block E p :
  (forall a, E (EvProbeReadUser a)) ->
  emits_only E (owner_block K env off p).
Proof.
  intros H. unfold owner_block, bpf_probe_read_user, bpf_probe_read_user_u32.
  emits_tac ltac:(apply H).
Qed.

Lemma emits_read_symbol E frame_addr code_addr sym :
  (forall a, E (EvProbeReadUser a)) ->
  (forall a, E (EvProbeReadUserStr a)) ->
  emits_only E (read_symbol K env off frame_addr code_addr sym).
Proof.
  intros H1 H2.
  unfold read_symbol, bpf_probe_read_user, bpf_probe_read_user_u32,
    bpf_probe_read_user_str.
  cbv zeta. emits_tac ltac:(first [apply H1 | apply H2]).
Qed.

Lemma owner_events_reads p : Forall is_read (owner_events K env off p).
Proof.
  unfold owner_events.
  destruct (emits_owner_block is_read p (fun _ => I) (boot_cpu K))
    as (evs & -> & Hf).
  exact Hf.
Qed.

Lemma symbolize_events_reads frame_addr code_addr :
  Forall is_read (symbolize_events K env off frame_addr code_addr).
Proof.
  unfold symbolize_events.
  destruct (emits_read_symbol is_read frame_addr code_addr (reset_symbol K)
              (fun _ => I) (fun _ => I) (boot_cpu K))
    as (evs & -> & Hf).
  exact Hf.
Qed.

(** One pass through the loop body either breaks with the state as it was,
    or appends the entry of one frame and moves the frame pointer to that
    frame's link; its events are reads. *)
Lemma loop_body_effect_cases s :
  exists e s' evs,
    loop_body_effect K env off s = (e, s', evs)
    /\ Forall is_read evs
    /\ ((e = IterBreak /\ s' = s)
        \/ exists cur code,
             s' = set_frame_ptr (back_of env off cur)
                    (append_symbolized K env off cur code s)
             /\ e = (if back_of env off cur =? 0
                     then IterGotoComplete else IterContinue)).
Proof.
  unfold loop_body_effect.
  destruct (frame_ptr s =? 0).
  { eexists _, _, _. split; [reflexivity|]. split; [constructor | left; auto]. }
  pose proof (owner_events_reads (frame_ptr s)) as Ho.
  destruct (after_owner K env off (frame_ptr s)) as [cur|].
  2:{ eexists _, _, _. split; [reflexivity|]. split; [exact Ho | left; auto]. }
  destruct (load_user_u64 env (padd cur (f_code (py_frame_object off))))
    as [err code].
  destruct (negb (err =? 0) || (code =? 0)).
  { eexists _, _, _. split; [reflexivity|]. split; [|left; auto].
    apply Forall_app. split; [exact Ho | repeat constructor]. }
  eexists _, _, _. split; [reflexivity|]. split.
  - apply Forall_app. split; [exact Ho|].
    apply Forall_cons. split; [exact I|].
    apply Forall_app. split; [apply symbolize_events_reads | repeat constructor].
  - right. exists cur, code. split; reflexivity.
Qed.

Lemma append_symbolized_progress frame_addr code s :
  stack_bounded K s ->
  MAX_STACK_DEPTH K < 2 ^ 64 ->
  let s' := append_symbolized K env off frame_addr code s in
  walk_progress s s' /\ stack_len s' <= stack_len s + 1
  /\ stack_bounded K s'.
Proof.
  intros Hb Hmax s'. subst s'. unfold append_symbolized.
  destruct (symbolize K env off frame_addr code) as [sym lineno].
  split; [|split].
  - unfold append_frame. destruct Hb as [Hl Ha].
    destruct ((0 <=? len (stack (sample s)))
              && (len (stack (sample s)) <? MAX_STACK_DEPTH K)) eqn:Hg;
      [|apply walk_progress_refl].
    apply andb_true_iff in Hg. destruct Hg as [_ Hlt]. apply Z.ltb_lt in Hlt.
    unfold walk_progress, same_origin, stack_extends, stack_len. simpl.
    rewrite (wrap64_small (len (stack (sample s)) + 1)) by lia.
    rewrite length_insert, take_insert_ge by lia.
    repeat split; try reflexivity. lia.
  - unfold append_frame, stack_len.
    destruct ((0 <=? len (stack (sample s)))
              && (len (stack (sample s)) <? MAX_STACK_DEPTH K)); simpl; [|lia].
    pose proof (wrap64_range (len (stack (sample s)) + 1)).
    assert (wrap64 (len (stack (sample s)) + 1) <= len (stack (sample s)) + 1).
    { unfold wrap64. apply Z.mod_le; destruct Hb; lia. }
    lia.
  - apply stack_bounded_append. exact Hb.
Qed.

Lemma loop_body_effect_progress s :
  stack_bounded K s ->
  MAX_STACK_DEPTH K < 2 ^ 64 ->
  exists e s' evs,
    loop_body_effect K env off s = (e, s', evs)
    /\ Forall is_read evs
    /\ walk_progress s s'
    /\ stack_len s' <= stack_len s + 1
    /\ stack_bounded K s'
    /\ (e = IterGotoComplete -> frame_ptr s' = 0).
Proof.
  intros Hb Hmax.
  destruct (loop_body_effect_cases s)
    as (e & s' & evs & Hrun & Hreads & [[-> ->] | (cur & code & -> & ->)]);
    eexists _, _, evs; (split; [exact Hrun|]); (split; [exact Hreads|]).
  - split; [apply walk_progress_refl|]. split; [lia|].
    split; [exact Hb | discriminate].
  - destruct (append_symbolized_progress cur code s Hb Hmax) as (Hp & Hl & Hb').
    split; [exact Hp|]. split; [exact Hl|]. split; [exact Hb'|].
    simpl. destruct (Z.eqb_spec (back_of env off cur) 0); [auto | discriminate].
Qed.

Lemma walk_loop_effect_progress n : forall s,
  stack_bounded K s ->
  MAX_STACK_DEPTH K < 2 ^ 64 ->
  exists e s' evs,
    walk_loop_effect K env off n s = (e, s', evs)
    /\ Forall is_read evs
    /\ walk_progress s s'
    /\ stack_len s' <= stack_len s + Z.of_nat n
    /\ stack_bounded K s'
    /\ (e = LoopGotoComplete -> frame_ptr s' = 0).
Proof.
  induction n as [|n IH]; intros s Hb Hmax.
  - exists LoopLeft, s, []. simpl. split; [reflexivity|].
    split; [constructor|]. split; [apply walk_progress_refl|].
    split; [lia|]. split; [exact Hb | discriminate].
  - simpl walk_loop_effect.
    destruct (loop_body_effect_progress s Hb Hmax)
      as (e & s1 & evs & -> & Hreads & Hp & Hl & Hb1 & Hz).
    destruct e.
    + destruct (IH s1 Hb1 Hmax)
        as (e' & s2 & evs' & -> & Hreads' & Hp' & Hl' & Hb2 & Hz').
      eexists _, _, _. split; [reflexivity|].
      split; [apply Forall_app; auto|].
      split; [eapply walk_progress_trans; eassumption|].
      split; [lia|]. split; [exact Hb2 | exact Hz'].
    + eexists _, _, _. split; [reflexivity|]. split; [exact Hreads|].
      split; [exact Hp|]. split; [lia|]. split; [exact Hb1 | discriminate].
    + eexists _, _, _. split; [reflexivity|]. split; [exact Hreads|].
      split; [exact Hp|]. split; [lia|]. split; [exact Hb1 | auto].
Qed.

Lemma walk_python_stack_missing c :
  global_state_slot env = false
  \/ version_specific_offsets env
       !! py_version_index (interpreter_info (global_state c)) = None ->
  walk_python_stack K env c = (Return 0, c).
Proof.
  unfold walk_python_stack, GET_STATE, GET_OFFSETS.
  destruct (global_state_slot env); intros [H | H]; try discriminate H;
    try reflexivity.
  unfold bind at 1, ret at 1. unfold bind at 1, bind at 1, get_state.
  rewrite H. reflexivity.
Qed.

(** One invocation of the walker that finds its state and its offsets. *)
Lemma walk_python_stack_general c :
  global_state_slot env = true ->
  version_specific_offsets env
    !! py_version_index (interpreter_info (global_state c)) = Some off ->
  stack_bounded K (global_state c) ->
  MAX_STACK_DEPTH K < 2 ^ 64 ->
  exists r c' evs,
    walk_python_stack K env c = (r, c')
    /\ Forall is_read evs
    /\ stack_extends (global_state c) (global_state c')
    /\ same_origin (global_state c) (global_state c')
    /\ stack_bounded K (global_state c')
    /\ stack_len (global_state c')
       <= stack_len (global_state c)
          + Z.of_nat (Z.to_nat (PYTHON_STACK_FRAMES_PER_PROG K))
    /\ stack_walker_prog_call_count (global_state c')
       = stack_walker_prog_call_count (global_state c) + 1
    /\ ((r = TailCalled
         /\ walker_installed env = true
         /\ stack_walker_prog_call_count (global_state c')
            < PYTHON_STACK_PROG_CNT K
         /\ stack_status (sample (global_state c'))
            = stack_status (sample (global_state c))
         /\ c' = with_state (global_state c')
                   (with_events (evs ++ [EvTailCall]) c))
        \/ (r = Val 0
            /\ walker_installed env = false
            /\ stack_walker_prog_call_count (global_state c')
               < PYTHON_STACK_PROG_CNT K
            /\ stack_status (sample (global_state c'))
               = stack_status (sample (global_state c))
            /\ c' = published env (global_state c') (evs ++ [EvTailCall]) c)
        \/ (r = Val 0
            /\ PYTHON_STACK_PROG_CNT K
               <= stack_walker_prog_call_count (global_state c')
            /\ stack_status (sample (global_state c')) = STACK_TRUNCATED
            /\ c' = published env (global_state c') evs c)
        \/ (r = Val 0
            /\ stack_status (sample (global_state c')) = STACK_COMPLETE
            /\ frame_ptr (global_state c') = 0
            /\ c' = published env (global_state c') evs c)).
Proof.
  intros Hslot Hoff Hb Hmax.
  rewrite (walk_python_stack_run K env off c Hslot Hoff).
  unfold walk_python_stack_effect.
  set (s1 := set_call_count _ (global_state c)).
  destruct (walk_loop_effect_progress
              (Z.to_nat (PYTHON_STACK_FRAMES_PER_PROG K)) s1 Hb Hmax)
    as (e & s2 & evs & -> & Hreads & Hp & Hl & Hb2 & Hz).
  destruct Hp as (Hext & Horg & Hcnt & Hst).
  change (stack_walker_prog_call_count s1)
    with (stack_walker_prog_call_count (global_state c) + 1) in Hcnt.
  change (stack_status (sample s1))
    with (stack_status (sample (global_state c))) in Hst.
  change (stack_len s1) with (stack_len (global_state c)) in Hl.
  destruct e.
  - destruct (Z.ltb_spec (stack_walker_prog_call_count s2)
                (PYTHON_STACK_PROG_CNT K)) as [Hlt | Hge].
    + destruct (walker_installed env) eqn:Hinst.
      * eexists _, _, evs. split; [reflexivity|]. simpl global_state.
        repeat (split; [assumption|]). left. repeat split; assumption.
      * eexists _, _, evs. split; [reflexivity|]. simpl global_state.
        repeat (split; [assumption|]). right. left. repeat split; assumption.
    + eexists _, _, evs. split; [reflexivity|]. simpl global_state.
      split; [assumption|]. split; [exact Hext|]. split; [exact Horg|].
      split; [exact Hb2|]. split; [exact Hl|]. split; [exact Hcnt|].
      right. right. left. split; [reflexivity|]. split; [exact Hge|].
      split; reflexivity.
  - eexists _, _, evs. split; [reflexivity|]. simpl global_state.
    split; [assumption|]. split; [exact Hext|]. split; [exact Horg|].
    split; [exact Hb2|]. split; [exact Hl|]. split; [exact Hcnt|].
    right. right. right. split; [reflexivity|]. split; [reflexivity|].
    split; [apply Hz|]; reflexivity.
Qed.

Lemma published_after_tail_call s s1 evs1 evs c :
  published env s evs (with_state s1 (with_events evs1 c))
  = published env s (evs1 ++ evs) c.
Proof.
  unfold published, with_state, with_events. simpl.
  rewrite <- !app_assoc. reflexivity.
Qed.

Lemma walker_chain_more_fuel fuel : forall c r k,
  walker_chain K env fuel c = Some r ->
  walker_chain K env (fuel + k) c = Some r.
Proof.
  induction fuel as [|fuel IH]; intros c r k H; [discriminate H|].
  simpl in *. destruct (run_prog (walk_python_stack K env) c) as [[rc|] c1].
  - exact H.
  - apply IH. exact H.
Qed.

(** A chain of walker invocations with enough fuel for the rest of the
    budget: it ends, it publishes once, at the end, and the state it
    publishes extends the one it started from. *)
Lemma walker_chain_run j : forall c,
  global_state_slot env = true ->
  version_specific_offsets env
    !! py_version_index (interpreter_info (global_state c)) = Some off ->
  stack_bounded K (global_state c) ->
  MAX_STACK_DEPTH K < 2 ^ 64 ->
  PYTHON_STACK_PROG_CNT K
  <= stack_walker_prog_call_count (global_state c) + Z.of_nat (S j) ->
  exists c' evs,
    walker_chain K env (S j) c = Some (0, c')
    /\ Forall is_walk_event evs
    /\ c' = published env (global_state c') evs c
    /\ stack_extends (global_state c) (global_state c')
    /\ same_origin (global_state c) (global_state c')
    /\ stack_bounded K (global_state c')
    /\ stack_walker_prog_call_count (global_state c)
       < stack_walker_prog_call_count (global_state c')
       <= Z.max (PYTHON_STACK_PROG_CNT K)
            (stack_walker_prog_call_count (global_state c) + 1)
    /\ ((stack_status (sample (global_state c')) = STACK_TRUNCATED
         /\ PYTHON_STACK_PROG_CNT K
            <= stack_walker_prog_call_count (global_state c'))
        \/ (stack_status (sample (global_state c')) = STACK_COMPLETE
            /\ frame_ptr (global_state c') = 0)
        \/ (walker_installed env = false
            /\ stack_status (sample (global_state c'))
               = stack_status (sample (global_state c)))).
Proof.
  induction j as [|j IH]; intros c Hslot Hoff Hb Hmax Hfuel.
  all: destruct (walk_python_stack_general c Hslot Hoff Hb Hmax)
      as (r & c1 & evs & Hrun & Hreads & Hext & Horg & Hb1 & Hl & Hcnt & Hcase).
  all: assert (Hwalk : Forall is_walk_event evs)
      by (eapply Forall_impl; [exact Hreads | intros e He; left; exact He]).
  all: assert (Hwalk' : Forall is_walk_event (evs ++ [EvTailCall]))
      by (apply Forall_app; split; [exact Hwalk|];
          repeat constructor; right; reflexivity).
  all: simpl walker_chain; unfold run_prog; rewrite Hrun.
  all: destruct Hcase as [(-> & Hinst & Hlt & Hst & Hc1)
                         | [(-> & Hinst & Hlt & Hst & Hc1)
                           | [(-> & Hge & Hst & Hc1)
                             | (-> & Hst & Hz & Hc1)]]].
  all: try (exfalso; lia).
  all: try (exists c1; eexists; split; [reflexivity|];
            split;
            [|split; [exact Hc1|];
              split; [exact Hext|]; split; [exact Horg|]; split; [exact Hb1|];
              split; [lia|]; solve [auto]];
            assumption).
  (* the invocation tail-called and invocations remain *)
  assert (Hoff1 : version_specific_offsets env
                    !! py_version_index (interpreter_info (global_state c1))
                  = Some off).
  { destruct Horg as (-> & _). exact Hoff. }
  destruct (IH c1 Hslot Hoff1 Hb1 Hmax)
    as (c' & evs' & Hrun' & Hwalk2 & Hc' & Hext' & Horg' & Hb' & Hcnt' & Hcase');
    [lia|].
  exists c', ((evs ++ [EvTailCall]) ++ evs'). split; [exact Hrun'|].
  split; [apply Forall_app; auto|].
  split. { rewrite Hc' at 1. rewrite Hc1 at 1. apply published_after_tail_call. }
  split; [eapply stack_extends_trans; eassumption|].
  split.
  { unfold same_origin in *.
    destruct Horg as (? & ? & ? & ? & ?), Horg' as (? & ? & ? & ? & ?).
    repeat split; congruence. }
  split; [exact Hb'|]. split; [lia|].
  destruct Hcase' as [? | [? | [Hno _]]]; [auto | auto | congruence].
Qed.

(** The same for any amount of fuel that lets the chain end. *)
Lemma walker_chain_result fuel c rc c' :
  walker_chain K env fuel c = Some (rc, c') ->
  global_state_slot env = true ->
  version_specific_offsets env
    !! py_version_index (interpreter_info (global_state c)) = Some off ->
  stack_bounded K (global_state c) ->
  MAX_STACK_DEPTH K < 2 ^ 64 ->
  exists j, walker_chain K env (S j) c = Some (rc, c')
            /\ PYTHON_STACK_PROG_CNT K
               <= stack_walker_prog_call_count (global_state c)
                  + Z.of_nat (S j).
Proof.
  intros Hrun Hslot Hoff Hb Hmax.
  set (k := Z.to_nat (PYTHON_STACK_PROG_CNT K
                      - stack_walker_prog_call_count (global_state c))).
  destruct fuel as [|fuel]; [discriminate Hrun|].
  exists (fuel + k)%nat. split; [|lia].
  change (S (fuel + k)) with (S fuel + k)%nat.
  apply walker_chain_more_fuel. exact Hrun.
Qed.

End WalkerFacts.

(** X2. Whatever the process memory looks like (a frame chain may be
    cyclic) and whatever the maps hold, a chain of walker invocations ends
    with return code 0 after at most
    [max 1 (PYTHON_STACK_PROG_CNT - stack_walker_prog_call_count)]
    invocations, and the call counter ends at most at
    [PYTHON_STACK_PROG_CNT] when it started below it. *)
Theorem walker_chain_terminates (K : Constants) (env : Env) (c : Cpu) :
  stack_bounded K (global_state c) ->
  MAX_STACK_DEPTH K < 2 ^ 64 ->
  exists c',
    walker_chain K env
      (Z.to_nat (Z.max 1 (PYTHON_STACK_PROG_CNT K
                          - stack_walker_prog_call_count (global_state c))))
      c = Some (0, c')
    /\ stack_walker_prog_call_count (global_state c')
       <= Z.max (PYTHON_STACK_PROG_CNT K)
            (stack_walker_prog_call_count (global_state c) + 1).
Proof.
  intros Hb Hmax.
  set (fuel := Z.to_nat _).
  assert (Hfuel : fuel = S (Nat.pred fuel)) by (unfold fuel; lia).
  rewrite Hfuel.
  destruct (global_state_slot env) eqn:Hslot.
  2:{ exists c. simpl. unfold run_prog.
      rewrite walk_python_stack_missing by (left; exact Hslot).
      split; [reflexivity | lia]. }
  destruct (version_specific_offsets env
              !! py_version_index (interpreter_info (global_state c)))
    as [off|] eqn:Hoff.
  2:{ exists c. simpl. unfold run_prog.
      rewrite walk_python_stack_missing by (right; exact Hoff).
      split; [reflexivity | lia]. }
  destruct (walker_chain_run K env off (Nat.pred fuel) c Hslot Hoff Hb Hmax)
    as (c' & evs & Hrun & _ & _ & _ & _ & _ & Hcnt & _); [unfold fuel; lia|].
  exists c'. split; [exact Hrun | lia].
Qed.

Lemma walker_chain_terminates_witness :
  exists c',
    walker_chain seed_constants env_cycle 3 (handoff seed_constants env_cycle)
    = Some (0, c')
    /\ stack_walker_prog_call_count (global_state c') <= 3.
Proof.
  destruct (walker_chain_terminates seed_constants env_cycle
              (handoff seed_constants env_cycle))
    as (c' & Hrun & Hcnt).
  - split; [split|]; vm_compute; first [discriminate | reflexivity].
  - reflexivity.
  - exists c'. split; [exact Hrun | exact Hcnt].
Defined.

(** X3. A chain of walker invocations that finds its state and offsets
    publishes exactly once, at its end: before that it only reads and
    tail-calls; then it inserts the final stack into [stack_traces] under
    its hash (so that looking the hash up yields the stack, all other keys
    being untouched), records the hash as the interpreter stack id of the
    unwind state, and calls [aggregate_stacks].  The return code is 0. *)
Theorem walker_chain_publishes_once (K : Constants) (env : Env)
    (off : PythonVersionOffsets) (fuel : nat) (c c' : Cpu) (rc : Z) :
  walker_chain K env fuel c = Some (rc, c') ->
  global_state_slot env = true ->
  version_specific_offsets env
    !! py_version_index (interpreter_info (global_state c)) = Some off ->
  stack_bounded K (global_state c) ->
  MAX_STACK_DEPTH K < 2 ^ 64 ->
  let final := stack (sample (global_state c')) in
  let h := wrap64 (hash_stack env final) in
  rc = 0
  /\ (exists evs,
        Forall is_walk_event evs
        /\ trace c' = trace c ++ evs ++ [EvStackTracesUpdate h; EvAggregateStacks])
  /\ (stack_traces_accepts env = true ->
      stack_traces c' !! h = Some final
      /\ forall k, k <> h -> stack_traces c' !! k = stack_traces c !! k)
  /\ (stack_traces_accepts env = false -> stack_traces c' = stack_traces c)
  /\ (heap_slot env = true -> interpreter_stack_id c' = h).
Proof.
  intros Hrun Hslot Hoff Hb Hmax final h.
  destruct (walker_chain_result K env off fuel c rc c' Hrun Hslot Hoff Hb Hmax)
    as (j & Hrun' & Hfuel).
  destruct (walker_chain_run K env off j c Hslot Hoff Hb Hmax Hfuel)
    as (c2 & evs & Hrun2 & Hwalk & Hc2 & _).
  rewrite Hrun2 in Hrun'. injection Hrun' as <- <-.
  split; [reflexivity|]. subst final h.
  assert (Htr : trace c2
                = trace c ++ evs ++
                  [EvStackTracesUpdate
                     (wrap64 (hash_stack env (stack (sample (global_state c2)))));
                   EvAggregateStacks])
    by (rewrite Hc2 at 1; reflexivity).
  assert (Hst : stack_traces c2
                = if stack_traces_accepts env
                  then <[wrap64 (hash_stack env
                                   (stack (sample (global_state c2))))
                         := stack (sample (global_state c2))]> (stack_traces c)
                  else stack_traces c)
    by (rewrite Hc2 at 1; reflexivity).
  assert (Hid : interpreter_stack_id c2
                = if heap_slot env
                  then wrap64 (hash_stack env (stack (sample (global_state c2))))
                  else interpreter_stack_id c)
    by (rewrite Hc2 at 1; reflexivity).
  split; [exists evs; split; [exact Hwalk | exact Htr]|].
  split; [|split].
  - intros Hacc. rewrite Hst, Hacc.
    split; [apply lookup_insert_eq|].
    intros k Hk. apply lookup_insert_ne. auto.
  - intros Hacc. rewrite Hst, Hacc. reflexivity.
  - intros Hheap. rewrite Hid, Hheap. reflexivity.
Qed.

(** X4. A chain of walker invocations never overwrites or drops an entry
    that is already on the stack, never changes the number of slots, and
    leaves the interpreter information, the thread state, the thread id and
    the pid and tid of the sample as P1 set them; this holds for any
    process memory. *)
Theorem walker_chain_keeps_entries (K : Constants) (env : Env)
    (fuel : nat) (c c' : Cpu) (rc : Z) :
  walker_chain K env fuel c = Some (rc, c') ->
  stack_bounded K (global_state c) ->
  MAX_STACK_DEPTH K < 2 ^ 64 ->
  stack_extends (global_state c) (global_state c')
  /\ same_origin (global_state c) (global_state c').
Proof.
  intros Hrun Hb Hmax.
  assert (Hsame : c' = c ->
                  stack_extends (global_state c) (global_state c')
                  /\ same_origin (global_state c) (global_state c')).
  { intros ->. split; [apply stack_extends_refl|].
    unfold same_origin. repeat split; reflexivity. }
  destruct fuel as [|fuel]; [discriminate Hrun|].
  destruct (global_state_slot env) eqn:Hslot.
  2:{ apply Hsame. simpl in Hrun. unfold run_prog in Hrun.
      rewrite walk_python_stack_missing in Hrun by (left; exact Hslot).
      congruence. }
  destruct (version_specific_offsets env
              !! py_version_index (interpreter_info (global_state c)))
    as [off|] eqn:Hoff.
  2:{ apply Hsame. simpl in Hrun. unfold run_prog in Hrun.
      rewrite walk_python_stack_missing in Hrun by (right; exact Hoff).
      congruence. }
  destruct (walker_chain_result K env off _ c rc c' Hrun Hslot Hoff Hb Hmax)
    as (j & Hrun' & Hfuel).
  destruct (walker_chain_run K env off j c Hslot Hoff Hb Hmax Hfuel)
    as (c2 & evs & Hrun2 & _ & _ & Hext & Horg & _).
  rewrite Hrun2 in Hrun'. injection Hrun' as <- <-. auto.
Qed.

(** X5. What the published status means when tail calls work: a sample
    published as complete was published with a null frame pointer (the
    link of the last frame walked was null or unreadable), and a sample
    published as truncated was published with the call budget used up. *)
Theorem published_status_meaning (K : Constants) (env : Env)
    (off : PythonVersionOffsets) (fuel : nat) (c c' : Cpu) (rc : Z) :
  walker_chain K env fuel c = Some (rc, c') ->
  global_state_slot env = true ->
  version_specific_offsets env
    !! py_version_index (interpreter_info (global_state c)) = Some off ->
  stack_bounded K (global_state c) ->
  MAX_STACK_DEPTH K < 2 ^ 64 ->
  walker_installed env = true ->
  (stack_status (sample (global_state c')) = STACK_COMPLETE
   /\ frame_ptr (global_state c') = 0)
  \/ (stack_status (sample (global_state c')) = STACK_TRUNCATED
      /\ PYTHON_STACK_PROG_CNT K
         <= stack_walker_prog_call_count (global_state c')).
Proof.
  intros Hrun Hslot Hoff Hb Hmax Hinst.
  destruct (walker_chain_result K env off fuel c rc c' Hrun Hslot Hoff Hb Hmax)
    as (j & Hrun' & Hfuel).
  destruct (walker_chain_run K env off j c Hslot Hoff Hb Hmax Hfuel)
    as (c2 & evs & Hrun2 & _ & _ & _ & _ & _ & _ & Hcase).
  rewrite Hrun2 in Hrun'. injection Hrun' as <- <-.
  destruct Hcase as [? | [? | [Hno _]]]; [auto | auto | congruence].
Qed.

Lemma handoff_cycle_bounded :
  stack_bounded seed_constants (global_state (handoff seed_constants env_cycle)).
Proof. split; [split|]; vm_compute; first [discriminate | reflexivity]. Qed.

Lemma walker_chain_publishes_once_witness :
  exists c',
    walker_chain seed_constants env_cycle 3 (handoff seed_constants env_cycle)
    = Some (0, c')
    /\ stack_traces c'
         !! wrap64 (hash_stack env_cycle (stack (sample (global_state c'))))
       = Some (stack (sample (global_state c')))
    /\ interpreter_stack_id c'
       = wrap64 (hash_stack env_cycle (stack (sample (global_state c')))).
Proof.
  destruct (walker_chain seed_constants env_cycle 3
              (handoff seed_constants env_cycle))
    as [[rc c']|] eqn:E; [|vm_compute in E; discriminate E].
  destruct (walker_chain_publishes_once seed_constants env_cycle offsets_py39
              3 (handoff seed_constants env_cycle) c' rc E eq_refl eq_refl
              handoff_cycle_bounded eq_refl)
    as (-> & _ & Hacc & _ & Hid).
  exists c'. split; [reflexivity|].
  split; [apply Hacc; reflexivity | apply Hid; reflexivity].
Defined.

Lemma walker_chain_keeps_entries_witness :
  exists c',
    walker_chain seed_constants env_cycle 3 (handoff seed_constants env_cycle)
    = Some (0, c')
    /\ stack_extends (global_state (handoff seed_constants env_cycle))
         (global_state c')
    /\ same_origin (global_state (handoff seed_constants env_cycle))
         (global_state c').
Proof.
  destruct (walker_chain seed_constants env_cycle 3
              (handoff seed_constants env_cycle))
    as [[rc c']|] eqn:E; [|vm_compute in E; discriminate E].
  pose proof (walker_chain_keeps_entries seed_constants env_cycle 3
                (handoff seed_constants env_cycle) c' rc E
                handoff_cycle_bounded eq_refl) as H.
  assert (Hrc : rc = 0) by (vm_compute in E; congruence).
  subst rc. exists c'. split; [reflexivity | exact H].
Defined.

Lemma published_status_meaning_witness :
  exists c',
    walker_chain seed_constants env_cycle 3 (handoff seed_constants env_cycle)
    = Some (0, c')
    /\ ((stack_status (sample (global_state c')) = STACK_COMPLETE
         /\ frame_ptr (global_state c') = 0)
        \/ (stack_status (sample (global_state c')) = STACK_TRUNCATED
            /\ 3 <= stack_walker_prog_call_count (global_state c'))).
Proof.
  destruct (walker_chain seed_constants env_cycle 3
              (handoff seed_constants env_cycle))
    as [[rc c']|] eqn:E; [|vm_compute in E; discriminate E].
  pose proof (published_status_meaning seed_constants env_cycle offsets_py39 3
                (handoff seed_constants env_cycle) c' rc E eq_refl eq_refl
                handoff_cycle_bounded eq_refl eq_refl) as H.
  assert (Hrc : rc = 0) by (vm_compute in E; congruence).
  subst rc. exists c'. split; [reflexivity | exact H].
Defined.

(** ** The published stack on a readable chain *)

Section ChainEntries.

Variable K : Constants.
Variable env : Env.
Variable off : PythonVersionOffsets.

Lemma chain_entries_plain p l :
  chain_entries K env off p l -> plain_frame K env off p /\ (1 <= length l)%nat.
Proof. intros H. destruct H; split; auto; simpl; lia. Qed.

Lemma loop_body_effect_entry s code :
  plain_frame K env off (frame_ptr s) ->
  user_u64 env (padd (frame_ptr s) (f_code (py_frame_object off))) = Some code ->
  exists evs,
    loop_body_effect K env off s
    = (if back_of env off (frame_ptr s) =? 0
       then IterGotoComplete else IterContinue,
       set_frame_ptr (back_of env off (frame_ptr s))
         (append_symbolized K env off (frame_ptr s) (wrap64 code) s),
       evs).
Proof.
  intros Hplain Hcode.
  destruct (loop_body_effect_plain K env off s Hplain)
    as (code' & evs & Hcode' & Hbody).
  rewrite Hcode in Hcode'. injection Hcode' as <-. eauto.
Qed.

Lemma take_push (l : list Z) (i : nat) (x : Z) :
  (i < length l)%nat -> take (S i) (<[i := x]> l) = take i l ++ [x].
Proof.
  intros Hi. rewrite (take_S_r _ _ x) by (apply list_lookup_insert_eq; exact Hi).
  rewrite take_insert_ge by lia. reflexivity.
Qed.

(** The loop on a readable chain with entries [l]: behind the entries that
    were on the stack it leaves the first [n] entries of the chain. *)
Lemma walk_loop_effect_entries n : forall l s,
  chain_entries K env off (frame_ptr s) l ->
  0 <= stack_len s ->
  stack_len s + Z.of_nat (min n (length l)) <= MAX_STACK_DEPTH K ->
  MAX_STACK_DEPTH K < 2 ^ 64 ->
  length (addresses (stack (sample s))) = Z.to_nat (MAX_STACK_DEPTH K) ->
  exists e s' evs,
    walk_loop_effect K env off n s = (e, s', evs)
    /\ stack_len s' = stack_len s + Z.of_nat (min n (length l))
    /\ length (addresses (stack (sample s'))) = Z.to_nat (MAX_STACK_DEPTH K)
    /\ take (Z.to_nat (stack_len s')) (addresses (stack (sample s')))
       = take (Z.to_nat (stack_len s)) (addresses (stack (sample s)))
         ++ take n l
    /\ (forall k, (Z.to_nat (stack_len s') <= k)%nat ->
          drop k (addresses (stack (sample s')))
          = drop k (addresses (stack (sample s))))
    /\ interpreter_info s' = interpreter_info s
    /\ stack_walker_prog_call_count s' = stack_walker_prog_call_count s
    /\ stack_status (sample s') = stack_status (sample s)
    /\ ((length l <= n)%nat -> e = LoopGotoComplete)
    /\ ((n < length l)%nat ->
        e = LoopLeft /\ chain_entries K env off (frame_ptr s') (drop n l)).
Proof.
  induction n as [|n IH]; intros l s Hch Hl0 Hl Hmax Hlen.
  - destruct (chain_entries_plain _ _ Hch) as [_ Hm].
    exists LoopLeft, s, []. simpl. rewrite app_nil_r.
    repeat split; try lia. exact Hch.
  - simpl walk_loop_effect.
    destruct (chain_entries_plain _ _ Hch) as [Hplain Hm].
    assert (Hstep : forall code,
               user_u64 env (padd (frame_ptr s) (f_code (py_frame_object off)))
               = Some code ->
               let s1 := append_symbolized K env off (frame_ptr s)
                           (wrap64 code) s in
               stack_len s1 = stack_len s + 1
               /\ length (addresses (stack (sample s1)))
                  = Z.to_nat (MAX_STACK_DEPTH K)
               /\ take (Z.to_nat (stack_len s1)) (addresses (stack (sample s1)))
                  = take (Z.to_nat (stack_len s)) (addresses (stack (sample s)))
                    ++ [frame_encoding K env off (frame_ptr s) (wrap64 code)]
               /\ forall k, (Z.to_nat (stack_len s1) <= k)%nat ->
                     drop k (addresses (stack (sample s1)))
                     = drop k (addresses (stack (sample s)))).
    { intros code Hcode s1. subst s1.
      assert (Hlt : 0 <= stack_len s < MAX_STACK_DEPTH K) by lia.
      pose proof (append_symbolized_stack K env off (frame_ptr s)
                    (wrap64 code) s Hlt) as Hst.
      unfold stack_len at 1 2 3. rewrite Hst. simpl.
      rewrite (wrap64_small (stack_len s + 1)) by lia.
      split; [reflexivity|]. split; [rewrite length_insert; exact Hlen|].
      replace (Z.to_nat (stack_len s + 1)) with (S (Z.to_nat (stack_len s)))
        by lia.
      split; [apply take_push; rewrite Hlen; lia|].
      intros k Hk. apply drop_insert_lt.
      unfold stack_len at 1 in Hk. rewrite Hst in Hk. simpl in Hk.
      rewrite (wrap64_small (stack_len s + 1)) in Hk by lia. lia. }
    inversion Hch as [p code v Hp Hcode Hv Hz | p code v rest Hp Hcode Hv Hrest];
      subst.
    + destruct (loop_body_effect_entry s code Hplain Hcode) as [evs ->].
      destruct (Hstep code Hcode) as (Hl1 & Hlen1 & Htake1 & Hdrop1).
      pose proof (append_symbolized_fields K env off (frame_ptr s)
                    (wrap64 code) s) as (Hi & Hc & _ & Hst).
      unfold back_of. rewrite (load_user_u64_some env _ _ Hv). simpl snd.
      rewrite Hz. simpl.
      eexists _, _, _. split; [reflexivity|].
      change (stack_len (set_frame_ptr 0 ?x)) with (stack_len x).
      simpl sample. rewrite Hl1.
      split; [simpl length; simpl min; lia|].
      split; [exact Hlen1|].
      split; [rewrite <- Hl1, Htake1; f_equal; simpl; rewrite take_nil;
              reflexivity|].
      split; [intros k Hk; apply Hdrop1; lia|].
      split; [exact Hi|]. split; [exact Hc|]. split; [exact Hst|].
      split; [reflexivity|]. simpl length. intros Hc'. lia.
    + destruct (loop_body_effect_entry s code Hplain Hcode) as [evs ->].
      destruct (Hstep code Hcode) as (Hl1 & Hlen1 & Htake1 & Hdrop1).
      pose proof (append_symbolized_fields K env off (frame_ptr s)
                    (wrap64 code) s) as (Hi & Hc & _ & Hst).
      destruct (chain_entries_plain _ _ Hrest) as [[Hnz _] Hm'].
      unfold back_of. rewrite (load_user_u64_some env _ _ Hv). simpl snd.
      apply Z.eqb_neq in Hnz. rewrite Hnz.
      set (s1 := set_frame_ptr (wrap64 v)
                   (append_symbolized K env off (frame_ptr s) (wrap64 code) s)).
      destruct (IH rest s1)
        as (e & s' & evs' & Hrun & Hlen' & Hal' & Htake' & Hdrop' & Hi' & Hc'
            & Hst' & Hle & Hlt).
      { exact Hrest. }
      { change (stack_len s1) with (stack_len (append_symbolized K env off
                  (frame_ptr s) (wrap64 code) s)). lia. }
      { change (stack_len s1) with (stack_len (append_symbolized K env off
                  (frame_ptr s) (wrap64 code) s)).
        simpl length in Hl. simpl min in Hl. lia. }
      { exact Hmax. }
      { exact Hlen1. }
      change (stack_len s1) with (stack_len (append_symbolized K env off
                (frame_ptr s) (wrap64 code) s)) in *.
      change (addresses (stack (sample s1)))
        with (addresses (stack (sample (append_symbolized K env off
                (frame_ptr s) (wrap64 code) s)))) in *.
      rewrite Hrun. eexists _, _, _. split; [reflexivity|].
      split; [rewrite Hlen', Hl1; simpl length; simpl min; lia|].
      split; [exact Hal'|].
      split; [rewrite Htake', Htake1, <- app_assoc; reflexivity|].
      split; [intros k Hk; rewrite Hdrop' by exact Hk; apply Hdrop1; lia|].
      split; [rewrite Hi'; exact Hi|].
      split; [rewrite Hc'; exact Hc|].
      split; [rewrite Hst'; exact Hst|].
      split.
      * intros Hmn. apply Hle. simpl in Hmn. lia.
      * intros Hmn. simpl drop. apply Hlt. simpl in Hmn. lia.
Qed.

(** The chain of invocations on a readable chain with entries [l]. *)
Lemma walker_chain_entries j : forall c l,
  global_state_slot env = true ->
  version_specific_offsets env
    !! py_version_index (interpreter_info (global_state c)) = Some off ->
  walker_installed env = true ->
  0 < PYTHON_STACK_FRAMES_PER_PROG K ->
  MAX_STACK_DEPTH K = PYTHON_STACK_FRAMES_PER_PROG K * PYTHON_STACK_PROG_CNT K ->
  MAX_STACK_DEPTH K < 2 ^ 64 ->
  stack_walker_prog_call_count (global_state c)
  = PYTHON_STACK_PROG_CNT K - Z.of_nat (S j) ->
  0 <= stack_walker_prog_call_count (global_state c) ->
  stack_len (global_state c)
  = stack_walker_prog_call_count (global_state c)
    * PYTHON_STACK_FRAMES_PER_PROG K ->
  length (addresses (stack (sample (global_state c))))
  = Z.to_nat (MAX_STACK_DEPTH K) ->
  chain_entries K env off (frame_ptr (global_state c)) l ->
  let budget := (S j * Z.to_nat (PYTHON_STACK_FRAMES_PER_PROG K))%nat in
  exists c',
    walker_chain K env (S j) c = Some (0, c')
    /\ stack_len (global_state c')
       = stack_len (global_state c) + Z.of_nat (min budget (length l))
    /\ take (Z.to_nat (stack_len (global_state c')))
         (addresses (stack (sample (global_state c'))))
       = take (Z.to_nat (stack_len (global_state c)))
           (addresses (stack (sample (global_state c))))
         ++ take budget l
    /\ (forall k, (Z.to_nat (stack_len (global_state c')) <= k)%nat ->
          drop k (addresses (stack (sample (global_state c'))))
          = drop k (addresses (stack (sample (global_state c)))))
    /\ stack_status (sample (global_state c'))
       = if (length l <=? budget)%nat then STACK_COMPLETE else STACK_TRUNCATED.
Proof.
  induction j as [|j IH]; intros c l Hslot Hoff Hinst Hfpp Hmax Hlt Hcnt Hcnt0
    Hlen Hal Hch budget; subst budget.
  all: simpl walker_chain; unfold run_prog;
    rewrite (walk_python_stack_run K env off c Hslot Hoff);
    unfold walk_python_stack_effect;
    set (s1 := set_call_count
                 (stack_walker_prog_call_count (global_state c) + 1)
                 (global_state c));
    set (n := Z.to_nat (PYTHON_STACK_FRAMES_PER_PROG K));
    assert (Hn : Z.of_nat n = PYTHON_STACK_FRAMES_PER_PROG K)
      by (unfold n; lia);
    destruct (walk_loop_effect_entries n l s1)
      as (e & s2 & evs & Hrun & Hlen2 & Hal2 & Htake2 & Hdrop2 & Hi2 & Hc2
          & Hst2 & Hle & Hgt);
    [ exact Hch
    | change (stack_len s1) with (stack_len (global_state c)); nia
    | change (stack_len s1) with (stack_len (global_state c)); nia
    | exact Hlt
    | exact Hal
    | rewrite Hrun;
      change (stack_len s1) with (stack_len (global_state c)) in Hlen2, Htake2;
      change (addresses (stack (sample s1)))
        with (addresses (stack (sample (global_state c)))) in Htake2, Hdrop2;
      change (stack_walker_prog_call_count s1)
        with (stack_walker_prog_call_count (global_state c) + 1) in Hc2 ].
  - (* the last invocation of the budget *)
    replace (1 * n)%nat with n by lia.
    destruct (le_lt_dec (length l) n) as [Hmn | Hmn].
    + rewrite (Hle Hmn). eexists. split; [reflexivity|].
      replace (length l <=? n)%nat with true
        by (symmetry; apply Nat.leb_le; exact Hmn).
      simpl global_state.
      change (stack_len (set_stack_status STACK_COMPLETE s2))
        with (stack_len s2).
      split; [exact Hlen2|]. split; [exact Htake2|].
      split; [exact Hdrop2|]. reflexivity.
    + destruct (Hgt Hmn) as [-> _].
      replace (stack_walker_prog_call_count s2 <? PYTHON_STACK_PROG_CNT K)
        with false by (symmetry; apply Z.ltb_ge; lia).
      eexists. split; [reflexivity|].
      replace (length l <=? n)%nat with false
        by (symmetry; apply Nat.leb_gt; exact Hmn).
      simpl global_state.
      change (stack_len (set_stack_status STACK_TRUNCATED s2))
        with (stack_len s2).
      split; [exact Hlen2|]. split; [exact Htake2|].
      split; [exact Hdrop2|]. reflexivity.
  - (* further invocations remain *)
    replace (S (S j) * n)%nat with (n + S j * n)%nat by lia.
    destruct (le_lt_dec (length l) n) as [Hmn | Hmn].
    + rewrite (Hle Hmn). eexists. split; [reflexivity|].
      replace (length l <=? n + S j * n)%nat with true
        by (symmetry; apply Nat.leb_le; lia).
      simpl global_state.
      change (stack_len (set_stack_status STACK_COMPLETE s2))
        with (stack_len s2).
      split; [rewrite Hlen2; lia|].
      split; [|split; [exact Hdrop2 | reflexivity]].
      etransitivity; [exact Htake2|]. f_equal.
      rewrite !take_ge by lia. reflexivity.
    + destruct (Hgt Hmn) as [-> Hrest].
      replace (stack_walker_prog_call_count s2 <? PYTHON_STACK_PROG_CNT K)
        with true by (symmetry; apply Z.ltb_lt; lia).
      rewrite Hinst.
      set (c1 := with_state s2 (with_events (evs ++ [EvTailCall]) c)).
      destruct (IH c1 (drop n l))
        as (c' & Hchain & Hlen' & Htake' & Hdrop' & Hst'); try assumption.
      { simpl. rewrite Hi2. exact Hoff. }
      { simpl. lia. }
      { simpl. lia. }
      { change (stack_len s2 = stack_walker_prog_call_count s2
                               * PYTHON_STACK_FRAMES_PER_PROG K).
        rewrite Hlen2, Hc2. nia. }
      change (global_state c1) with s2 in Hlen', Htake', Hdrop'.
      fold n in Hlen', Htake', Hst'.
      rewrite length_drop in Hlen', Hst'.
      exists c'. split; [exact Hchain|].
      split; [rewrite Hlen', Hlen2; lia|].
      split; [|split].
      * rewrite Htake', Htake2, <- app_assoc. f_equal.
        apply take_take_drop.
      * intros k Hk. rewrite Hdrop' by exact Hk. apply Hdrop2. lia.
      * rewrite Hst'.
        destruct (Nat.leb_spec (length l - n) (S j * n));
          destruct (Nat.leb_spec (length l) (n + S j * n));
          first [reflexivity | lia].
Qed.

End ChainEntries.

(** X6. From a fresh handoff (no invocation counted, empty stack) in front
    of a readable chain of frames, and with a frame budget that fills the
    stack exactly, the published stack lists the frames' entries in chain
    order, top frame first, cut at [MAX_STACK_DEPTH]; the sample is complete
    exactly when the whole chain fitted. *)
Theorem published_stack_lists_chain (K : Constants) (env : Env)
    (off : PythonVersionOffsets) (c : Cpu) (l : list Z) :
  global_state_slot env = true ->
  version_specific_offsets env
    !! py_version_index (interpreter_info (global_state c)) = Some off ->
  walker_installed env = true ->
  0 < PYTHON_STACK_FRAMES_PER_PROG K ->
  0 < PYTHON_STACK_PROG_CNT K ->
  MAX_STACK_DEPTH K = PYTHON_STACK_FRAMES_PER_PROG K * PYTHON_STACK_PROG_CNT K ->
  MAX_STACK_DEPTH K < 2 ^ 64 ->
  stack_walker_prog_call_count (global_state c) = 0 ->
  stack_len (global_state c) = 0 ->
  length (addresses (stack (sample (global_state c))))
  = Z.to_nat (MAX_STACK_DEPTH K) ->
  chain_entries K env off (frame_ptr (global_state c)) l ->
  exists c',
    walker_chain K env (Z.to_nat (PYTHON_STACK_PROG_CNT K)) c = Some (0, c')
    /\ take (Z.to_nat (stack_len (global_state c')))
         (addresses (stack (sample (global_state c'))))
       = take (Z.to_nat (MAX_STACK_DEPTH K)) l
    /\ stack_len (global_state c')
       = Z.min (Z.of_nat (length l)) (MAX_STACK_DEPTH K)
    /\ stack_status (sample (global_state c'))
       = if Z.of_nat (length l) <=? MAX_STACK_DEPTH K
         then STACK_COMPLETE else STACK_TRUNCATED.
Proof.
  intros Hslot Hoff Hinst Hfpp Hcnt Hmax Hlt Hc0 Hl0 Hal Hch.
  destruct (Z.to_nat (PYTHON_STACK_PROG_CNT K)) as [|j] eqn:Ej; [lia|].
  assert (Hb : (S j * Z.to_nat (PYTHON_STACK_FRAMES_PER_PROG K))%nat
               = Z.to_nat (MAX_STACK_DEPTH K)) by nia.
  destruct (walker_chain_entries K env off j c l Hslot Hoff Hinst Hfpp Hmax Hlt)
    as (c' & Hrun & Hlen & Htake & _ & Hst); try assumption; try lia.
  rewrite Hb in Hlen, Htake, Hst. rewrite Hl0 in Hlen, Htake.
  exists c'. split; [exact Hrun|].
  split; [rewrite Htake; reflexivity|].
  split; [rewrite Hlen; lia|].
  rewrite Hst.
  destruct (Nat.leb_spec (length l) (Z.to_nat (MAX_STACK_DEPTH K)));
    destruct (Z.leb_spec (Z.of_nat (length l)) (MAX_STACK_DEPTH K));
    first [reflexivity | lia].
Qed.

Lemma published_stack_lists_chain_witness :
  exists c',
    walker_chain seed_constants (env_chain 2) 3
      (handoff seed_constants (env_chain 2)) = Some (0, c')
    /\ take (Z.to_nat (stack_len (global_state c')))
         (addresses (stack (sample (global_state c'))))
       = take 12
           [frame_encoding seed_constants (env_chain 2) offsets_py39
              65536 131072;
            frame_encoding seed_constants (env_chain 2) offsets_py39
              65792 131328]
    /\ stack_len (global_state c') = 2
    /\ stack_status (sample (global_state c')) = STACK_COMPLETE.
Proof.
  apply (published_stack_lists_chain seed_constants (env_chain 2) offsets_py39
           (handoff seed_constants (env_chain 2))
           [frame_encoding seed_constants (env_chain 2) offsets_py39
              65536 131072;
            frame_encoding seed_constants (env_chain 2) offsets_py39
              65792 131328]);
    try reflexivity.
  eapply (entries_link _ _ _ 65536 131072 65792);
    [ eapply plain_frame_py39;
      [ vm_compute; discriminate | vm_compute; reflexivity
      | vm_compute; discriminate ]
    | vm_compute; reflexivity
    | vm_compute; reflexivity
    | ].
  eapply (entries_end _ _ _ 65792 131328 0);
    [ eapply plain_frame_py39;
      [ vm_compute; discriminate | vm_compute; reflexivity
      | vm_compute; discriminate ]
    | vm_compute; reflexivity
    | vm_compute; reflexivity
    | reflexivity ].
Defined.

(** ** The ways P1 ends *)

Section EntryOutcome.

Variable K : Constants.
Variable env : Env.

Lemma thread_state_tls_outcome info c :
  exists r s' evs,
    thread_state_tls K env info c = (r, with_state s' (with_events evs c))
    /\ sample_kept (global_state c) s'
    /\ ((r = Val tt /\ Forall is_read evs
         /\ (use_tls info = true -> thread_state s' <> 0)
         /\ (use_tls info = false -> thread_state s' = thread_state (global_state c)))
        \/ (r = Return 0
            /\ exists reads msg,
                 evs = reads ++ [EvErrorMsg msg; EvAggregateStacks]
                 /\ Forall is_read reads)).
Proof.
  unfold thread_state_tls.
  destruct (use_tls info) eqn:Eu.
  2:{ exists (Val tt), (global_state c), [].
      rewrite with_events_nil, with_state_same.
      split; [reflexivity|]. split; [repeat split|].
      left. repeat split; auto; discriminate. }
  cbv zeta.
  unfold tls_read, call, bind, bpf_probe_read_user, bpf_probe_read, emit, ret,
    return_, modify_state, get_state, ERROR_MSG, goto, submit_without_unwinding, aggregate_stacks.
  repeat (simpl;
          match goal with
          | |- context [?a =? ?b] => destruct (a =? b) eqn:?
          | |- context [glibc_offsets env !! ?k] => destruct (glibc_offsets env !! k)
          | |- context [musl_offsets env !! ?k] => destruct (musl_offsets env !! k)
          | |- context [arch env] => destruct (arch env)
          | |- context [load_user_u64 env ?a] => destruct (load_user_u64 env a)
          | |- context [load_any_u64 env ?a] => destruct (load_any_u64 env a)
          end).
  all: simpl; rewrite <- ?app_assoc; simpl app.
  all: eexists _, _, _; split; [unfold with_state, with_events; simpl; reflexivity|].
  all: split; [repeat split|].
  all: first
    [ left; split; [reflexivity|]; split; [repeat constructor|];
      split; [intros _; simpl; apply Z.eqb_neq; assumption | discriminate]
    | right; split; [reflexivity|];
      match goal with
      | |- exists reads msg, ?evs = _ /\ _ =>
          exists (take (length evs - 2) evs)
      end;
      eexists; split; [reflexivity | simpl; repeat constructor] ].
Qed.

Lemma top_frame_and_jump_outcome off c :
  exists r s' reads tail,
    top_frame_and_jump env off c
    = (r, with_state s' (with_events (reads ++ tail) c))
    /\ sample_kept (global_state c) s'
    /\ thread_state s' = thread_state (global_state c)
    /\ Forall is_read reads
    /\ ((r = Return 0
         /\ exists msg, tail = [EvErrorMsg msg; EvAggregateStacks])
        \/ (r = TailCalled /\ walker_installed env = true
            /\ frame_ptr s' <> 0 /\ tail = [EvTailCall])
        \/ (r = Val 0 /\ walker_installed env = false
            /\ frame_ptr s' <> 0
            /\ tail = [EvTailCall; EvAggregateStacks])).
Proof.
  unfold top_frame_and_jump, bpf_tail_call, bpf_probe_read_user, ERROR_MSG,
    goto, submit_without_unwinding, aggregate_stacks, bind, emit, ret,
    return_, modify_state, get_state.
  repeat (simpl;
          match goal with
          | |- context [?a =? ?b] => destruct (a =? b) eqn:?
          | |- context [?a <? ?b] => destruct (a <? b) eqn:?
          | |- context [walker_installed env] =>
              destruct (walker_installed env) eqn:?
          | |- context [load_user_u64 env ?a] => destruct (load_user_u64 env a)
          end).
  all: simpl; rewrite <- ?app_assoc; simpl app.
  all: lazymatch goal with
       | |- context [(?r0, {| global_state := ?s0; stack_traces := _;
                              interpreter_stack_id := _;
                              trace := _ ++ ?evs0 |})] =>
           let k := lazymatch r0 with
                    | TailCalled => constr:(1%nat)
                    | _ => constr:(2%nat)
                    end in
           exists r0, s0, (take (length evs0 - k) evs0),
             (drop (length evs0 - k) evs0)
       end.
  all: split; [reflexivity|]; split; [repeat split|];
    split; [reflexivity|]; split; [simpl; repeat constructor|]; simpl;
   first
    [ left; split; [reflexivity|]; eexists; reflexivity
    | right; left; split; [reflexivity|]; split; [reflexivity|];
      split; [apply Z.eqb_neq; assumption | reflexivity]
    | right; right; split; [reflexivity|]; split; [reflexivity|];
      split; [apply Z.eqb_neq; assumption | reflexivity] ].
Qed.

Lemma fresh_sample_kept info s s' :
  fresh_sample K env info s -> sample_kept s s' -> fresh_sample K env info s'.
Proof.
  intros (H1 & H2 & H3) (K1 & K2 & K3). unfold fresh_sample.
  rewrite K1, K2, K3. auto.
Qed.

Lemma with_state_logged s s' evs evs' c :
  with_state s' (with_events evs' (with_state s (with_events evs c)))
  = with_state s' (with_events (evs ++ evs') c).
Proof. unfold with_state, with_events. simpl. rewrite app_assoc. reflexivity. Qed.

(** From "Fetch the thread id" on. *)
Lemma entry_outcome_top info off c s reads :
  entry_passed env info ->
  version_specific_offsets env !! py_version_index info = Some off ->
  fresh_sample K env info s ->
  (use_tls info = true -> thread_state s <> 0) ->
  Forall is_read reads ->
  entry_outcome K env c
    (top_frame_and_jump env off (with_state s (with_events reads c))).
Proof.
  intros Hi Hoff Hfresh Hts Hreads.
  destruct (top_frame_and_jump_outcome off (with_state s (with_events reads c)))
    as (r & s' & reads' & tail & Hrun & Hkept & Hts' & Hreads' & Hcases).
  rewrite Hrun, with_state_logged, app_assoc.
  assert (Hfresh' : fresh_sample K env info s')
    by (eapply fresh_sample_kept; eassumption).
  assert (Hall : Forall is_read (reads ++ reads'))
    by (apply Forall_app; auto).
  simpl in Hts'.
  destruct Hcases as [(-> & msg & ->) | [(-> & Hw & Hfp & ->) | (-> & Hw & Hfp & ->)]].
  - eapply entry_reported; eassumption.
  - eapply entry_jumped; try eassumption. rewrite Hts'. exact Hts.
  - eapply entry_jump_failed; eassumption.
Qed.

Lemma GET_OFFSETS_run c :
  GET_OFFSETS env c
  = match version_specific_offsets env
          !! py_version_index (interpreter_info (global_state c)) with
    | Some off => (Val off, c)
    | None => (Return 0, c)
    end.
Proof.
  unfold GET_OFFSETS, bind, get_state.
  destruct (version_specific_offsets env !! _); reflexivity.
Qed.

(** From [GET_OFFSETS] on. *)
Lemma entry_outcome_offsets info c s reads :
  entry_passed env info ->
  fresh_sample K env info s ->
  (use_tls info = true -> thread_state s <> 0) ->
  Forall is_read reads ->
  let m := let! offsets := GET_OFFSETS env in top_frame_and_jump env offsets in
  entry_outcome K env c (m (with_state s (with_events reads c))).
Proof.
  intros Hi Hfresh Hts Hreads m. subst m.
  unfold bind at 1. rewrite GET_OFFSETS_run.
  change (global_state (with_state s (with_events reads c))) with s.
  destruct Hfresh as (Hinfo & Hrest). rewrite Hinfo.
  destruct (version_specific_offsets env !! py_version_index info) as [off|]
    eqn:Hoff.
  - apply (entry_outcome_top info); try assumption. split; assumption.
  - eapply entry_no_offsets; try eassumption. split; assumption.
Qed.

(** From the TLS paragraph on. *)
Lemma entry_outcome_tls info c s reads :
  entry_passed env info ->
  fresh_sample K env info s ->
  Forall is_read reads ->
  let m := thread_state_tls K env info >>
           let! offsets := GET_OFFSETS env in top_frame_and_jump env offsets in
  entry_outcome K env c (m (with_state s (with_events reads c))).
Proof.
  intros Hi Hfresh Hreads m. subst m. unfold bind at 1.
  destruct (thread_state_tls_outcome info (with_state s (with_events reads c)))
    as (r & s' & evs & Hrun & Hkept & Hcases).
  rewrite Hrun. rewrite with_state_logged.
  assert (Hfresh' : fresh_sample K env info s')
    by (eapply fresh_sample_kept; eassumption).
  destruct Hcases as [(-> & Hevs & Hts & _) | (-> & reads' & msg & -> & Hreads')].
  - apply (entry_outcome_offsets info); try assumption. apply Forall_app; auto.
  - rewrite app_assoc. eapply entry_reported; try eassumption.
    apply Forall_app; auto.
Qed.

(** Every run of P1 ends in one of the ways of [entry_outcome]. *)
Lemma unwind_python_stack_cases c :
  entry_outcome K env c (unwind_python_stack K env c).
Proof.
  destruct (heap_slot env) eqn:Hh.
  2:{ unfold unwind_python_stack. rewrite Hh.
      apply entry_no_scratch. left. exact Hh. }
  destruct (err_symbol_slot env) eqn:He.
  2:{ unfold unwind_python_stack. rewrite Hh, He.
      apply entry_no_scratch. right. exact He. }
  destruct (Z.eq_dec (current_pid env) 0) as [Hp | Hp].
  { unfold unwind_python_stack. rewrite Hh, He. cbv zeta.
    fold (current_pid env). rewrite Hp.
    apply entry_idle_task; assumption. }
  destruct (pid_to_interpreter_info env !! current_pid env) as [info|] eqn:Hi.
  2:{ unfold unwind_python_stack. rewrite Hh, He. cbv zeta.
      fold (current_pid env). rewrite Hi.
      apply Z.eqb_neq in Hp. rewrite Hp.
      match goal with
      | |- entry_outcome _ _ _ ?x =>
          replace x
            with (@Return Z 1,
                  with_events
                    [EvErrorMsg "interpreter_info was NULL"; EvErrorSample] c)
      end.
      - apply Z.eqb_neq in Hp. apply entry_no_interpreter; assumption.
      - unfold with_events, bind, ret, ERROR_MSG, goto, error, ERROR_SAMPLE,
          emit. simpl. rewrite <- app_assoc. reflexivity. }
  destruct (global_state_slot env) eqn:Hg.
  2:{ unfold unwind_python_stack, GET_STATE. rewrite Hh, He, Hg. cbv zeta.
      fold (current_pid env). rewrite Hi.
      apply Z.eqb_neq in Hp. rewrite Hp.
      apply Z.eqb_neq in Hp.
      apply (entry_no_state K env c info); assumption. }
  rewrite (unwind_python_stack_paragraphs K env info c Hh He Hg Hp Hi).
  assert (Hpass : entry_passed env info) by (repeat split; assumption).
  set (s0 := reset_state K info (current_pid env) (current_tid env)).
  assert (Hfresh : forall v, fresh_sample K env info (set_thread_state v s0))
    by (intros v; repeat split).
  unfold bind at 1. rewrite thread_state_direct_run.
  destruct (thread_state_addr info =? 0).
  - replace (with_state s0 c) with (with_state s0 (with_events [] c))
      by (rewrite with_events_nil; reflexivity).
    apply (entry_outcome_tls info c s0 []); [exact Hpass | repeat split | constructor].
  - destruct (user_u64 env (thread_state_addr info)) as [v|].
    + apply (entry_outcome_tls info c (set_thread_state (wrap64 v) s0)
               [EvProbeReadUser (thread_state_addr info)]);
        [exact Hpass | apply Hfresh | repeat constructor].
    + apply (entry_reported K env c info (set_thread_state 0 s0)
               [EvProbeReadUser (thread_state_addr info)]
               "failed read of thread_state_addr");
        [exact Hpass | apply Hfresh | repeat constructor].
Qed.

End EntryOutcome.

Lemma trace_logged s evs c :
  trace (with_state s (with_events evs c)) = trace c ++ evs.
Proof. reflexivity. Qed.

Lemma fresh_sample_fields K env info s :
  fresh_sample K env info s ->
  interpreter_info s = info
  /\ pid (sample s) = current_pid env
  /\ tid (sample s) = current_tid env
  /\ stack_status (sample s) = STACK_COMPLETE
  /\ stack (sample s) = zero_stack K
  /\ stack_walker_prog_call_count s = 0.
Proof.
  intros (H1 & H2 & H3). rewrite H2. simpl.
  repeat split; assumption.
Qed.

(** X7. What P1 hands to the walker.  When P1 ends in the tail call, the
    walker is installed, the state slot and the offsets of the interpreter's
    version are there (so the walker's own lookups succeed), and the state
    is the freshly reset one but for the pointers: interpreter information
    of the process, pid and tid of the task, an empty zeroed stack marked
    complete, no walker invocation counted, a non-null frame pointer, and a
    non-null thread state whenever TLS was used.  Nothing was published. *)
Theorem entry_handoff_state (K : Constants) (env : Env) (c c' : Cpu) :
  unwind_python_stack K env c = (TailCalled, c') ->
  exists info off,
    pid_to_interpreter_info env !! current_pid env = Some info
    /\ version_specific_offsets env !! py_version_index info = Some off
    /\ global_state_slot env = true
    /\ walker_installed env = true
    /\ interpreter_info (global_state c') = info
    /\ pid (sample (global_state c')) = current_pid env
    /\ tid (sample (global_state c')) = current_tid env
    /\ stack_status (sample (global_state c')) = STACK_COMPLETE
    /\ stack (sample (global_state c')) = zero_stack K
    /\ stack_walker_prog_call_count (global_state c') = 0
    /\ frame_ptr (global_state c') <> 0
    /\ (use_tls info = true -> thread_state (global_state c') <> 0)
    /\ stack_traces c' = stack_traces c
    /\ interpreter_stack_id c' = interpreter_stack_id c.
Proof.
  intros Hrun. pose proof (unwind_python_stack_cases K env c) as H.
  rewrite Hrun in H. inversion H as [| | | | | |info off s reads Hpass Hoff
    Hfresh Hfp Hts Hw Hreads|]; subst.
  destruct Hpass as (_ & _ & _ & Hi & Hg).
  destruct (fresh_sample_fields _ _ _ _ Hfresh)
    as (F1 & F2 & F3 & F4 & F5 & F6).
  exists info, off.
  change (global_state (with_state s (with_events (reads ++ [EvTailCall]) c)))
    with s.
  repeat (split; [assumption|]). split; reflexivity.
Qed.

Lemma entry_handoff_state_witness :
  exists info off,
    pid_to_interpreter_info (env_chain 2) !! current_pid (env_chain 2)
    = Some info
    /\ version_specific_offsets (env_chain 2) !! py_version_index info
       = Some off
    /\ global_state_slot (env_chain 2) = true
    /\ walker_installed (env_chain 2) = true
    /\ interpreter_info (global_state (handoff seed_constants (env_chain 2)))
       = info
    /\ pid (sample (global_state (handoff seed_constants (env_chain 2))))
       = current_pid (env_chain 2)
    /\ tid (sample (global_state (handoff seed_constants (env_chain 2))))
       = current_tid (env_chain 2)
    /\ stack_status (sample (global_state (handoff seed_constants (env_chain 2))))
       = STACK_COMPLETE
    /\ stack (sample (global_state (handoff seed_constants (env_chain 2))))
       = zero_stack seed_constants
    /\ stack_walker_prog_call_count
         (global_state (handoff seed_constants (env_chain 2))) = 0
    /\ frame_ptr (global_state (handoff seed_constants (env_chain 2))) <> 0
    /\ (use_tls info = true ->
        thread_state (global_state (handoff seed_constants (env_chain 2))) <> 0)
    /\ stack_traces (handoff seed_constants (env_chain 2))
       = stack_traces (boot_cpu seed_constants)
    /\ interpreter_stack_id (handoff seed_constants (env_chain 2))
       = interpreter_stack_id (boot_cpu seed_constants).
Proof.
  apply (entry_handoff_state seed_constants (env_chain 2)
           (boot_cpu seed_constants)
           (handoff seed_constants (env_chain 2))).
  vm_compute. reflexivity.
Defined.

Lemma trace_same evs c : trace c = trace c ++ evs -> evs = [].
Proof.
  intros H. rewrite <- (app_nil_r (trace c)) in H at 1.
  apply app_inv_head in H. symmetry. exact H.
Qed.

Lemma is_read_not_update reads :
  Forall is_read reads ->
  Forall (fun e => forall h, e <> EvStackTracesUpdate h) reads.
Proof.
  intros H. eapply Forall_impl; [exact H|]. intros e He h ->. exact He.
Qed.

Lemma is_read_not_aggregate reads :
  Forall is_read reads -> EvAggregateStacks ∉ reads.
Proof.
  intros H Hin. rewrite Forall_forall in H. exact (H _ Hin).
Qed.

(** X8. P1 publishes nothing: whatever the process image and the maps, it
    leaves the [stack_traces] map and the interpreter stack id of the unwind
    state as they were, and none of its events is an update of
    [stack_traces]. *)
Theorem entry_never_publishes (K : Constants) (env : Env) (c : Cpu) :
  stack_traces (snd (unwind_python_stack K env c)) = stack_traces c
  /\ interpreter_stack_id (snd (unwind_python_stack K env c))
     = interpreter_stack_id c
  /\ exists evs,
       trace (snd (unwind_python_stack K env c)) = trace c ++ evs
       /\ Forall (fun e => forall h, e <> EvStackTracesUpdate h) evs.
Proof.
  pose proof (unwind_python_stack_cases K env c) as H.
  destruct (unwind_python_stack K env c) as [r c'].
  inversion H; subst; cbn [snd]; (split; [reflexivity|]);
    (split; [reflexivity|]).
  1, 2, 4: exists []; rewrite app_nil_r; split; [reflexivity | constructor].
  - eexists. split; [reflexivity|].
    repeat constructor; intros h Hh; discriminate Hh.
  - eexists. split; [reflexivity|]. apply is_read_not_update. assumption.
  - eexists. split; [reflexivity|]. apply Forall_app.
    split; [apply is_read_not_update; assumption|].
    repeat constructor; intros h Hh; discriminate Hh.
  - eexists. split; [reflexivity|]. apply Forall_app.
    split; [apply is_read_not_update; assumption|].
    repeat constructor; intros h Hh; discriminate Hh.
  - eexists. split; [reflexivity|]. apply Forall_app.
    split; [apply is_read_not_update; assumption|].
    repeat constructor; intros h Hh; discriminate Hh.
Qed.

(** X9. The sample P1 hands to the aggregator itself is an empty one.  If
    P1 calls [aggregate_stacks], it does so once, as its last action, and
    leaves with 0; the sample then carries the pid and tid of the task, the
    status complete and the zeroed stack of length 0, and no walker
    invocation was counted. *)
Theorem entry_aggregates_empty_sample (K : Constants) (env : Env) (c : Cpu)
    (evs : list Event) :
  trace (snd (unwind_python_stack K env c)) = trace c ++ evs ->
  EvAggregateStacks ∈ evs ->
  fst (run_prog (unwind_python_stack K env) c) = Exited 0
  /\ (exists evs0, evs = evs0 ++ [EvAggregateStacks]
                   /\ EvAggregateStacks ∉ evs0)
  /\ pid (sample (global_state (snd (unwind_python_stack K env c))))
     = current_pid env
  /\ tid (sample (global_state (snd (unwind_python_stack K env c))))
     = current_tid env
  /\ stack_status (sample (global_state (snd (unwind_python_stack K env c))))
     = STACK_COMPLETE
  /\ stack (sample (global_state (snd (unwind_python_stack K env c))))
     = zero_stack K
  /\ stack_walker_prog_call_count
       (global_state (snd (unwind_python_stack K env c))) = 0.
Proof.
  intros Htr Hin. pose proof (unwind_python_stack_cases K env c) as H.
  unfold run_prog.
  destruct (unwind_python_stack K env c) as [r c'].
  cbn [snd] in *.
  inversion H as
    [ Hs | Hh He Hp | Hh He Hp Hi | info Hh He Hp Hi Hg
    | info s reads Hpass Hfresh Hoff Hreads
    | info s reads msg Hpass Hfresh Hreads
    | info off s reads Hpass Hoff Hfresh Hfp Hts Hw Hreads
    | info s reads Hpass Hfresh Hfp Hw Hreads ]; subst;
    try (apply trace_same in Htr; subst evs; apply elem_of_nil in Hin;
         contradiction);
    unfold with_state, with_events in Htr; cbn [trace] in Htr;
    apply app_inv_head in Htr; subst evs.
  - apply list_elem_of_In in Hin. simpl in Hin.
    destruct Hin as [Hin | [Hin | []]]; discriminate Hin.
  - exfalso. exact (is_read_not_aggregate _ Hreads Hin).
  - destruct (fresh_sample_fields _ _ _ _ Hfresh)
      as (F1 & F2 & F3 & F4 & F5 & F6).
    split; [reflexivity|]. split.
    + exists (reads ++ [EvErrorMsg msg]). rewrite <- app_assoc.
      split; [reflexivity|]. rewrite not_elem_of_app.
      split; [apply is_read_not_aggregate; assumption|].
      rewrite list_elem_of_singleton. discriminate.
    + change (global_state (with_state s _)) with s. auto.
  - exfalso. apply elem_of_app in Hin. destruct Hin as [Hin | Hin].
    + exact (is_read_not_aggregate _ Hreads Hin).
    + apply list_elem_of_singleton in Hin. discriminate Hin.
  - destruct (fresh_sample_fields _ _ _ _ Hfresh)
      as (F1 & F2 & F3 & F4 & F5 & F6).
    split; [reflexivity|]. split.
    + exists (reads ++ [EvTailCall]). rewrite <- app_assoc.
      split; [reflexivity|]. rewrite not_elem_of_app.
      split; [apply is_read_not_aggregate; assumption|].
      rewrite list_elem_of_singleton. discriminate.
    + change (global_state (with_state s _)) with s. auto.
Qed.

Lemma entry_aggregates_empty_sample_witness :
  fst (run_prog (unwind_python_stack seed_constants env_null_direct)
         (boot_cpu seed_constants)) = Exited 0
  /\ stack (sample (global_state null_direct_end)) = zero_stack seed_constants.
Proof.
  destruct (entry_aggregates_empty_sample seed_constants env_null_direct
              (boot_cpu seed_constants) (trace null_direct_end))
    as (H1 & _ & _ & _ & _ & H2 & _).
  - reflexivity.
  - apply list_elem_of_In. vm_compute.
    repeat first [left; reflexivity | right].
  - split; [exact H1 | exact H2].
Defined.

(** X10. The exit codes of P1.  P1 leaves with 0 or 1 or in the tail call.
    It leaves with 1 exactly when a scratch slot ([heap], the error symbol)
    is missing or the task has a process id without an entry in
    [pid_to_interpreter_info]; in that case the per-CPU state is as it was
    found, and the error sample is emitted exactly in the second case. *)
Theorem entry_exit_codes (K : Constants) (env : Env) (c : Cpu) :
  (forall rc, fst (run_prog (unwind_python_stack K env) c) = Exited rc ->
              rc = 0 \/ rc = 1)
  /\ (fst (run_prog (unwind_python_stack K env) c) = Exited 1
      <-> heap_slot env = false \/ err_symbol_slot env = false
          \/ (current_pid env <> 0
              /\ pid_to_interpreter_info env !! current_pid env = None))
  /\ (fst (run_prog (unwind_python_stack K env) c) = Exited 1 ->
      global_state (snd (unwind_python_stack K env c)) = global_state c
      /\ (trace (snd (unwind_python_stack K env c)) = trace c
          \/ (heap_slot env = true /\ err_symbol_slot env = true
              /\ trace (snd (unwind_python_stack K env c))
                 = trace c ++ [EvErrorMsg "interpreter_info was NULL";
                               EvErrorSample]))).
Proof.
  pose proof (unwind_python_stack_cases K env c) as H.
  unfold run_prog.
  destruct (unwind_python_stack K env c) as [r c'].
  cbn [snd].
  inversion H as
    [ Hs | Hh He Hp | Hh He Hp Hi | info Hh He Hp Hi Hg
    | info s reads Hpass Hfresh Hoff Hreads
    | info s reads msg Hpass Hfresh Hreads
    | info off s reads Hpass Hoff Hfresh Hfp Hts Hw Hreads
    | info s reads Hpass Hfresh Hfp Hw Hreads ]; subst; cbn [fst].
  - split; [intros rc [= <-]; auto|]. split; [|auto].
    split; [intros _; tauto | reflexivity].
  - split; [intros rc [= <-]; auto|]. split; [|intros [=]].
    split; [intros [=]|]. intros [Hx | [Hx | [Hx _]]]; congruence.
  - split; [intros rc [= <-]; auto|]. split; [|intros _; split; [reflexivity|]].
    + split; [auto|reflexivity].
    + right. auto.
  - split; [intros rc [= <-]; auto|]. split; [|intros [=]].
    split; [intros [=]|]. intros [Hx | [Hx | [_ Hx]]]; congruence.
  - destruct Hpass as (Hh & He & Hp & Hi & Hg).
    split; [intros rc [= <-]; auto|]. split; [|intros [=]].
    split; [intros [=]|]. intros [Hx | [Hx | [_ Hx]]]; congruence.
  - destruct Hpass as (Hh & He & Hp & Hi & Hg).
    split; [intros rc [= <-]; auto|]. split; [|intros [=]].
    split; [intros [=]|]. intros [Hx | [Hx | [_ Hx]]]; congruence.
  - destruct Hpass as (Hh & He & Hp & Hi & Hg).
    split; [intros rc [=]|]. split; [|intros [=]].
    split; [intros [=]|]. intros [Hx | [Hx | [_ Hx]]]; congruence.
  - destruct Hpass as (Hh & He & Hp & Hi & Hg).
    split; [intros rc [= <-]; auto|]. split; [|intros [=]].
    split; [intros [=]|]. intros [Hx | [Hx | [_ Hx]]]; congruence.
Qed.

(** ** P1 does not look at what the last event left *)

Section StateLocal.

Lemma local_ret {A} (a : A) : state_local (ret a).
Proof.
  intros s. exists (Val a), s, []. intros c <-.
  rewrite with_events_nil, with_state_same. reflexivity.
Qed.

Lemma local_return {A} rc : state_local (@return_ A rc).
Proof.
  intros s. exists (Return rc), s, []. intros c <-.
  rewrite with_events_nil, with_state_same. reflexivity.
Qed.

Lemma local_get_state : state_local get_state.
Proof.
  intros s. exists (Val s), s, []. intros c <-.
  rewrite with_events_nil, with_state_same. reflexivity.
Qed.

Lemma local_modify f : state_local (modify_state f).
Proof.
  intros s. exists (Val tt), (f s), []. intros c <-.
  rewrite with_events_nil. reflexivity.
Qed.

Lemma local_emit e : state_local (emit e).
Proof.
  intros s. exists (Val tt), s, [e]. intros c <-. reflexivity.
Qed.

Lemma local_bind {A B} (m : M A) (k : A -> M B) :
  state_local m -> (forall a, state_local (k a)) -> state_local (bind m k).
Proof.
  intros Hm Hk s. destruct (Hm s) as (r & s1 & evs & Hrun).
  destruct r as [a | rc |].
  - destruct (Hk a s1) as (r2 & s2 & evs2 & Hrun2).
    exists r2, s2, (evs ++ evs2). intros c Hc. unfold bind.
    rewrite (Hrun c Hc).
    rewrite (Hrun2 (with_state s1 (with_events evs c)) eq_refl).
    rewrite with_state_logged. reflexivity.
  - exists (Return rc), s1, evs. intros c Hc. unfold bind.
    rewrite (Hrun c Hc). reflexivity.
  - exists TailCalled, s1, evs. intros c Hc. unfold bind.
    rewrite (Hrun c Hc). reflexivity.
Qed.

Lemma local_goto {A} (label : M Z) :
  state_local label -> state_local (@goto A label).
Proof.
  intros Hl s. destruct (Hl s) as (r & s1 & evs & Hrun).
  destruct r as [a | rc |];
    [exists (Return a) | exists (Return rc) | exists TailCalled];
    exists s1, evs; intros c Hc; unfold goto; rewrite (Hrun c Hc); reflexivity.
Qed.

Lemma local_call (f : M Z) : state_local f -> state_local (call f).
Proof.
  intros Hl s. destruct (Hl s) as (r & s1 & evs & Hrun).
  destruct r as [a | rc |];
    [exists (Val a) | exists (Val rc) | exists TailCalled];
    exists s1, evs; intros c Hc; unfold call; rewrite (Hrun c Hc); reflexivity.
Qed.

Lemma local_tail_call env : state_local (bpf_tail_call env).
Proof.
  intros s. unfold bpf_tail_call, bind, emit.
  destruct (walker_installed env);
    [exists TailCalled | exists (Val tt)]; exists s, [EvTailCall];
    intros c <-; reflexivity.
Qed.

End StateLocal.

Ltac local_tac :=
  repeat
    match goal with
    | |- forall _ : prod _ _, _ => intros [? ?]
    | |- forall _, _ => intro
    | |- state_local (if ?b then _ else _) => destruct b
    | |- state_local (match ?x with _ => _ end) => destruct x
    | |- state_local (bind _ _) => apply local_bind
    | |- state_local (goto _) => apply local_goto
    | |- state_local (call _) => apply local_call
    | |- state_local (bpf_tail_call _) => apply local_tail_call
    | |- state_local (ret _) => apply local_ret
    | |- state_local (return_ _) => apply local_return
    | |- state_local get_state => apply local_get_state
    | |- state_local (modify_state _) => apply local_modify
    | |- state_local (emit _) => apply local_emit
    end.

Lemma local_tls_read K env tls_base info :
  state_local (tls_read K env tls_base info).
Proof.
  unfold tls_read, bpf_probe_read_user, bpf_probe_read. cbv zeta. local_tac.
Qed.

Lemma local_entry_body K env info :
  state_local
    (thread_state_direct env info >>
     thread_state_tls K env info >>
     let! offsets := GET_OFFSETS env in
     top_frame_and_jump env offsets).
Proof.
  pose proof (local_tls_read K env (tls_base_of_task env) info) as Htls.
  unfold thread_state_direct, thread_state_tls, GET_OFFSETS,
    top_frame_and_jump, bpf_probe_read_user, ERROR_MSG,
    submit_without_unwinding, aggregate_stacks.
  cbv zeta. local_tac; try exact Htls.
Qed.

(** X11. P1 does not look at what the previous perf event left on the CPU.
    Its result and its events are the same for every world it is started
    in; the per-CPU state is either left alone (the exits before the reset)
    or replaced by a state that does not depend on the old one, and nothing
    else of the world changes. *)
Theorem entry_forgets_previous_state (K : Constants) (env : Env) :
  (exists r evs,
      forall c, unwind_python_stack K env c = (r, with_events evs c))
  \/ (exists r s evs,
        forall c,
          unwind_python_stack K env c = (r, with_state s (with_events evs c))).
Proof.
  destruct (heap_slot env) eqn:Hh.
  2:{ left. exists (Return 1), []. intros c. rewrite with_events_nil.
      unfold unwind_python_stack. rewrite Hh. reflexivity. }
  destruct (err_symbol_slot env) eqn:He.
  2:{ left. exists (Return 1), []. intros c. rewrite with_events_nil.
      unfold unwind_python_stack. rewrite Hh, He. reflexivity. }
  destruct (Z.eq_dec (current_pid env) 0) as [Hp | Hp].
  { left. exists (Return 0), []. intros c. rewrite with_events_nil.
    unfold unwind_python_stack. rewrite Hh, He. cbv zeta.
    fold (current_pid env). rewrite Hp. reflexivity. }
  destruct (pid_to_interpreter_info env !! current_pid env) as [info|] eqn:Hi.
  2:{ left.
      exists (Return 1), [EvErrorMsg "interpreter_info was NULL"; EvErrorSample].
      intros c. unfold unwind_python_stack. rewrite Hh, He. cbv zeta.
      fold (current_pid env). rewrite Hi.
      apply Z.eqb_neq in Hp. rewrite Hp.
      unfold with_events, bind, ret, ERROR_MSG, goto, error, ERROR_SAMPLE,
        emit. simpl. rewrite <- app_assoc. reflexivity. }
  destruct (global_state_slot env) eqn:Hg.
  2:{ left. exists (Return 0), []. intros c. rewrite with_events_nil.
      unfold unwind_python_stack, GET_STATE. rewrite Hh, He, Hg. cbv zeta.
      fold (current_pid env). rewrite Hi.
      apply Z.eqb_neq in Hp. rewrite Hp. reflexivity. }
  right.
  destruct (local_entry_body K env info
              (reset_state K info (current_pid env) (current_tid env)))
    as (r & s & evs & Hrun).
  exists r, s, evs. intros c.
  rewrite (unwind_python_stack_paragraphs K env info c Hh He Hg Hp Hi).
  rewrite (Hrun (with_state
                   (reset_state K info (current_pid env) (current_tid env)) c)
             eq_refl).
  reflexivity.
Qed.

(** ** One perf event, end to end *)

Lemma stack_trace_eq (t : stack_trace_t) l a :
  len t = l -> addresses t = a -> t = {| len := l; addresses := a |}.
Proof. destruct t. simpl. intros -> ->. reflexivity. Qed.

(** X12. One perf event on a readable frame chain, P1 and the walker chain
    together.  If P1 hands off in front of a readable chain of frames with
    entries [l], and the frame budget fills the stack exactly, the event
    ends with 0 and publishes, for the pid and tid of the task, the stack
    whose array holds the entries of the chain in order, cut at
    [MAX_STACK_DEPTH] and followed by zeros, with the number of entries as
    its length; the status is complete exactly when the chain fitted.  The
    stack is stored in [stack_traces] under its hash (when the map accepts
    it) and the hash becomes the interpreter stack id. *)
Theorem perf_event_lists_chain (K : Constants) (env : Env) (c c1 : Cpu)
    (off : PythonVersionOffsets) (l : list Z) :
  0 < PYTHON_STACK_FRAMES_PER_PROG K ->
  0 < PYTHON_STACK_PROG_CNT K ->
  MAX_STACK_DEPTH K = PYTHON_STACK_FRAMES_PER_PROG K * PYTHON_STACK_PROG_CNT K ->
  MAX_STACK_DEPTH K < 2 ^ 64 ->
  unwind_python_stack K env c = (TailCalled, c1) ->
  version_specific_offsets env
    !! py_version_index (interpreter_info (global_state c1)) = Some off ->
  chain_entries K env off (frame_ptr (global_state c1)) l ->
  exists c',
    perf_event K env (Z.to_nat (PYTHON_STACK_PROG_CNT K)) c = Some (0, c')
    /\ pid (sample (global_state c')) = current_pid env
    /\ tid (sample (global_state c')) = current_tid env
    /\ stack (sample (global_state c'))
       = {| len := Z.min (Z.of_nat (length l)) (MAX_STACK_DEPTH K);
            addresses :=
              take (Z.to_nat (MAX_STACK_DEPTH K)) l
              ++ replicate (Z.to_nat (MAX_STACK_DEPTH K) - length l) 0 |}
    /\ stack_status (sample (global_state c'))
       = (if Z.of_nat (length l) <=? MAX_STACK_DEPTH K
          then STACK_COMPLETE else STACK_TRUNCATED)
    /\ interpreter_stack_id c'
       = wrap64 (hash_stack env (stack (sample (global_state c'))))
    /\ stack_traces c'
       = if stack_traces_accepts env
         then <[wrap64 (hash_stack env (stack (sample (global_state c'))))
                := stack (sample (global_state c'))]> (stack_traces c)
         else stack_traces c.
Proof.
  intros Hfpp Hcnt Hmax Hlt Hrun Hoff Hch.
  pose proof (unwind_python_stack_cases K env c) as H. rewrite Hrun in H.
  inversion H as [| | | | | |info off' s reads Hpass Hoff' Hfresh Hfp Hts Hw
    Hreads|]; subst.
  destruct Hpass as (Hh & _ & _ & _ & Hg).
  destruct (fresh_sample_fields _ _ _ _ Hfresh)
    as (F1 & F2 & F3 & F4 & F5 & F6).
  set (c1 := with_state s (with_events (reads ++ [EvTailCall]) c)) in *.
  change (global_state c1) with s in Hoff, Hch.
  unfold perf_event, run_prog. rewrite Hrun.
  destruct (Z.to_nat (PYTHON_STACK_PROG_CNT K)) as [|j] eqn:Ej; [lia|].
  assert (Hb : (S j * Z.to_nat (PYTHON_STACK_FRAMES_PER_PROG K))%nat
               = Z.to_nat (MAX_STACK_DEPTH K)) by nia.
  assert (Hlen0 : stack_len s = 0) by (unfold stack_len; rewrite F5; reflexivity).
  assert (Hal0 : addresses (stack (sample s))
                 = replicate (Z.to_nat (MAX_STACK_DEPTH K)) 0)
    by (rewrite F5; reflexivity).
  destruct (walker_chain_entries K env off j c1 l Hg Hoff Hw Hfpp Hmax Hlt)
    as (c' & Hrun' & Hlen & Htake & Hdrop & Hst);
    try (change (global_state c1) with s); try assumption; try lia.
  { rewrite Hal0. apply length_replicate. }
  destruct (walker_chain_run K env off j c1 Hg Hoff)
    as (c'' & evs & Hrun'' & _ & Hpub & _ & Horg & _);
    try (change (global_state c1) with s); try assumption; try lia.
  { split; [unfold stack_len in Hlen0; lia | rewrite Hal0; apply length_replicate]. }
  rewrite Hrun' in Hrun''. injection Hrun'' as <-.
  change (global_state c1) with s in Hlen, Htake, Hdrop, Horg.
  rewrite Hb in Hlen, Htake, Hst. rewrite Hlen0 in Hlen, Htake.
  rewrite Hal0 in Htake, Hdrop. simpl in Htake.
  destruct Horg as (_ & _ & _ & Hpid & Htid).
  exists c'. split; [exact Hrun'|].
  split; [rewrite Hpid; exact F2|]. split; [rewrite Htid; exact F3|].
  split.
  - apply stack_trace_eq.
    + unfold stack_len in Hlen. rewrite Hlen. lia.
    + rewrite <- (take_drop (Z.to_nat (stack_len (global_state c')))
                    (addresses (stack (sample (global_state c'))))).
      rewrite Htake, (Hdrop _ (Nat.le_refl _)), drop_replicate.
      f_equal. f_equal. rewrite Hlen. lia.
  - split.
    + rewrite Hst.
      destruct (Nat.leb_spec (length l) (Z.to_nat (MAX_STACK_DEPTH K)));
        destruct (Z.leb_spec (Z.of_nat (length l)) (MAX_STACK_DEPTH K));
        first [reflexivity | lia].
    + rewrite Hpub at 1 3. unfold published. simpl.
      rewrite Hh. split; reflexivity.
Qed.

Lemma perf_event_lists_chain_witness :
  exists c',
    perf_event seed_constants (env_chain 2) 3 (boot_cpu seed_constants)
    = Some (0, c')
    /\ stack (sample (global_state c'))
       = {| len := 2;
            addresses :=
              [frame_encoding seed_constants (env_chain 2) offsets_py39
                 65536 131072;
               frame_encoding seed_constants (env_chain 2) offsets_py39
                 65792 131328]
              ++ replicate 10 0 |}
    /\ stack_status (sample (global_state c')) = STACK_COMPLETE.
Proof.
  destruct (perf_event_lists_chain seed_constants (env_chain 2)
              (boot_cpu seed_constants)
              (handoff seed_constants (env_chain 2)) offsets_py39
              [frame_encoding seed_constants (env_chain 2) offsets_py39
                 65536 131072;
               frame_encoding seed_constants (env_chain 2) offsets_py39
                 65792 131328])
    as (c' & Hrun & _ & _ & Hstack & Hst & _);
    try reflexivity.
  - eapply (entries_link _ _ _ 65536 131072 65792);
      [ eapply plain_frame_py39;
        [ vm_compute; discriminate | vm_compute; reflexivity
        | vm_compute; discriminate ]
      | vm_compute; reflexivity
      | vm_compute; reflexivity
      | ].
    eapply (entries_end _ _ _ 65792 131328 0);
      [ eapply plain_frame_py39;
        [ vm_compute; discriminate | vm_compute; reflexivity
        | vm_compute; discriminate ]
      | vm_compute; reflexivity
      | vm_compute; reflexivity
      | reflexivity ].
  - exists c'. split; [exact Hrun|]. split; [exact Hstack | exact Hst].
Defined.

(** ** A tail call that fails *)

(** X13. With no walker in the [programs] array, an invocation of the
    walker that has budget left ends the chain itself: it publishes and
    returns 0.  Unless it walked to the end of the frames (frame pointer
    null, status complete), it publishes behind the failed tail call with
    the status the sample had on entry: the sample is never marked
    truncated, whatever was left to walk. *)
Theorem failed_tail_call_keeps_status (K : Constants) (env : Env)
    (off : PythonVersionOffsets) (c : Cpu) :
  walker_installed env = false ->
  global_state_slot env = true ->
  version_specific_offsets env
    !! py_version_index (interpreter_info (global_state c)) = Some off ->
  stack_bounded K (global_state c) ->
  MAX_STACK_DEPTH K < 2 ^ 64 ->
  stack_walker_prog_call_count (global_state c) + 1 < PYTHON_STACK_PROG_CNT K ->
  exists c' evs,
    walk_python_stack K env c = (Val 0, c')
    /\ Forall is_read evs
    /\ stack_walker_prog_call_count (global_state c')
       = stack_walker_prog_call_count (global_state c) + 1
    /\ ((stack_status (sample (global_state c')) = STACK_COMPLETE
         /\ frame_ptr (global_state c') = 0
         /\ c' = published env (global_state c') evs c)
        \/ (stack_status (sample (global_state c'))
            = stack_status (sample (global_state c))
            /\ c' = published env (global_state c') (evs ++ [EvTailCall]) c)).
Proof.
  intros Hw Hslot Hoff Hb Hmax Hcnt.
  destruct (walk_python_stack_general K env off c Hslot Hoff Hb Hmax)
    as (r & c' & evs & Hrun & Hreads & _ & _ & _ & _ & Hc & Hcase).
  exists c', evs.
  destruct Hcase as [(-> & Hinst & _)
                    | [(-> & _ & _ & Hst & Hc1)
                      | [(-> & Hge & _)
                        | (-> & Hst & Hz & Hc1)]]].
  - rewrite Hw in Hinst. discriminate Hinst.
  - split; [exact Hrun|]. split; [exact Hreads|]. split; [exact Hc|].
    right. split; assumption.
  - exfalso. lia.
  - split; [exact Hrun|]. split; [exact Hreads|]. split; [exact Hc|].
    left. repeat split; assumption.
Qed.

Lemma failed_tail_call_keeps_status_witness :
  exists c',
    walk_python_stack seed_constants (without_walker (env_chain 13))
      (cpu_at seed_constants 65536) = (Val 0, c')
    /\ stack_status (sample (global_state c')) = STACK_COMPLETE
    /\ stack_len (global_state c') = 4
    /\ frame_ptr (global_state c') = 66560.
Proof.
  destruct (failed_tail_call_keeps_status seed_constants
              (without_walker (env_chain 13)) offsets_py39
              (cpu_at seed_constants 65536))
    as (c' & evs & Hrun & _ & _ & _);
    [ reflexivity | reflexivity | reflexivity
    | split; [split|]; vm_compute; first [discriminate | reflexivity]
    | reflexivity | reflexivity | ].
  exists c'. split; [exact Hrun|].
  vm_compute in Hrun. injection Hrun as <-.
  repeat split; reflexivity.
Defined.

(** ** The names read_symbol reports *)

Lemma until_nul_app_nul (l r : list ascii) :
  Forall (fun ch => ch <> NUL) l -> until_nul (l ++ NUL :: r) = l.
Proof.
  induction 1 as [|ch l Hch _ IH]; simpl.
  - reflexivity.
  - apply Ascii.eqb_neq in Hch. rewrite Hch, IH. reflexivity.
Qed.

Lemma until_nul_replicate_nul n : until_nul (replicate n NUL) = [].
Proof. destruct n; reflexivity. Qed.

Lemma c_string_load env size buf addr :
  until_nul (load_user_str env size buf addr)
  = take (size - 1) (c_string_at env addr).
Proof.
  unfold load_user_str, c_string_at.
  destruct (user_str env addr) as [s|].
  - unfold str_into_buf. simpl app. apply until_nul_app_nul.
    apply Forall_take. apply until_nul_no_nul.
  - rewrite until_nul_replicate_nul, take_nil. reflexivity.
Qed.

Lemma length_load_user_str env size buf addr :
  (0 < size)%nat -> length buf = size ->
  length (load_user_str env size buf addr) = size.
Proof.
  intros Hs Hb. unfold load_user_str.
  destruct (user_str env addr) as [s|]; [|apply length_replicate].
  unfold str_into_buf. rewrite !length_app, length_drop. simpl length.
  pose proof (length_take_le (until_nul s) (size - 1)).
  assert (length (take (size - 1) (until_nul s)) <= size - 1)%nat
    by (rewrite length_take; lia).
  lia.
Qed.

Lemma load_user_u32_range env a : 0 <= snd (load_user_u32 env a) < 2 ^ 32.
Proof.
  unfold load_user_u32. destruct (user_u32 env a); simpl; [|lia].
  unfold wrap32. apply Z.mod_pos_bound. lia.
Qed.

(** What [read_symbol] reports, whatever the first argument is. *)
Lemma read_symbol_reports (K : Constants) (env : Env)
    (off : PythonVersionOffsets) (frame_addr code_addr : Z) (c : Cpu) :
  (0 < CLASS_NAME_LEN K)%nat ->
  (0 < METHOD_NAME_LEN K)%nat ->
  (0 < PATH_LEN K)%nat ->
  exists sym lineno evs,
    read_symbol K env off frame_addr code_addr (reset_symbol K) c
    = (Val (sym, lineno), with_events evs c)
    /\ names_of_code K env off code_addr sym lineno.
Proof.
  intros Hc Hm Hp.
  assert (Htail : forall sym0 c0,
    length (class_name sym0) = CLASS_NAME_LEN K ->
    length (method_name sym0) = METHOD_NAME_LEN K ->
    length (path sym0) = PATH_LEN K ->
    exists sym lineno evs,
      (let! (_, pystr_ptr) :=
         bpf_probe_read_user env
           (padd code_addr (co_filename (py_code_object off))) in
       let! p :=
         bpf_probe_read_user_str env (PATH_LEN K) (path sym0)
           (padd pystr_ptr (data (py_string off))) in
       let symbol := set_path p sym0 in
       let! (_, pystr_ptr) :=
         bpf_probe_read_user env
           (padd code_addr (co_name (py_code_object off))) in
       let! name :=
         bpf_probe_read_user_str env (METHOD_NAME_LEN K) (method_name symbol)
           (padd pystr_ptr (data (py_string off))) in
       let symbol := set_method_name name symbol in
       let! (_, lineno) :=
         bpf_probe_read_user_u32 env
           (padd code_addr (co_firstlineno (py_code_object off))) in
       ret (symbol, lineno)) c0
      = (Val (sym, lineno), with_events evs c0)
      /\ names_of_code K env off code_addr sym lineno).
  { intros sym0 c0 L1 L2 L3. unfold names_of_code, code_string_addr.
    pose proof (load_user_u32_range env
                  (padd code_addr (co_firstlineno (py_code_object off))))
      as Hrange.
    rewrite bind_probe_user.
    destruct (load_user_u64 env
                (padd code_addr (co_filename (py_code_object off))))
      as [e6 file_ptr].
    rewrite bind_probe_user_str. cbv zeta.
    rewrite bind_probe_user.
    destruct (load_user_u64 env (padd code_addr (co_name (py_code_object off))))
      as [e7 name_ptr].
    rewrite bind_probe_user_str.
    rewrite bind_probe_user_u32.
    destruct (load_user_u32 env _) as [e8 lineno].
    unfold ret. rewrite !with_events_app.
    eexists _, _, _. split; [reflexivity|].
    cbn [class_name method_name path set_method_name set_path snd] in *.
    split; [apply c_string_load|]. split; [apply c_string_load|].
    split; [reflexivity|]. split; [exact Hrange|]. split; [exact L1|].
    split; apply length_load_user_str; assumption. }
  unfold read_symbol.
  rewrite bind_probe_user.
  destruct (load_user_u64 env (padd code_addr (co_varnames (py_code_object off))))
    as [e1 varnames].
  rewrite bind_probe_user.
  destruct (load_user_u64 env (padd varnames (ob_item (py_tuple_object off))))
    as [e2 item].
  rewrite bind_probe_user_str.
  cbn [method_name set_method_name reset_symbol class_name path] in *.
  set (buf := load_user_str env (METHOD_NAME_LEN K)
                (replicate (METHOD_NAME_LEN K) NUL)
                (padd item (data (py_string off)))) in *.
  assert (Hbuf : length buf = METHOD_NAME_LEN K)
    by (apply length_load_user_str; [exact Hm | apply length_replicate]).
  assert (Hfin : forall sym0 acc,
    length (class_name sym0) = CLASS_NAME_LEN K ->
    length (method_name sym0) = METHOD_NAME_LEN K ->
    length (path sym0) = PATH_LEN K ->
    forall m : M (symbol_t * Z),
      (forall c0, m c0
         = (let! (_, pystr_ptr) :=
              bpf_probe_read_user env
                (padd code_addr (co_filename (py_code_object off))) in
            let! p :=
              bpf_probe_read_user_str env (PATH_LEN K) (path sym0)
                (padd pystr_ptr (data (py_string off))) in
            let symbol := set_path p sym0 in
            let! (_, pystr_ptr) :=
              bpf_probe_read_user env
                (padd code_addr (co_name (py_code_object off))) in
            let! name :=
              bpf_probe_read_user_str env (METHOD_NAME_LEN K)
                (method_name symbol)
                (padd pystr_ptr (data (py_string off))) in
            let symbol := set_method_name name symbol in
            let! (_, lineno) :=
              bpf_probe_read_user_u32 env
                (padd code_addr (co_firstlineno (py_code_object off))) in
            ret (symbol, lineno)) c0) ->
      exists sym lineno evs,
        m (with_events acc c) = (Val (sym, lineno), with_events evs c)
        /\ names_of_code K env off code_addr sym lineno).
  { intros sym0 acc L1 L2 L3 m Hm0.
    destruct (Htail sym0 (with_events acc c) L1 L2 L3)
      as (sym & lineno & evs & Hrun & Hrest).
    exists sym, lineno, (acc ++ evs).
    split; [|exact Hrest].
    rewrite Hm0. etransitivity; [exact Hrun|].
    rewrite with_events_app. reflexivity. }
  destruct (load_s32 buf =? load_s32 self_str) eqn:Es;
    [|destruct (load_s32 buf =? load_s32 cls_str) eqn:Ec];
    cbn [orb]; unfold bind at 1.
  - rewrite bind_probe_user.
    destruct (load_user_u64 env (padd frame_addr _)) as [e3 obj]. simpl snd.
    unfold bind at 1. rewrite bind_probe_user.
    destruct (load_user_u64 env (padd obj (ob_type _))) as [e4 ty]. simpl snd.
    unfold ret at 1. rewrite bind_probe_user.
    destruct (load_user_u64 env (padd ty _)) as [e5 name_ptr]. simpl snd.
    rewrite bind_probe_user_str. unfold ret at 1.
    rewrite !with_events_app.
    apply (Hfin (set_class_name
                   (load_user_str env (CLASS_NAME_LEN K)
                      (replicate (CLASS_NAME_LEN K) NUL) name_ptr)
                   (set_method_name buf (reset_symbol K))));
      [ apply length_load_user_str; [exact Hc | apply length_replicate]
      | exact Hbuf | apply length_replicate | reflexivity ].
  - rewrite bind_probe_user.
    destruct (load_user_u64 env (padd frame_addr _)) as [e3 obj]. simpl snd.
    unfold bind at 1. unfold ret at 1. rewrite bind_probe_user.
    destruct (load_user_u64 env (padd obj _)) as [e5 name_ptr]. simpl snd.
    rewrite bind_probe_user_str. unfold ret at 1.
    rewrite !with_events_app.
    apply (Hfin (set_class_name
                   (load_user_str env (CLASS_NAME_LEN K)
                      (replicate (CLASS_NAME_LEN K) NUL) name_ptr)
                   (set_method_name buf (reset_symbol K))));
      [ apply length_load_user_str; [exact Hc | apply length_replicate]
      | exact Hbuf | apply length_replicate | reflexivity ].
  - unfold ret at 1. rewrite !with_events_app.
    apply (Hfin (set_method_name buf (reset_symbol K)));
      [ apply length_replicate | exact Hbuf | apply length_replicate
      | reflexivity ].
Qed.

(** X14. [read_symbol] always yields a value, whatever it can or cannot
    read.  Started on a reset symbol, the method name it reports is the C
    string of the code object's [co_name], cut to [METHOD_NAME_LEN - 1]
    characters, and the path that of [co_filename], cut to [PATH_LEN - 1]
    characters (both empty when unreadable): the first-argument name that
    passed through the method-name buffer does not show.  The line is the
    32-bit value at [co_firstlineno], zero when unreadable, and the three
    buffers keep their sizes. *)
Theorem read_symbol_names (K : Constants) (env : Env)
    (off : PythonVersionOffsets) (frame_addr code_addr : Z) (c : Cpu) :
  (0 < CLASS_NAME_LEN K)%nat ->
  (0 < METHOD_NAME_LEN K)%nat ->
  (0 < PATH_LEN K)%nat ->
  exists sym lineno evs,
    read_symbol K env off frame_addr code_addr (reset_symbol K) c
    = (Val (sym, lineno), with_events evs c)
    /\ names_of_code K env off code_addr sym lineno.
Proof. apply read_symbol_reports. Qed.

Lemma read_symbol_names_witness :
  exists sym lineno evs,
    read_symbol seed_constants env_named offsets_py39 65536 131072
      (reset_symbol seed_constants) (boot_cpu seed_constants)
    = (Val (sym, lineno), with_events evs (boot_cpu seed_constants))
    /\ until_nul (method_name sym) = ["r"; "u"; "n"]%char
    /\ until_nul (path sym) = ["a"; "p"; "p"; "."; "p"; "y"]%char
    /\ lineno = 17.
Proof.
  destruct (read_symbol_names seed_constants env_named offsets_py39
              65536 131072 (boot_cpu seed_constants))
    as (sym & lineno & evs & Hrun & Hm & Hp & Hl & _);
    [simpl; lia | simpl; lia | simpl; lia |].
  exists sym, lineno, evs. split; [exact Hrun|].
  rewrite Hm, Hp, Hl. vm_compute. auto.
Defined.

(** X15. What a stack entry says about its frame.  When the symbol id of
    the frame's symbol fits in 32 bits, the upper half of the entry the
    walker appends is the first line of the code object (the 32-bit value at
    [co_firstlineno], zero when unreadable) and the lower half is the
    symbol id. *)
Theorem frame_entry_decodes (K : Constants) (env : Env)
    (off : PythonVersionOffsets) (frame_addr code_addr : Z)
    (sym : symbol_t) (lineno : Z) :
  (0 < CLASS_NAME_LEN K)%nat ->
  (0 < METHOD_NAME_LEN K)%nat ->
  (0 < PATH_LEN K)%nat ->
  symbolize K env off frame_addr code_addr = (sym, lineno) ->
  0 <= wrap64 (get_symbol_id env sym) < 2 ^ 32 ->
  Z.shiftr (frame_encoding K env off frame_addr code_addr) 32
  = snd (load_user_u32 env
           (padd code_addr (co_firstlineno (py_code_object off))))
  /\ Z.land (frame_encoding K env off frame_addr code_addr) (Z.ones 32)
     = wrap64 (get_symbol_id env sym).
Proof.
  intros Hc Hm Hp Hsym Hid.
  destruct (read_symbol_reports K env off frame_addr code_addr (boot_cpu K)
              Hc Hm Hp)
    as (sym' & lineno' & evs & Hrun & _ & _ & Hl & Hrange & _).
  unfold frame_encoding. unfold symbolize in Hsym |- *.
  rewrite Hrun in Hsym |- *. injection Hsym as -> ->.
  destruct (encode_frame_parts lineno (wrap64 (get_symbol_id env sym))
              Hrange Hid) as (_ & Hhi & Hlo).
  rewrite Hhi, Hlo, Hl. split; reflexivity.
Qed.

Lemma frame_entry_decodes_witness :
  Z.shiftr (frame_encoding seed_constants env_named offsets_py39 65536 131072)
    32 = 17
  /\ Z.land (frame_encoding seed_constants env_named offsets_py39 65536 131072)
       (Z.ones 32) = 4.
Proof.
  apply (frame_entry_decodes seed_constants env_named offsets_py39
           65536 131072
           (fst (symbolize seed_constants env_named offsets_py39 65536 131072))
           (snd (symbolize seed_constants env_named offsets_py39 65536 131072))).
  - simpl; lia.
  - simpl; lia.
  - simpl; lia.
  - apply surjective_pairing.
  - vm_compute. split; [discriminate | reflexivity].
Defined.

(** ** tls_read fails closed *)

(** X16. [tls_read] returns 0 or -1 after at most two reads and changes
    nothing but the thread-state field.  It returns 0 only behind a
    successful final read, whose value is then the thread state; when it
    returns -1 the thread state is either untouched (no final read was
    made: unknown libc, missing offsets entry, unreadable musl pointer) or
    zero (the final read faulted), never a stale or partial value. *)
Theorem tls_read_fails_closed (K : Constants) (env : Env) (tls_base : Z)
    (info : InterpreterInfo) (c : Cpu) :
  exists r s' evs,
    tls_read K env tls_base info c = (r, with_state s' (with_events evs c))
    /\ Forall is_read evs
    /\ (length evs <= 2)%nat
    /\ ((r = Val 0
         /\ exists a v reads,
              evs = reads ++ [EvProbeRead a]
              /\ any_u64 env a = Some v
              /\ s' = set_thread_state (wrap64 v) (global_state c))
        \/ (r = Return (-1)
            /\ (s' = global_state c
                \/ s' = set_thread_state 0 (global_state c)))).
Proof.
  unfold tls_read, bpf_probe_read_user, bpf_probe_read, load_user_u64,
    load_any_u64, bind, emit, ret, return_, modify_state.
  repeat (simpl;
          match goal with
          | |- context [?a =? ?b] => destruct (a =? b) eqn:?
          | |- context [glibc_offsets env !! ?k] => destruct (glibc_offsets env !! k)
          | |- context [musl_offsets env !! ?k] => destruct (musl_offsets env !! k)
          | |- context [arch env] => destruct (arch env)
          | |- context [user_u64 env ?a] => destruct (user_u64 env a) eqn:?
          | |- context [any_u64 env ?a] => destruct (any_u64 env a) eqn:?
          end).
  all: simpl; rewrite <- ?app_assoc; simpl app.
  all: first
    [ exists (Return (-1)), (global_state c), [];
      rewrite with_events_nil, with_state_same;
      split; [reflexivity|]; split; [constructor|]; split; [simpl; lia|];
      right; split; [reflexivity|]; left; reflexivity
    | eexists _, _, _;
      split; [unfold with_state, with_events; simpl; reflexivity|];
      split; [repeat constructor|]; split; [simpl; lia|];
      first
        [ left; split; [reflexivity|];
          match goal with
          | H : any_u64 _ ?a = Some ?v |- _ => exists a, v
          end;
          match goal with
          | |- exists reads, ?evs = _ /\ _ =>
              exists (take (length evs - 1) evs)
          end;
          split; [reflexivity|]; split; [assumption | reflexivity]
        | right; split; [reflexivity|];
          first [left; reflexivity | right; reflexivity] ] ].
Qed.
